(** * hours_parser: working hours extracted from free-form Russian text

    A shallow embedding of [parser.py]: the lexicon tables, the regex
    tokenizer, the two-state range parser and the [WorkingHours] queries,
    followed by the properties of the specification that hold on the code
    and the inputs on which the others fail.

    Python strings are lists of Unicode code points; Python exceptions are
    the [Raise] results of an error monad; the Unicode tables of the Python
    runtime ([str.lower], [\w], [\d], case-insensitive matching, [strftime])
    are an interface, [PyRuntime], with one concrete instance. *)

From Stdlib Require Import ZArith List Bool Lia String Ascii.
Import ListNotations.
Open Scope Z_scope.

(* ================================================================== *)
(** ** Python values *)

(** A [str]: its code points. *)
Definition pystr := list Z.

Fixpoint utf8_decode (pending : nat) (acc : Z) (bs : list Z) : pystr :=
  match bs with
  | [] => []
  | b :: bs' =>
    match pending with
    | O => if b <? 128 then b :: utf8_decode 0 0 bs'
           else if b <? 224 then utf8_decode 1 (b - 192) bs'
           else if b <? 240 then utf8_decode 2 (b - 224) bs'
           else utf8_decode 3 (b - 240) bs'
    | S O => (acc * 64 + (b - 128)) :: utf8_decode 0 0 bs'
    | S k => utf8_decode k (acc * 64 + (b - 128)) bs'
    end
  end.

(** [u "пн"] is the Python literal ['пн']: the code points of a UTF-8
    encoded literal of this file. *)
Definition u (s : string) : pystr :=
  utf8_decode 0 0
    (List.map (fun a => Z.of_nat (nat_of_ascii a)) (list_ascii_of_string s)).

Definition str_eqb (a b : pystr) : bool :=
  if list_eq_dec Z.eq_dec a b then true else false.

Definition str_in (a : pystr) (l : list pystr) : bool := existsb (str_eqb a) l.

(** [sep.join(parts)] *)
Fixpoint str_join (sep : pystr) (parts : list pystr) : pystr :=
  match parts with
  | [] => []
  | [p] => p
  | p :: ps => p ++ sep ++ str_join sep ps
  end.

(** [s.replace(old, new)] for a one-character [old]. *)
Definition str_replace1 (old : Z) (new : pystr) (s : pystr) : pystr :=
  flat_map (fun c => if c =? old then new else [c]) s.

(** [UnicodeEncodeError] is a subclass of [ValueError] in Python; the one
    handler of the program, in [parse_hours], encloses no call that raises
    it. *)
Inductive exn :=
  AttributeError | TypeError | ValueError | KeyError | UnicodeEncodeError.

Inductive result (A : Type) :=
| Ok (a : A)
| Raise (e : exn).
Arguments Ok {A} a.
Arguments Raise {A} e.

Definition bind {A B} (m : result A) (k : A -> result B) : result B :=
  match m with
  | Ok a => k a
  | Raise e => Raise e
  end.

Notation "x <- m ;; k" := (bind m (fun x => k))
  (at level 61, m at next level, right associativity).

(** [d.get(k, None)] on a dict with string keys, kept in insertion order. *)
Fixpoint dict_get {V} (d : list (pystr * V)) (k : pystr) : option V :=
  match d with
  | [] => None
  | (k', v) :: d' => if str_eqb k' k then Some v else dict_get d' k
  end.

Definition keys {K V} (d : list (K * V)) : list K := List.map fst d.

(** An [OrderedDict] keyed by integers: [d[k] = v] replaces in place or
    appends a new key at the end. *)
Fixpoint od_set {V} (k : Z) (v : V) (d : list (Z * V)) : list (Z * V) :=
  match d with
  | [] => [(k, v)]
  | (k', v') :: d' => if k' =? k then (k, v) :: d' else (k', v') :: od_set k v d'
  end.

Fixpoint od_find {V} (k : Z) (d : list (Z * V)) : option V :=
  match d with
  | [] => None
  | (k', v) :: d' => if k' =? k then Some v else od_find k d'
  end.

(** [d[k]], a [KeyError] on a missing key. *)
Definition od_get {V} (k : Z) (d : list (Z * V)) : result V :=
  match od_find k d with
  | Some v => Ok v
  | None => Raise KeyError
  end.

(** [range(a, b)] *)
Definition py_range (a b : Z) : list Z :=
  List.map (fun i => a + Z.of_nat i) (seq 0 (Z.to_nat (b - a))).

(* ================================================================== *)
(** ** The runtime's Unicode tables *)

Record Time := mkTime
  { t_hour : Z; t_minute : Z; t_second : Z; t_microsecond : Z }.

Class PyRuntime := {
  (** [str.lower()] *)
  str_lower : pystr -> pystr;
  (** the class [\w] under [re.UNICODE] *)
  is_word_char : Z -> bool;
  (** the class [\d], with the value [int()] gives the digit *)
  digit_value : Z -> option Z;
  (** [ci_eq p c]: the pattern literal [p] matches the character [c] under
      [re.IGNORECASE] *)
  ci_eq : Z -> Z -> bool;
  (** [time.strftime(format)]: the text it returns, *)
  strftime : Time -> pystr -> pystr;
  (** and the exception it raises instead on a format it does not take *)
  strftime_error : pystr -> option exn
}.

(* ================================================================== *)
(** ** Lexicon *)

(** Order matters: long names come first in the regex. *)
Definition WEEKDAYS : list (pystr * Z) :=
  [ (u "понедельник", 1);
    (u "пн", 1);
    (u "вторник", 2);
    (u "вт", 2);
    (u "среда", 3);
    (u "ср", 3);
    (u "четверг", 4);
    (u "чт", 4);
    (u "пятница", 5);
    (u "пт", 5);
    (u "суббота", 6);
    (u "сб", 6);
    (u "воскресенье", 7);
    (u "воскр", 7);
    (u "вс", 7) ].

Definition WEEKDAY_RANGES : list (pystr * (Z * Z)) :=
  [ (u "будни", (1, 5));
    (u "без перерыва и выходных", (1, 7));
    (u "выходные", (6, 7));
    (u "ежедневно", (1, 7));
    (u "ежеднено", (1, 7));
    (u "режим работы", (1, 7)) ].

(* ================================================================== *)
(** ** Tokens and ranges *)

Inductive TokenType := hour | weekday | weekday_range | range_mark | word.

Definition TokenType_eqb (a b : TokenType) : bool :=
  match a, b with
  | hour, hour | weekday, weekday | weekday_range, weekday_range
  | range_mark, range_mark | word, word => true
  | _, _ => false
  end.

Record Token := mkToken { value : pystr; type : TokenType }.

(** [Range(start, end=None)]: both fields hold any Python value, [None]
    included. *)
Record Range (T : Type) := mkRange { start : option T; end_ : option T }.
Arguments mkRange {T} start end_.
Arguments start {T} r.
Arguments end_ {T} r.

Definition set_end {T} (r : Range T) (e : option T) : Range T :=
  {| start := start r; end_ := e |}.

Definition RangePair : Type := option (Range Z) * option (Range pystr).

(* ================================================================== *)
(** ** Tokenizer: [build_regex], [token_pattern.finditer], [get_token] *)

Section Tokenizer.
Context `{RT : PyRuntime}.

Definition is_digit (c : Z) : bool :=
  match digit_value c with Some _ => true | None => false end.

(** A literal of the pattern against the head of the text. *)
Fixpoint ci_prefix (k s : pystr) : bool :=
  match k, s with
  | [], _ => true
  | p :: k', c :: s' => ci_eq p c && ci_prefix k' s'
  | _ :: _, [] => false
  end.

(** [[:.-]] *)
Definition is_hour_sep (c : Z) : bool :=
  ci_eq 58 c || ci_eq 46 c || ci_eq 45 c.

(** Length of the match of [\d{1,2}[:.-]\d{2}|\d{1,2}] at the head of [s];
    the greedy [\d{1,2}] first tries two digits, then one. *)
Definition match_hour (s : pystr) : option nat :=
  match s with
  | d1 :: t1 =>
    if is_digit d1 then
      let alt2 :=
        match t1 with
        | d2 :: _ => if is_digit d2 then Some 2%nat else Some 1%nat
        | [] => Some 1%nat
        end in
      match t1 with
      | c2 :: c3 :: c4 :: t4 =>
        let one_digit :=
          if is_hour_sep c2 && is_digit c3 && is_digit c4
          then Some 4%nat else alt2 in
        match t4 with
        | c5 :: _ =>
          if is_digit c2 && is_hour_sep c3 && is_digit c4 && is_digit c5
          then Some 5%nat else one_digit
        | [] => one_digit
        end
      | _ => alt2
      end
    else None
  | [] => None
  end.

(** An alternation of literals: the first one, in order, that matches. *)
Definition match_literals (lits : list pystr) (s : pystr) : option nat :=
  option_map (@List.length Z) (find (fun k => ci_prefix k s) lits).

Fixpoint span_word (s : pystr) : nat :=
  match s with
  | c :: s' => if is_word_char c then S (span_word s') else O
  | [] => O
  end.

(** [\w+] *)
Definition match_word (s : pystr) : option nat :=
  match span_word s with
  | O => None
  | n => Some n
  end.

Definition RANGE_MARKS : list pystr := [u "-"; u "до"; u ","].

(** One attempt of [token_pattern] at the head of [s]: the alternatives in
    the order of [build_regex], the token carrying the matched text and the
    name of the group that matched. *)
Definition match_at (s : pystr) : option Token :=
  let tok ty n := Some (mkToken (firstn n s) ty) in
  match match_hour s with
  | Some n => tok hour n
  | None =>
  match match_literals (keys WEEKDAYS) s with
  | Some n => tok weekday n
  | None =>
  match match_literals (keys WEEKDAY_RANGES) s with
  | Some n => tok weekday_range n
  | None =>
  match match_literals RANGE_MARKS s with
  | Some n => tok range_mark n
  | None =>
  match match_word s with
  | Some n => tok word n
  | None => None
  end end end end end.

(** [finditer]: non-overlapping matches from left to right.  [skip] counts
    the characters of the last match that are still to be passed over. *)
Fixpoint finditer (skip : nat) (s : pystr) : list Token :=
  match s with
  | [] => []
  | _ :: s' =>
    match skip with
    | S k => finditer k s'
    | O =>
      match match_at s with
      | Some t => t :: finditer (List.length (value t) - 1) s'
      | None => finditer 0 s'
      end
    end
  end.

(** The text preprocessing of [Parser.__init__]. *)
Definition preprocess (text : pystr) : pystr :=
  str_replace1 8212 (u "-") (str_replace1 8211 (u "-") (str_lower text)).

Definition tokenize (text : pystr) : list Token := finditer 0 (preprocess text).

End Tokenizer.

(* ================================================================== *)
(** ** A concrete runtime

    CPython 3 restricted to the Basic Latin, Cyrillic and Cyrillic
    Extended-C blocks, with the case mapping of the letters U+0400..U+045F
    only; every other code point is caseless, not a digit and not a word
    character. *)

Module CPython.

Definition in_range (lo hi c : Z) : bool := (lo <=? c) && (c <=? hi).

(** Simple lower-case mapping: A-Z, U+0410..U+042F, U+0400..U+040F. *)
Definition lower_char (c : Z) : Z :=
  if in_range 65 90 c then c + 32
  else if in_range 1040 1071 c then c + 32
  else if in_range 1024 1039 c then c + 80
  else c.

(** The lower-case letters U+1C80..U+1C88 are case variants of ordinary
    Cyrillic letters (they share their upper case); [re.IGNORECASE] takes
    them as equal, [str.lower] leaves them alone. *)
Definition case_variant (c : Z) : Z :=
  if c =? 7296 then 1074        (* rounded ve  ~ в *)
  else if c =? 7297 then 1076   (* long-legged de ~ д *)
  else if c =? 7298 then 1086   (* narrow o ~ о *)
  else if c =? 7299 then 1089   (* wide es ~ с *)
  else if c =? 7300 then 1090   (* tall te ~ т *)
  else if c =? 7301 then 1090   (* three-legged te ~ т *)
  else if c =? 7302 then 1098   (* tall hard sign ~ ъ *)
  else if c =? 7303 then 1123   (* tall yat ~ ѣ *)
  else if c =? 7304 then 42571  (* unblended uk ~ ꙋ *)
  else c.

Definition casefold (c : Z) : Z := case_variant (lower_char c).

Definition word_char (c : Z) : bool :=
  in_range 48 57 c || in_range 65 90 c || in_range 97 122 c || (c =? 95)
  || in_range 1024 1153 c || in_range 1162 1327 c || in_range 7296 7304 c.

Definition digit (c : Z) : option Z :=
  if in_range 48 57 c then Some (c - 48) else None.

Definition two_digits (n : Z) : pystr := [48 + n / 10 mod 10; 48 + n mod 10].

(** [%H], [%M], [%S] and [%%]; any other character is copied, and the
    format ends at its first NUL character, as a C string does. *)
Fixpoint format_time (t : Time) (fmt : pystr) : pystr :=
  match fmt with
  | [] => []
  | c :: fmt' =>
    if c =? 0 then [] else
    match fmt' with
    | d :: fmt'' =>
      if (c =? 37) && (d =? 72) then two_digits (t_hour t) ++ format_time t fmt''
      else if (c =? 37) && (d =? 77) then two_digits (t_minute t) ++ format_time t fmt''
      else if (c =? 37) && (d =? 83) then two_digits (t_second t) ++ format_time t fmt''
      else if (c =? 37) && (d =? 37) then 37 :: format_time t fmt''
      else c :: format_time t fmt'
    | [] => [c]
    end
  end.

(** A format with a surrogate code point (U+D800..U+DFFF) cannot be
    encoded for the C library: [strftime] of CPython 3.11 raises on it,
    whatever the time. *)
Definition format_error (fmt : pystr) : option exn :=
  if existsb (in_range 55296 57343) fmt then Some UnicodeEncodeError else None.

#[export] Instance runtime : PyRuntime := {
  str_lower := List.map lower_char;
  is_word_char := word_char;
  digit_value := digit;
  ci_eq := fun p c => casefold p =? casefold c;
  strftime := format_time;
  strftime_error := format_error
}.

End CPython.

(* ================================================================== *)
(** ** Parser *)

Inductive State := OUTSIDE_DATETIME | INSIDE_DATETIME.

Definition State_eqb (a b : State) : bool :=
  match a, b with
  | OUTSIDE_DATETIME, OUTSIDE_DATETIME | INSIDE_DATETIME, INSIDE_DATETIME => true
  | _, _ => false
  end.

(** The fields of a [Parser] object that [parse] updates; the tokens
    iterator is the token list the loop below walks. *)
Record Parser := mkParser
  { state : State;
    ranges : list RangePair;
    days_range : option (Range Z);
    hours_range : option (Range pystr);
    show_room_flag : bool }.

Definition DAYTIME_TOKEN_TYPES : list TokenType := [hour; weekday; weekday_range].
Definition SHOWROOM_WORDS : list pystr := [u "продаж"; u "автосалон"].
Definition EXCLUDE_WORDS : list pystr := [u "с"; u "c"].

Definition is_daytime (ty : TokenType) : bool :=
  existsb (TokenType_eqb ty) DAYTIME_TOKEN_TYPES.

(** Truth value of an object reference: [None] is false, a [Range] is true. *)
Definition truthy {A} (o : option A) : bool :=
  match o with Some _ => true | None => false end.

Definition nonempty {A} (l : list A) : bool :=
  match l with [] => false | _ :: _ => true end.

Definition Parser_init : Parser :=
  {| state := OUTSIDE_DATETIME; ranges := []; days_range := None;
     hours_range := None; show_room_flag := false |}.

Definition set_state (self : Parser) (s : State) : Parser :=
  {| state := s; ranges := ranges self; days_range := days_range self;
     hours_range := hours_range self; show_room_flag := show_room_flag self |}.

Definition set_days_range (self : Parser) (r : option (Range Z)) : Parser :=
  {| state := state self; ranges := ranges self; days_range := r;
     hours_range := hours_range self; show_room_flag := show_room_flag self |}.

Definition set_hours_range (self : Parser) (r : option (Range pystr)) : Parser :=
  {| state := state self; ranges := ranges self; days_range := days_range self;
     hours_range := r; show_room_flag := show_room_flag self |}.

Definition set_show_room_flag (self : Parser) (b : bool) : Parser :=
  {| state := state self; ranges := ranges self; days_range := days_range self;
     hours_range := hours_range self; show_room_flag := b |}.

Definition save_ranges (self : Parser) : Parser :=
  {| state := state self;
     ranges := ranges self ++ [(days_range self, hours_range self)];
     days_range := None;
     hours_range := None;
     show_room_flag := show_room_flag self |}.

(** [next_token.type]: an [AttributeError] when the lookahead is [None]. *)
Definition type_of (next_token : option Token) : result TokenType :=
  match next_token with
  | Some t => Ok (type t)
  | None => Raise AttributeError
  end.

Definition handle_datetime_state (self : Parser) (token : Token)
    (next_token : option Token) : result Parser :=
  if TokenType_eqb (type token) hour && negb (truthy (hours_range self)) then
    Ok (set_hours_range self (Some (mkRange (Some (value token)) None)))
  else if TokenType_eqb (type token) weekday && negb (truthy (days_range self)) then
    Ok (set_days_range self
          (Some (set_end (mkRange (dict_get WEEKDAYS (value token)) None)
                         (dict_get WEEKDAYS (value token)))))
  else if TokenType_eqb (type token) weekday_range
          && negb (truthy (days_range self)) then
    match dict_get WEEKDAY_RANGES (value token) with
    | Some (a, b) =>
      Ok (set_days_range self (Some (set_end (mkRange (Some a) None) (Some b))))
    | None => Ok self
    end
  else
    c4 <- (if TokenType_eqb (type token) range_mark then
             nt <- type_of next_token ;;
             Ok (TokenType_eqb nt hour && truthy (hours_range self))
           else Ok false) ;;
    if c4 then
      Ok (set_hours_range self
            (option_map (fun r => set_end r (option_map value next_token))
                        (hours_range self)))
    else
      c5 <- (if TokenType_eqb (type token) range_mark then
               nt <- type_of next_token ;;
               Ok (TokenType_eqb nt weekday && truthy (days_range self))
             else Ok false) ;;
      if c5 then
        Ok (set_days_range self
              (option_map
                 (fun r => set_end r
                    (match next_token with
                     | Some n => dict_get WEEKDAYS (value n)
                     | None => None
                     end))
                 (days_range self)))
      else Ok self.

Definition handle_outside_datetime_state (self : Parser) (token : Token)
    (next_token : option Token) : result Parser :=
  if str_in (value token) SHOWROOM_WORDS then Ok (set_show_room_flag self true)
  else Ok self.

Definition handle_state (self : Parser) (token : Token)
    (next_token : option Token) : result Parser :=
  match state self with
  | INSIDE_DATETIME => handle_datetime_state self token next_token
  | OUTSIDE_DATETIME => handle_outside_datetime_state self token next_token
  end.

(** What the [if]/[elif] chain at the head of the loop of [parse] leaves:
    the loop goes on, or it is left through [break]. *)
Inductive Flow := Continue (self : Parser) | Break (self : Parser).

Definition close_block (self : Parser) : Flow :=
  let self := save_ranges (set_state self OUTSIDE_DATETIME) in
  if show_room_flag self then Break self else Continue self.

(** The conditions are evaluated in the order of the source and with its
    short circuits, so that [next_token.type] is only reached where Python
    reaches it. *)
Definition transition (self : Parser) (token : Token)
    (next_token : option Token) : result Flow :=
  if State_eqb (state self) OUTSIDE_DATETIME && is_daytime (type token) then
    Ok (Continue (set_state self INSIDE_DATETIME))
  else if State_eqb (state self) INSIDE_DATETIME
          && TokenType_eqb (type token) word
          && negb (str_in (value token) EXCLUDE_WORDS) then
    Ok (close_block self)
  else
    c3 <- (if State_eqb (state self) INSIDE_DATETIME
              && TokenType_eqb (type token) range_mark then
             nt <- type_of next_token ;; Ok (negb (is_daytime nt))
           else Ok false) ;;
    if c3 then Ok (close_block self)
    else
      c4 <- (if State_eqb (state self) OUTSIDE_DATETIME
                && show_room_flag self
                && negb (is_daytime (type token)) then
               nt <- type_of next_token ;;
               Ok (negb (is_daytime nt) && nonempty (ranges self))
             else Ok false) ;;
      if c4 then Ok (Break self)
      else if State_eqb (state self) INSIDE_DATETIME
              && truthy (hours_range self)
              && truthy (days_range self)
              && is_daytime (type token) then
        Ok (Continue (save_ranges (set_state self OUTSIDE_DATETIME)))
      else Ok (Continue self).

(** The [while token:] loop; [rest] is what the tokens iterator still
    holds, so that [get_token()] is its head, [None] when it is exhausted. *)
Fixpoint parse_loop (self : Parser) (token : Token) (rest : list Token)
    : result (list RangePair) :=
  let next_token := hd_error rest in
  match transition self token next_token with
  | Raise e => Raise e
  | Ok (Break self) => Ok (ranges self)
  | Ok (Continue self) =>
    match handle_state self token next_token with
    | Raise e => Raise e
    | Ok self =>
      let self :=
        if negb (truthy next_token) && State_eqb (state self) INSIDE_DATETIME
        then save_ranges self else self in
      match rest with
      | [] => Ok (ranges self)
      | t :: rest' => parse_loop self t rest'
      end
    end
  end.

Definition parse_tokens (tokens : list Token) : result (list RangePair) :=
  match tokens with
  | [] => Ok []
  | token :: rest => parse_loop Parser_init token rest
  end.

Section ParserOnText.
Context `{RT : PyRuntime}.

(** [Parser(text).parse()] *)
Definition Parser_parse (text : pystr) : result (list RangePair) :=
  parse_tokens (tokenize text).

End ParserOnText.

(* ================================================================== *)
(** ** Dates and times *)

(** A naive [datetime]: the proleptic ordinal of its date and its clock. *)
Record DateTime := mkDateTime
  { ordinal : Z; dt_hour : Z; dt_minute : Z; dt_second : Z; dt_microsecond : Z }.

(** [datetime.isoweekday()]: [toordinal() % 7 or 7]. *)
Definition isoweekday (d : DateTime) : Z :=
  if ordinal d mod 7 =? 0 then 7 else ordinal d mod 7.

Definition lex (c1 c2 : comparison) : comparison :=
  match c1 with Eq => c2 | _ => c1 end.

Definition DateTime_compare (a b : DateTime) : comparison :=
  lex (ordinal a ?= ordinal b)
 (lex (dt_hour a ?= dt_hour b)
 (lex (dt_minute a ?= dt_minute b)
 (lex (dt_second a ?= dt_second b)
      (dt_microsecond a ?= dt_microsecond b)))).

Definition dt_le (a b : DateTime) : bool :=
  match DateTime_compare a b with Gt => false | _ => true end.

Definition dt_lt (a b : DateTime) : bool :=
  match DateTime_compare a b with Lt => true | _ => false end.

(** What [parse_hours] asks of its second argument, a [datetime] or a
    [time]: [obj.replace(hour=h, minute=m, second=0, microsecond=0)]. *)
Class HasClock (A : Type) := replace_clock : A -> Z -> Z -> A.

#[export] Instance DateTime_clock : HasClock DateTime :=
  fun d h m => {| ordinal := ordinal d; dt_hour := h; dt_minute := m;
                  dt_second := 0; dt_microsecond := 0 |}.

#[export] Instance Time_clock : HasClock Time :=
  fun _ h m => {| t_hour := h; t_minute := m; t_second := 0; t_microsecond := 0 |}.

(** [time()] *)
Definition midnight : Time := mkTime 0 0 0 0.

Fixpoint first_some {A B} (f : A -> option B) (l : list A) : option B :=
  match l with
  | [] => None
  | a :: l' => match f a with Some b => Some b | None => first_some f l' end
  end.

Section Strptime.
Context `{RT : PyRuntime}.

Definition between (lo hi c : Z) : bool := (lo <=? c) && (c <=? hi).

(** The directive [%H] of [strptime] is the regex [2[0-3]|[0-1]\d|\d]:
    its matches at the head of [s], in the order the regex tries them, each
    with its integer value and the text left. *)
Definition directive_H (s : pystr) : list (Z * pystr) :=
  match s with
  | a :: b :: r =>
    (if ci_eq 50 a && between 48 51 b then [(20 + (b - 48), r)] else [])
    ++ (if between 48 49 a
        then match digit_value b with
             | Some v => [((a - 48) * 10 + v, r)]
             | None => []
             end
        else [])
    ++ (match digit_value a with Some v => [(v, b :: r)] | None => [] end)
  | [a] => match digit_value a with Some v => [(v, [])] | None => [] end
  | [] => []
  end.

(** [%M] is [[0-5]\d|\d]. *)
Definition directive_M (s : pystr) : option (Z * pystr) :=
  match s with
  | a :: r =>
    let single :=
      match digit_value a with Some v => Some (v, r) | None => None end in
    match r with
    | b :: r' =>
      if between 48 53 a
      then match digit_value b with
           | Some v => Some ((a - 48) * 10 + v, r')
           | None => single
           end
      else single
    | [] => single
    end
  | [] => None
  end.

(** [datetime.strptime(s, "%H<sep>%M")]: hour and minute of the result,
    [None] for a [ValueError] (no match, or unconverted data remains). *)
Definition strptime_HM (sep : Z) (s : pystr) : option (Z * Z) :=
  match first_some
          (fun hr : Z * pystr =>
             match snd hr with
             | c :: r =>
               if ci_eq sep c
               then option_map (fun mr : Z * pystr => (fst hr, fst mr, snd mr))
                               (directive_M r)
               else None
             | [] => None
             end)
          (directive_H s) with
  | Some (h, m, []) => Some (h, m)
  | _ => None
  end.

(** [datetime.strptime(s, "%H")] *)
Definition strptime_H (s : pystr) : option Z :=
  match directive_H s with
  | (h, []) :: _ => Some h
  | _ => None
  end.

(** [WorkingHours.parse_hours].  [strptime] raises a [TypeError], which is
    not caught, when [hour] is not a string; [replace] raises a
    [ValueError] on a field out of its range. *)
Definition parse_hours {A} `{HasClock A} (hour : option pystr) (datetime_obj : A)
    : result (option A) :=
  match hour with
  | None => Raise TypeError
  | Some s =>
    let replace h m :=
      if between 0 23 h && between 0 59 m
      then Ok (Some (replace_clock datetime_obj h m))
      else Raise ValueError in
    match first_some (fun sep => strptime_HM sep s) [58; 46; 45] with
    | Some (h, m) => replace h m
    | None =>
      match strptime_H s with
      | Some h => replace h 0
      | None => Ok None
      end
    end
  end.

End Strptime.

(* ================================================================== *)
(** ** WorkingHours *)

Definition HoursRange := Range pystr.
Definition RawSchedule := list (Z * option HoursRange).
Definition Schedule := list (Z * option (option Time * option Time)).

Record WorkingHours := mkWorkingHours
  { _raw_schedule : RawSchedule;
    schedule : option Schedule }.

(** [OrderedDict([(n, None) for n in set(WEEKDAYS.values())])] *)
Definition empty_schedule : RawSchedule :=
  List.map (fun n => (n, None)) (nodup Z.eq_dec (List.map snd WEEKDAYS)).

(** The body of the loop of [__init__] for one pair. *)
Definition assign_pair (raw : RawSchedule) (dayhours_range_pair : RangePair)
    : result RawSchedule :=
  let '(days_range, hours_range) := dayhours_range_pair in
  match days_range with
  | Some days =>
    match start days, end_ days with
    | Some s, Some e =>
      Ok (fold_left (fun d day => od_set day hours_range d) (py_range s (e + 1)) raw)
    | _, _ => Raise TypeError
    end
  | None =>
    match hours_range with
    | Some _ =>
      (* If only hours part, then we apply this part for all days *)
      Ok (fold_left (fun d day => od_set day hours_range d) (keys raw) raw)
    | None => Raise ValueError
    end
  end.

Fixpoint assign_ranges (raw : RawSchedule) (ranges : list RangePair)
    : result RawSchedule :=
  match ranges with
  | [] => Ok raw
  | p :: ranges' => raw' <- assign_pair raw p ;; assign_ranges raw' ranges'
  end.

(** The schedule [__init__] builds from the pairs the parser returned. *)
Definition build_raw (ranges : list RangePair) : result WorkingHours :=
  raw <- assign_ranges empty_schedule ranges ;;
  Ok {| _raw_schedule := raw; schedule := None |}.

Section Queries.
Context `{RT : PyRuntime}.

(** [WorkingHours(text)] *)
Definition WorkingHours_init (text : pystr) : result WorkingHours :=
  ranges <- Parser_parse text ;; build_raw ranges.

Definition check_working_time (self : WorkingHours) (datetime_obj : DateTime)
    : result bool :=
  hours_range <- od_get (isoweekday datetime_obj) (_raw_schedule self) ;;
  match hours_range with
  | None => Ok false
  | Some r =>
    start_datetime <- parse_hours (start r) datetime_obj ;;
    end_datetime <- parse_hours (end_ r) datetime_obj ;;
    match start_datetime, end_datetime with
    | Some s, Some e => Ok (dt_le s datetime_obj && dt_lt datetime_obj e)
    | _, _ => Ok true (* Safe default *)
    end
  end.

(** The [while next_day != current_day] loop; [None] when [fuel] rounds
    were not enough to leave it. *)
Fixpoint next_day_loop (fuel : nat) (raw : RawSchedule) (current_day next_day : Z)
    : option (result (option Z)) :=
  match fuel with
  | O => None
  | S fuel' =>
    if negb (next_day =? current_day) then
      match od_get next_day raw with
      | Raise e => Some (Raise e)
      | Ok hours =>
        if truthy hours then Some (Ok (Some next_day))
        else next_day_loop fuel' raw current_day (next_day mod 7 + 1)
      end
    else Some (Ok None)
  end.

Definition get_next_working_day (self : WorkingHours) (datetime_obj : DateTime)
    : option (result (option Z)) :=
  let current_day := isoweekday datetime_obj in
  next_day_loop 7 (_raw_schedule self) current_day (current_day mod 7 + 1).

Fixpoint build_schedule_loop (raw : RawSchedule) (days : list Z)
    (schedule : Schedule) : result Schedule :=
  match days with
  | [] => Ok schedule
  | day :: days' =>
    hours_range <- od_get day raw ;;
    let time_obj := midnight in
    match hours_range with
    | Some r =>
      start_datetime <- parse_hours (start r) time_obj ;;
      end_datetime <- parse_hours (end_ r) time_obj ;;
      build_schedule_loop raw days'
        (od_set day (Some (start_datetime, end_datetime)) schedule)
    | None => build_schedule_loop raw days' (od_set day None schedule)
    end
  end.

(** [build_schedule] returns the schedule; it does not store it. *)
Definition build_schedule (self : WorkingHours) : result Schedule :=
  build_schedule_loop (_raw_schedule self) (keys (_raw_schedule self)) [].

(** [{val: key for key, val in WEEKDAYS.items() if len(key) == 2}] *)
Definition weekday_names : list (Z * pystr) :=
  fold_left (fun d kv => od_set (snd kv) (fst kv) d)
            (filter (fun kv => (List.length (fst kv) =? 2)%nat) WEEKDAYS) [].

(** [t.strftime(format)] on a reference that may be [None]: the attribute
    is looked up first, then the call takes the format or raises on it. *)
Definition strftime_of (t : option Time) (format : pystr) : result pystr :=
  match t with
  | Some t =>
    match strftime_error format with
    | Some e => Raise e
    | None => Ok (strftime t format)
    end
  | None => Raise AttributeError
  end.

Fixpoint print_lines (sch : Schedule) (format weekend_name : pystr)
    : result (list pystr) :=
  match sch with
  | [] => Ok []
  | (day, hours_range) :: sch' =>
    let name := match od_find day weekday_names with
                | Some n => n
                | None => []
                end in
    line <- match hours_range with
            | None => Ok [name; u ": "; weekend_name]
            | Some (s, e) =>
              start <- strftime_of s format ;;
              end_ <- strftime_of e format ;;
              Ok [name; u ": "; start; u " - "; end_]
            end ;;
    rest <- print_lines sch' format weekend_name ;;
    Ok (List.concat line :: rest)
  end.

(** [print_schedule]: the value of [self.build_schedule()] is dropped, so
    [self.schedule] is what it was before the call. *)
Definition print_schedule (self : WorkingHours)
    (format delimiter weekend_name : pystr) : result pystr :=
  _ <- match schedule self with
       | None => build_schedule self
       | Some sch => Ok sch
       end ;;
  match schedule self with
  | None => Raise AttributeError
  | Some sch =>
    print_aggregator <- print_lines sch format weekend_name ;;
    Ok (str_join delimiter print_aggregator)
  end.

End Queries.

(* ================================================================== *)
(** ** Predicates of the specification *)

(** A days-range as the schedule builder needs it: absent, or with both
    bounds weekday numbers. *)
Definition days_in_week (d : option (Range Z)) : Prop :=
  match d with
  | None => True
  | Some r => exists s e, start r = Some s /\ end_ r = Some e
                          /\ 1 <= s <= 7 /\ 1 <= e <= 7
  end.

(** A weekday token whose text is a key of [WEEKDAYS]. *)
Definition known_weekday (t : Token) : Prop :=
  type t = weekday -> exists n, dict_get WEEKDAYS (value t) = Some n.

(** The parser's accumulated days-ranges are all well formed. *)
Definition days_invariant (self : Parser) : Prop :=
  days_in_week (days_range self)
  /\ Forall (fun p : RangePair => days_in_week (fst p)) (ranges self).

(** The letters of the weekday names of the pattern. *)
Definition weekday_letters : pystr := List.concat (keys WEEKDAYS).

(** No character of the preprocessed text is matched by a letter of a
    weekday name other than itself. *)
Definition matched_literally `{RT : PyRuntime} (text : pystr) : bool :=
  forallb (fun c => forallb (fun p => implb (ci_eq p c) (c =? p)) weekday_letters)
          (preprocess text).

(** The showroom flag is set and a block is open or already emitted. *)
Definition showroom_armed (self : Parser) : Prop :=
  show_room_flag self = true
  /\ (state self = INSIDE_DATETIME \/ ranges self <> []).

(** A token that is neither of a daytime kind nor a filler word. *)
Definition ends_block (t : Token) : Prop :=
  is_daytime (type t) = false /\ str_in (value t) EXCLUDE_WORDS = false.

(** The [k]-th weekday after [w], wrapping at 7. *)
Definition day_after (w k : Z) : Z := (w - 1 + k) mod 7 + 1.

Definition has_hours (raw : RawSchedule) (d : Z) : Prop :=
  exists r, od_find d raw = Some (Some r).

Definition no_hours (raw : RawSchedule) (d : Z) : Prop :=
  od_find d raw = Some None.

(** The weekdays a pair of the parser's result speaks for: those from the
    start to the end of its days-range, or every weekday when it has no
    days-range. *)
Definition covers (d : Z) (p : RangePair) : bool :=
  match fst p with
  | Some days =>
    match start days, end_ days with
    | Some s, Some e => (s <=? d) && (d <=? e)
    | _, _ => false
    end
  | None => true
  end.

(** The last pair of the sequence that covers the weekday [d]. *)
Definition last_covering (d : Z) (ranges : list RangePair) : option RangePair :=
  find (covers d) (rev ranges).

(** Every weekday number is a key of the schedule. *)
Definition has_weekdays (raw : RawSchedule) : Prop :=
  forall d, 1 <= d <= 7 -> od_find d raw <> None.

(** What [get_next_working_day] computes for the weekday [w]. *)
Definition next_day_spec (raw : RawSchedule) (w : Z) (r : option Z) : Prop :=
  match r with
  | Some d =>
    exists k, 1 <= k <= 6 /\ d = day_after w k /\ has_hours raw d
              /\ forall j, 1 <= j < k -> no_hours raw (day_after w j)
  | None => forall k, 1 <= k <= 6 -> no_hours raw (day_after w k)
  end.

(** Field projections and setters of the parser state, and nothing else. *)
Ltac parser_simpl :=
  cbn [state ranges days_range hours_range show_room_flag set_state
       set_days_range set_hours_range set_show_room_flag save_ranges set_end
       start end_ fst snd option_map] in *.

(** Case analysis on a weekday number known to lie in 1..7. *)
Ltac week_cases w :=
  let H := fresh in
  assert (w = 1 \/ w = 2 \/ w = 3 \/ w = 4 \/ w = 5 \/ w = 6 \/ w = 7) as H by lia;
  repeat (destruct H as [H|H]); subst w.

(* ================================================================== *)
(** ** The rest of WorkingHours: [get_next_working_hours] *)

(** [date.max.toordinal()], the ordinal of 31.12.9999. *)
Definition MAXORDINAL : Z := 3652059.

(** How a call that adds a [timedelta] to a date ends: as the calls above,
    or in the [OverflowError] of a date outside [date.min .. date.max]. *)
Inductive outcome (A : Type) :=
| Returned (r : result A)
| OverflowError.
Arguments Returned {A} r.
Arguments OverflowError {A}.

(** [datetime(d.year, d.month, d.day)] *)
Definition date_of (d : DateTime) : DateTime :=
  {| ordinal := ordinal d; dt_hour := 0; dt_minute := 0;
     dt_second := 0; dt_microsecond := 0 |}.

(** [d + timedelta(days=n)], [None] for the [OverflowError]. *)
Definition add_days (d : DateTime) (n : Z) : option DateTime :=
  if (1 <=? ordinal d + n) && (ordinal d + n <=? MAXORDINAL)
  then Some {| ordinal := ordinal d + n; dt_hour := dt_hour d;
               dt_minute := dt_minute d; dt_second := dt_second d;
               dt_microsecond := dt_microsecond d |}
  else None.

Section NextHours.
Context `{RT : PyRuntime}.

(** [get_next_working_hours]; the outer [None] is the one of
    [get_next_working_day].  An [int] is true when it is not 0. *)
Definition get_next_working_hours (self : WorkingHours) (datetime_obj : DateTime)
    : option (outcome (option DateTime * option DateTime)) :=
  match get_next_working_day self datetime_obj with
  | None => None
  | Some (Raise e) => Some (Returned (Raise e))
  | Some (Ok next_working_day) =>
    match next_working_day with
    | Some d =>
      if negb (d =? 0) then
        let next_date := date_of datetime_obj in
        (* Modular subtraction *)
        let delta := ((d + 7) - isoweekday datetime_obj) mod 7 in
        match add_days next_date delta with
        | None => Some OverflowError
        | Some next_date =>
          Some (Returned
            (hours_range <- od_get d (_raw_schedule self) ;;
             match hours_range with
             | Some r =>
               start_datetime <- parse_hours (start r) next_date ;;
               end_datetime <- parse_hours (end_ r) next_date ;;
               Ok (start_datetime, end_datetime)
             | None => Ok (None, None)
             end))
        end
      else Some (Returned (Ok (None, None)))
    | None => Some (Returned (Ok (None, None)))
    end
  end.

End NextHours.

(* ================================================================== *)
(** ** [Range.__repr__] and the [str] of the parser's result *)

Fixpoint decimal (fuel : nat) (n : Z) (acc : pystr) : pystr :=
  match fuel with
  | O => acc
  | S fuel' =>
    let acc' := (48 + n mod 10) :: acc in
    if n / 10 =? 0 then acc' else decimal fuel' (n / 10) acc'
  end.

(** [str(n)] for an [int]. *)
Definition str_of_int (n : Z) : pystr :=
  if n <? 0 then 45 :: decimal (S (Z.to_nat (- n))) (- n) []
  else decimal (S (Z.to_nat n)) n [].

(** ["{}".format(x)] for the values a [Range] holds. *)
Class Formattable (T : Type) := format_value : T -> pystr.
#[export] Instance int_formattable : Formattable Z := str_of_int.
#[export] Instance str_formattable : Formattable pystr := fun s => s.

Definition format_option {T} `{Formattable T} (o : option T) : pystr :=
  match o with
  | Some x => format_value x
  | None => u "None"
  end.

(** [Range.__repr__]: ["{} - {}".format(self.start, self.end)] *)
Definition Range_repr {T} `{Formattable T} (r : Range T) : pystr :=
  format_option (start r) ++ u " - " ++ format_option (end_ r).

Definition repr_option_range {T} `{Formattable T} (o : option (Range T)) : pystr :=
  match o with
  | Some r => Range_repr r
  | None => u "None"
  end.

(** [str(ranges)]: the [repr] of a list of pairs. *)
Definition ranges_str (ranges : list RangePair) : pystr :=
  u "[" ++ str_join (u ", ")
             (List.map (fun p : RangePair =>
                          u "(" ++ repr_option_range (fst p) ++ u ", "
                                ++ repr_option_range (snd p) ++ u ")")
                       ranges)
        ++ u "]".

(* ================================================================== *)
(** ** Predicates for the properties of the code *)

(** [slices vs s]: the strings [vs] are non-empty pieces of [s], in the
    order of the text and without overlap. *)
Inductive slices : list pystr -> pystr -> Prop :=
| slices_nil s : slices [] s
| slices_cons gap v vs rest :
    v <> [] -> slices vs rest -> slices (v :: vs) (gap ++ v ++ rest).

(** A weekday-range token whose text is a key of [WEEKDAY_RANGES]. *)
Definition known_range (t : Token) : Prop :=
  type t = weekday_range ->
  exists ab, dict_get WEEKDAY_RANGES (value t) = Some ab.

(** A token that neither opens a block nor sets the showroom flag. *)
Definition plain (t : Token) : bool :=
  negb (is_daytime (type t)) && negb (str_in (value t) SHOWROOM_WORDS).

(** The letters of all names and phrases of the lexicon. *)
Definition lexicon_letters : pystr :=
  List.concat (keys WEEKDAYS ++ keys WEEKDAY_RANGES).

Definition lexicon_matched_literally `{RT : PyRuntime} (text : pystr) : bool :=
  forallb (fun c => forallb (fun p => implb (ci_eq p c) (c =? p)) lexicon_letters)
          (preprocess text).

(** [agree k s]: the literal [k] matches the text [s] as far as the
    shorter of the two reaches. *)
Fixpoint agree `{RT : PyRuntime} (k s : pystr) : bool :=
  match k, s with
  | p :: k', c :: s' => ci_eq p c && agree k' s'
  | _, _ => true
  end.

(** The name [k] of an alternation is not cut short by the literals that
    stand before it: it matches itself, it does not start with a digit,
    and a literal before it that matches its beginning is not shorter. *)
Definition uncut `{RT : PyRuntime} (before : list pystr) (k : pystr) : bool :=
  forallb (fun p => ci_eq p p) k
  && match k with c :: _ => negb (is_digit c) | [] => false end
  && forallb (fun k' => (List.length k <=? List.length k')%nat
                        || negb (agree k' k)) before.

Fixpoint all_uncut `{RT : PyRuntime} (before lits : list pystr) : bool :=
  match lits with
  | [] => true
  | k :: lits' => uncut before k && all_uncut (before ++ [k]) lits'
  end.

(** The digits of the runtime have the values 0..9. *)
Definition decimal_digits `{RT : PyRuntime} : Prop :=
  forall c v, digit_value c = Some v -> 0 <= v <= 9.

(** The bound of an hours-range is the text of an hour token of the
    stream. *)
Definition hour_text_of (tokens : list Token) (bound : option pystr) : Prop :=
  exists t, In t tokens /\ type t = hour /\ bound = Some (value t).

Definition hours_from (tokens : list Token) (h : option (Range pystr)) : Prop :=
  match h with
  | None => True
  | Some r => hour_text_of tokens (start r)
              /\ (end_ r = None \/ hour_text_of tokens (end_ r))
  end.

(** A stored time window with both of its times. *)
Definition complete (entry : Z * option (option Time * option Time)) : Prop :=
  match snd entry with
  | None => True
  | Some (s, e) => s <> None /\ e <> None
  end.

(** A stored entry of a weekday without a window. *)
Definition day_off (entry : Z * option (option Time * option Time)) : Prop :=
  snd entry = None.

Definition daytime_count (tokens : list Token) : nat :=
  List.length (filter (fun t => is_daytime (type t)) tokens).

(** A pair with a days-range or an hours-range. *)
Definition nonnull (p : RangePair) : Prop :=
  truthy (fst p) || truthy (snd p) = true.

(** The weekday numbers, in the order of the schedule. *)
Definition week : list Z := [1; 2; 3; 4; 5; 6; 7].

(** [long_dash_to_hyphen text]: the text with every long dash (U+2013,
    U+2014) written as a hyphen. *)
Definition long_dash_to_hyphen (text : pystr) : pystr :=
  List.map (fun c => if (c =? 8211) || (c =? 8212) then 45 else c) text.

(** Two instants with the same time of day. *)
Definition same_clock (a b : DateTime) : Prop :=
  dt_hour a = dt_hour b /\ dt_minute a = dt_minute b
  /\ dt_second a = dt_second b /\ dt_microsecond a = dt_microsecond b.

(** [parse_hours] reads back the hour and the minute that [strftime] wrote
    with the default format of [print_schedule], on the concrete runtime. *)
Definition round_trip_check (h m : Z) : bool :=
  match parse_hours (RT := CPython.runtime)
          (Some (strftime (PyRuntime := CPython.runtime)
                   (mkTime h m 0 0) (u "%H:%M"))) midnight with
  | Ok (Some t) => (t_hour t =? h) && (t_minute t =? m)
  | _ => false
  end.

(** The entry [build_schedule] stores for a weekday with the raw entry
    [hr]. *)
Definition built_entry `{RT : PyRuntime} (hr : option HoursRange)
    (entry : option (option Time * option Time)) : Prop :=
  match hr with
  | None => entry = None
  | Some r =>
    exists s e, parse_hours (start r) midnight = Ok s
                /\ parse_hours (end_ r) midnight = Ok e
                /\ entry = Some (s, e)
  end.

(* ================================================================== *)
(** ** The test table of the source, on the concrete runtime *)

Module Tests.

Definition days (a b : Z) : option (Range Z) := Some (mkRange (Some a) (Some b)).
Definition hours (a b : string) : option (Range pystr) :=
  Some (mkRange (Some (u a)) (Some (u b))).
Definition parse := Parser_parse (RT := CPython.runtime).

(** 23.03.2017 16:00, a Thursday, and 26.03.2017 16:00, a Sunday. *)
Definition test_datetime1 : DateTime := mkDateTime 736411 16 0 0 0.
Definition test_datetime2 : DateTime := mkDateTime 736411 22 0 0 0.
Definition test_datetime3 : DateTime := mkDateTime 736414 16 0 0 0.

Definition open_at (text : pystr) (d : DateTime) : result bool :=
  wh <- WorkingHours_init (RT := CPython.runtime) text ;;
  check_working_time (RT := CPython.runtime) wh d.

(** 20.03.2017, a Monday, at 10:00, at 9:00 and at 19:00. *)
Definition monday_10 : DateTime := mkDateTime 736408 10 0 0 0.
Definition monday_9 : DateTime := mkDateTime 736408 9 0 0 0.
Definition monday_19 : DateTime := mkDateTime 736408 19 0 0 0.

Definition new := WorkingHours_init (RT := CPython.runtime).

(** The token lists of a showroom text, split where the theorem on the
    showroom flag reads them. *)
Definition tok (ty : TokenType) (v : string) : Token := mkToken (u v) ty.
Definition showroom_block : list Token :=
  [tok range_mark "-"; tok weekday "пт"; tok hour "09:00";
   tok range_mark "-"; tok hour "20:00"].
Definition service_block : list Token :=
  [tok weekday_range "ежедневно"; tok hour "08:00";
   tok range_mark "-"; tok hour "20:00"].

Definition TYPICAL_CASES_WITH_CORRECT_RESULTS
    : list (string * string * bool * bool * bool) :=
  [
    ("Автосалон и сервисный центр: Понедельник - Воскресенье 9:00 - 19:00"%string,
     "[(1 - 7, 9:00 - 19:00)]"%string, true, false, true);
    ("Автосалон: ежедневно 9:00 - 21:00"%string,
     "[(1 - 7, 9:00 - 21:00)]"%string, true, false, true);
    ("Сб.:10.00-18.00"%string,
     "[(6 - 6, 10.00 - 18.00)]"%string, false, false, false);
    ("Пн-Пт: 9.00-19.00"%string,
     "[(1 - 5, 9.00 - 19.00)]"%string, true, false, false);
    ("Ежедневно с 8.00 до 21.00"%string,
     "[(1 - 7, 8.00 - 21.00)]"%string, true, false, true);
    ("Пн - Пт.: 10 - 19"%string,
     "[(1 - 5, 10 - 19)]"%string, true, false, false);
    ("Отдел продаж 09.00 - 21.00 (ежедневно)"%string,
     "[(1 - 7, 09.00 - 21.00)]"%string, true, false, true);
    ("Пн-Пт: 9-00-19-00 Сб.:10-00 - 18-00"%string,
     "[(1 - 5, 9-00 - 19-00), (6 - 6, 10-00 - 18-00)]"%string, true, false, false);
    ("Автосалон: пн-пт 09:00-20:00, сб-вс 10:00-19:00 Сервисный центр: ежедневно 08:00-20:00"%string,
     "[(1 - 5, 09:00 - 20:00), (6 - 7, 10:00 - 19:00)]"%string, true, false, true);
    ("
        - Отдел продаж:
        будни 08:30-20:30,
        выходные 10:00-18:00
        - Отдел сервиса:
        08:30 - 20:30, ежедневно
        - Отдел запчастей:
        08:30 - 20:30, ежедневно
        - Отдел дополнительного оборудования:
         08:30 - 20:30, ежедневно
        "%string,
     "[(1 - 5, 08:30 - 20:30), (6 - 7, 10:00 - 18:00)]"%string, true, false, true);
    ("9:00-20:00 без перерыва и выходных"%string,
     "[(1 - 7, 9:00 - 20:00)]"%string, true, false, true);
    ("
        Автосалон:
        Пн-пт: 8.00-20.00
        Сб, вс - выходной

        Сервис:
        Пн-сб: 8.00-20.00
        Вс - выходной

        Отдел запчастей:
        Пн-пт: 9.00-19.00
        Сб, вс - выходной
        "%string,
     "[(1 - 5, 8.00 - 20.00), (6 - 7, None)]"%string, true, false, false);
    ("9:00-20:00"%string,
     "[(None, 9:00 - 20:00)]"%string, true, false, true);
    ("пн – сб с 8.00 до 22.00; вс с 9.00 до 22.00"%string,
     "[(1 - 6, 8.00 - 22.00), (7 - 7, 9.00 - 22.00)]"%string, true, false, true)
  ].

(** [test_parser], one row: [str(Parser(case[0]).parse()) == case[1]]. *)
Definition parser_case (case : string * string * bool * bool * bool) : bool :=
  let '(text, expected, _, _, _) := case in
  match parse (u text) with
  | Ok ranges => str_eqb (ranges_str ranges) (u expected)
  | Raise _ => false
  end.

(** [test_working_hours], one row, at the three instants of the test. *)
Definition working_hours_case (case : string * string * bool * bool * bool)
    : bool :=
  let '(text, _, b1, b2, b3) := case in
  let agrees d b :=
    match open_at (u text) d with
    | Ok b' => Bool.eqb b b'
    | Raise _ => false
    end in
  agrees test_datetime1 b1 && agrees test_datetime2 b2 && agrees test_datetime3 b3.

(** Sample values for the instances of the theorems on the rest of the
    code. *)
Definition no_hours_tokens : list Token :=
  [tok word "отдел"; tok word "продаж"; tok word "закрыт"].
Definition daily_tokens : list Token :=
  [tok weekday_range "ежедневно"; tok word "с"; tok hour "8.00";
   tok range_mark "до"; tok hour "21.00"].
Definition mon_fri : RangePair := (days 1 5, hours "9.00" "19.00").
Definition open_ended : RangePair :=
  (days 1 5, Some (mkRange (Some (u "9:00")) None)).
(** 24.03.2017, a Friday, at 20:00; 30.03.2017, the Thursday a week after
    [test_datetime1]; 27.03.2017, a Monday; 31.12.9999, a Friday. *)
Definition friday_20 : DateTime := mkDateTime 736412 20 0 0 0.
Definition next_thursday_16 : DateTime := mkDateTime 736418 16 0 0 0.
Definition next_monday_9 : DateTime := mkDateTime 736415 9 0 0 0.
Definition next_monday_19 : DateTime := mkDateTime 736415 19 0 0 0.
Definition last_day : DateTime := mkDateTime MAXORDINAL 12 0 0 0.

(** The pairs of "Пн-Пт 9:00-18:00 обед 13:00-14:00", and a pair for the
    weekend. *)
Definition weekdays_9_18 : RangePair := (days 1 5, hours "9:00" "18:00").
Definition lunch_13_14 : RangePair := (None, hours "13:00" "14:00").
Definition weekend_10_16 : RangePair := (days 6 7, hours "10:00" "16:00").

Example test_parser_showroom_and_service :
  parse (u "Автосалон и сервисный центр: Понедельник - Воскресенье 9:00 - 19:00")
  = Ok [(days 1 7, hours "9:00" "19:00")].
Proof. vm_compute. reflexivity. Qed.

Example test_parser_saturday :
  parse (u "Сб.:10.00-18.00") = Ok [(days 6 6, hours "10.00" "18.00")].
Proof. vm_compute. reflexivity. Qed.

Example test_parser_filler_words :
  parse (u "Ежедневно с 8.00 до 21.00") = Ok [(days 1 7, hours "8.00" "21.00")].
Proof. vm_compute. reflexivity. Qed.

Example test_parser_two_blocks :
  parse (u "Пн-Пт: 9-00-19-00 Сб.:10-00 - 18-00")
  = Ok [(days 1 5, hours "9-00" "19-00"); (days 6 6, hours "10-00" "18-00")].
Proof. vm_compute. reflexivity. Qed.

Example test_parser_sales_department :
  parse (u "Отдел продаж 09.00 - 21.00 (ежедневно)")
  = Ok [(days 1 7, hours "09.00" "21.00")].
Proof. vm_compute. reflexivity. Qed.

Example test_parser_service_center_cut :
  parse (u "Автосалон: пн-пт 09:00-20:00, сб-вс 10:00-19:00 Сервисный центр: ежедневно 08:00-20:00")
  = Ok [(days 1 5, hours "09:00" "20:00"); (days 6 7, hours "10:00" "19:00")].
Proof. vm_compute. reflexivity. Qed.

Example test_parser_days_off :
  parse (u "Автосалон: Пн-пт: 8.00-20.00 Сб, вс - выходной Сервис: Пн-сб: 8.00-20.00")
  = Ok [(days 1 5, hours "8.00" "20.00"); (days 6 7, None)].
Proof. vm_compute. reflexivity. Qed.

Example test_parser_hours_only :
  parse (u "9:00-20:00") = Ok [(None, hours "9:00" "20:00")].
Proof. vm_compute. reflexivity. Qed.

Example test_parser_long_dash :
  parse (u "пн – сб с 8.00 до 22.00; вс с 9.00 до 22.00")
  = Ok [(days 1 6, hours "8.00" "22.00"); (days 7 7, hours "9.00" "22.00")].
Proof. vm_compute. reflexivity. Qed.

Example test_working_hours_saturday :
  open_at (u "Сб.:10.00-18.00") test_datetime1 = Ok false
  /\ open_at (u "Сб.:10.00-18.00") test_datetime3 = Ok false.
Proof. split; vm_compute; reflexivity. Qed.

Example test_working_hours_daily :
  open_at (u "Ежедневно с 8.00 до 21.00") test_datetime1 = Ok true
  /\ open_at (u "Ежедневно с 8.00 до 21.00") test_datetime2 = Ok false
  /\ open_at (u "Ежедневно с 8.00 до 21.00") test_datetime3 = Ok true.
Proof. repeat split; vm_compute; reflexivity. Qed.

(** The tokens of a showroom text followed by a second department. *)
Example test_tokens_showroom :
  tokenize (RT := CPython.runtime)
    (u "Автосалон: пн-пт 09:00-20:00 Сервисный центр: ежедневно 08:00-20:00")
  = tok word "автосалон" :: tok weekday "пн" :: showroom_block
    ++ tok word "сервисный" :: tok word "центр" :: service_block.
Proof. vm_compute. reflexivity. Qed.

(** What [print_schedule] renders once [schedule] holds the value of
    [build_schedule]; the constructor never puts it there. *)
Example test_print_schedule_of_stored_schedule :
  (wh <- new (u "Пн-Пт: 9.00-19.00") ;;
   sch <- build_schedule (RT := CPython.runtime) wh ;;
   print_schedule (RT := CPython.runtime)
     {| _raw_schedule := _raw_schedule wh; schedule := Some sch |}
     (u "%H:%M") (u "; ") (u "выходной"))
  = Ok (u "пн: 09:00 - 19:00; вт: 09:00 - 19:00; ср: 09:00 - 19:00; чт: 09:00 - 19:00; пт: 09:00 - 19:00; сб: выходной; вс: выходной").
Proof. vm_compute. reflexivity. Qed.

(** The same call with a format that holds a lone surrogate, U+D800:
    [strftime] raises on the first window. *)
Example test_print_schedule_of_surrogate_format :
  (wh <- new (u "Пн-Пт: 9.00-19.00") ;;
   sch <- build_schedule (RT := CPython.runtime) wh ;;
   print_schedule (RT := CPython.runtime)
     {| _raw_schedule := _raw_schedule wh; schedule := Some sch |}
     (u "%H" ++ [55296]) (u "; ") (u "выходной"))
  = Raise UnicodeEncodeError.
Proof. vm_compute. reflexivity. Qed.

End Tests.

(* ================================================================== *)
(** ** Dictionaries *)

Lemma str_eqb_eq (a b : pystr) : str_eqb a b = true <-> a = b.
Proof.
  unfold str_eqb. destruct (list_eq_dec Z.eq_dec a b); split; congruence.
Qed.

Lemma dict_get_In {V} (d : list (pystr * V)) k v :
  dict_get d k = Some v -> In v (List.map snd d).
Proof.
  induction d as [|[k' v'] d IH]; simpl; [discriminate|].
  destruct (str_eqb k' k); [intros [= ->]; now left | right; auto].
Qed.

Lemma dict_get_key {V} (d : list (pystr * V)) k :
  In k (keys d) -> exists v, dict_get d k = Some v.
Proof.
  induction d as [|[k' v'] d IH]; simpl; [tauto|].
  intros [->|H].
  - exists v'. destruct (str_eqb k k) eqn:E; [reflexivity|].
    assert (str_eqb k k = true) by now apply str_eqb_eq. congruence.
  - destruct (str_eqb k' k); [eauto | auto].
Qed.

Lemma WEEKDAYS_values v n : dict_get WEEKDAYS v = Some n -> 1 <= n <= 7.
Proof.
  intros H. apply dict_get_In in H. vm_compute in H.
  repeat (destruct H as [H|H]; [lia|]). contradiction.
Qed.

Lemma WEEKDAY_RANGES_values v a b :
  dict_get WEEKDAY_RANGES v = Some (a, b) -> 1 <= a <= 7 /\ 1 <= b <= 7.
Proof.
  intros H. apply dict_get_In in H. vm_compute in H.
  repeat (destruct H as [H|H]; [injection H as <- <-; lia|]). contradiction.
Qed.

Lemma od_find_set {V} k (v : V) d j :
  od_find j (od_set k v d) = if j =? k then Some v else od_find j d.
Proof.
  induction d as [|[k' v'] d IH]; simpl.
  - destruct (Z.eqb_spec k j), (Z.eqb_spec j k); congruence.
  - destruct (Z.eqb_spec k' k) as [->|Hk]; simpl.
    + destruct (Z.eqb_spec k j), (Z.eqb_spec j k); congruence.
    + destruct (Z.eqb_spec k' j) as [->|Hj].
      * destruct (Z.eqb_spec j k); congruence.
      * exact IH.
Qed.

Lemma od_find_fold_set {V} (v : V) l d j :
  od_find j (fold_left (fun d day => od_set day v d) l d)
  = if existsb (Z.eqb j) l then Some v else od_find j d.
Proof.
  revert d. induction l as [|k l IH]; intros d; simpl; [reflexivity|].
  rewrite IH, od_find_set.
  destruct (j =? k); simpl; [now destruct (existsb (Z.eqb j) l) | reflexivity].
Qed.

Lemma existsb_py_range j a b :
  existsb (Z.eqb j) (py_range a b) = (a <=? j) && (j <? b).
Proof.
  unfold py_range.
  destruct (existsb (Z.eqb j) _) eqn:E.
  - apply existsb_exists in E as (x & Hin & Hx).
    apply in_map_iff in Hin as (i & <- & Hi). apply in_seq in Hi.
    apply Z.eqb_eq in Hx. symmetry. apply andb_true_iff. split.
    + apply Z.leb_le. lia.
    + apply Z.ltb_lt. lia.
  - destruct (Z.leb_spec a j), (Z.ltb_spec j b); try reflexivity.
    exfalso. assert (existsb (Z.eqb j)
      (List.map (fun i => a + Z.of_nat i) (seq 0 (Z.to_nat (b - a)))) = true);
      [|congruence].
    apply existsb_exists. exists j. split; [|apply Z.eqb_refl].
    apply in_map_iff. exists (Z.to_nat (j - a)). split; [lia|].
    apply in_seq. lia.
Qed.

Lemma existsb_keys {V} j (d : list (Z * V)) :
  existsb (Z.eqb j) (keys d) = truthy (od_find j d).
Proof.
  induction d as [|[k v] d IH]; simpl; [reflexivity|].
  rewrite (Z.eqb_sym j k). destruct (k =? j); simpl; auto.
Qed.

(* ================================================================== *)
(** ** The range parser keeps its days-ranges inside the week *)

(** The tables are looked up, never unfolded, in what follows. *)
Arguments dict_get : simpl never.

Lemma TokenType_eqb_eq a b : TokenType_eqb a b = true <-> a = b.
Proof. destruct a, b; simpl; split; congruence. Qed.

Lemma bind_Ok {A B} (m : result A) (k : A -> result B) b :
  bind m k = Ok b -> exists a, m = Ok a /\ k a = Ok b.
Proof. destruct m; simpl; [eauto | discriminate]. Qed.

Lemma days_in_week_point n : 1 <= n <= 7 -> days_in_week (Some (mkRange (Some n) (Some n))).
Proof. intros. exists n, n. simpl. auto. Qed.

Lemma handle_datetime_state_days self token next_token self' :
  known_weekday token ->
  (forall n, next_token = Some n -> known_weekday n) ->
  days_invariant self ->
  handle_datetime_state self token next_token = Ok self' ->
  days_invariant self'.
Proof.
  intros Ht Hn [Hd Hr]. unfold handle_datetime_state.
  destruct (TokenType_eqb (type token) hour && _).
  { intros [= <-]. split; assumption. }
  destruct (TokenType_eqb (type token) weekday && _) eqn:Ew.
  { intros [= <-]. split; [|assumption]. parser_simpl.
    apply andb_true_iff in Ew as [Ew _]. apply TokenType_eqb_eq in Ew.
    destruct (Ht Ew) as [n Hget]. rewrite Hget.
    apply days_in_week_point. eapply WEEKDAYS_values; eauto. }
  destruct (TokenType_eqb (type token) weekday_range && _).
  { destruct (dict_get WEEKDAY_RANGES (value token)) as [[a b]|] eqn:Eg.
    - intros [= <-]. split; [|assumption]. parser_simpl.
      apply WEEKDAY_RANGES_values in Eg. exists a, b. parser_simpl. tauto.
    - intros [= <-]. split; assumption. }
  intros H. apply bind_Ok in H as (c4 & _ & H). destruct c4.
  { injection H as <-. split; assumption. }
  apply bind_Ok in H as (c5 & Hc5 & H). destruct c5.
  2:{ injection H as <-. split; assumption. }
  injection H as <-. split; [|assumption]. parser_simpl.
  destruct (TokenType_eqb (type token) range_mark); [|discriminate].
  apply bind_Ok in Hc5 as (nt & Hnt & Hc5). injection Hc5 as Hc5.
  apply andb_true_iff in Hc5 as [Hw Hdays].
  destruct next_token as [n|]; [|discriminate]. injection Hnt as <-.
  apply TokenType_eqb_eq in Hw. destruct (Hn n eq_refl Hw) as [m Hm].
  destruct (days_range self) as [r|]; [|exact I]. parser_simpl.
  destruct Hd as (s & e & Hs & _ & Hs7 & _).
  exists s, m. parser_simpl. rewrite Hm. repeat split; try tauto;
    eapply WEEKDAYS_values; eauto.
Qed.

Lemma handle_state_days self token next_token self' :
  known_weekday token ->
  (forall n, next_token = Some n -> known_weekday n) ->
  days_invariant self ->
  handle_state self token next_token = Ok self' ->
  days_invariant self'.
Proof.
  intros Ht Hn Hinv. unfold handle_state, handle_outside_datetime_state.
  destruct (state self).
  - destruct (str_in _ _); intros [= <-]; exact Hinv.
  - now apply handle_datetime_state_days.
Qed.

Lemma save_ranges_days self :
  days_invariant self -> days_invariant (save_ranges self).
Proof.
  intros [Hd Hr]. split; simpl; [exact I|].
  apply Forall_app. split; [assumption|]. constructor; [assumption|constructor].
Qed.

Lemma set_state_days self s : days_invariant self -> days_invariant (set_state self s).
Proof. intros H. exact H. Qed.

Lemma close_block_days self :
  days_invariant self ->
  match close_block self with Continue s | Break s => days_invariant s end.
Proof.
  intros H. unfold close_block.
  pose proof (save_ranges_days _ (set_state_days self OUTSIDE_DATETIME H)).
  destruct (show_room_flag _); assumption.
Qed.

Lemma transition_days self token next_token f :
  days_invariant self ->
  transition self token next_token = Ok f ->
  match f with Continue s | Break s => days_invariant s end.
Proof.
  intros Hinv. unfold transition.
  destruct (State_eqb (state self) OUTSIDE_DATETIME && is_daytime (type token)).
  { intros [= <-]. exact Hinv. }
  destruct (State_eqb (state self) INSIDE_DATETIME && _ && _).
  { intros [= <-]. now apply close_block_days. }
  intros H. apply bind_Ok in H as (c3 & _ & H). destruct c3.
  { injection H as <-. now apply close_block_days. }
  apply bind_Ok in H as (c4 & _ & H). destruct c4.
  { injection H as <-. exact Hinv. }
  destruct (State_eqb (state self) INSIDE_DATETIME && _ && _ && _);
    injection H as <-; [|exact Hinv].
  apply save_ranges_days. exact Hinv.
Qed.

Lemma parse_loop_days rest : forall self token pairs,
  Forall known_weekday (token :: rest) ->
  days_invariant self ->
  parse_loop self token rest = Ok pairs ->
  Forall (fun p : RangePair => days_in_week (fst p)) pairs.
Proof.
  induction rest as [|t rest IH]; intros self token pairs Hk Hinv; simpl;
    destruct (transition self token _) as [[s|s]|] eqn:Et; try discriminate;
    pose proof (transition_days _ _ _ _ Hinv Et) as Hs; simpl in Hs;
    try (intros [= <-]; exact (proj2 Hs)).
  - destruct (handle_state s token None) as [s'|] eqn:Eh; [|discriminate].
    assert (Hs' : days_invariant s').
    { eapply handle_state_days; eauto; [now inversion Hk | discriminate]. }
    intros [= <-].
    match goal with |- context [if ?c then _ else _] => destruct c end;
      [apply save_ranges_days in Hs'|]; apply Hs'.
  - destruct (handle_state s token (Some t)) as [s'|] eqn:Eh; [|discriminate].
    assert (Hs' : days_invariant s').
    { eapply handle_state_days; eauto; [now inversion Hk|].
      intros n [= <-]. inversion Hk as [|? ? _ Hk']. now inversion Hk'. }
    simpl. apply IH; [now inversion Hk | exact Hs'].
Qed.

(** Token streams whose weekday tokens are spelled as in [WEEKDAYS] give
    days-ranges that are absent or lie within the week. *)
Lemma parse_tokens_days tokens pairs :
  Forall known_weekday tokens ->
  parse_tokens tokens = Ok pairs ->
  Forall (fun p : RangePair => days_in_week (fst p)) pairs.
Proof.
  destruct tokens as [|token rest]; simpl.
  - intros _ [= <-]. constructor.
  - intros Hk. apply parse_loop_days; [exact Hk|]. split; [exact I | constructor].
Qed.

(* ================================================================== *)
(** ** The showroom flag cuts the parse off *)

Lemma parse_loop_cons self token x tl :
  parse_loop self token (x :: tl) =
  match transition self token (Some x) with
  | Raise e => Raise e
  | Ok (Break s) => Ok (ranges s)
  | Ok (Continue s) =>
    match handle_state s token (Some x) with
    | Raise e => Raise e
    | Ok s' => parse_loop s' x tl
    end
  end.
Proof.
  cbn [parse_loop hd_error].
  destruct (transition self token (Some x)) as [[s|s]|]; reflexivity.
Qed.

Lemma handle_state_frame self token next_token self' :
  handle_state self token next_token = Ok self' ->
  state self' = state self /\ ranges self' = ranges self
  /\ (show_room_flag self = true -> show_room_flag self' = true).
Proof.
  unfold handle_state, handle_outside_datetime_state, handle_datetime_state.
  destruct (state self) eqn:Es.
  - destruct (str_in _ _); intros [= <-]; parser_simpl; auto.
  - repeat match goal with
           | |- context [if ?c then _ else _] => destruct c
           | |- context [match dict_get ?d ?k with _ => _ end] =>
             destruct (dict_get d k) as [[? ?]|]
           | |- bind ?m _ = _ -> _ => destruct m as [[|]|]; cbn [bind]
           | |- Ok _ = Ok _ -> _ => intros [= <-]; parser_simpl; auto
           | |- Raise _ = Ok _ -> _ => discriminate
           end.
Qed.

Lemma State_eqb_eq a b : State_eqb a b = true <-> a = b.
Proof. destruct a, b; simpl; split; congruence. Qed.

Lemma transition_armed self token next_token s :
  show_room_flag self = true ->
  state self = INSIDE_DATETIME \/ ranges self <> []
    \/ is_daytime (type token) = true ->
  transition self token next_token = Ok (Continue s) ->
  showroom_armed s.
Proof.
  intros Hf Hk. unfold transition, close_block. parser_simpl. rewrite Hf.
  destruct (State_eqb (state self) OUTSIDE_DATETIME) eqn:Eo;
    destruct (is_daytime (type token)) eqn:Ed; cbn [andb].
  - intros [= <-]. split; [exact Hf | now left].
  - apply State_eqb_eq in Eo. rewrite Eo. cbn [State_eqb andb bind].
    destruct (type_of next_token) as [nt|]; cbn [bind negb]; [|discriminate].
    destruct (negb (is_daytime nt) && nonempty (ranges self)); [discriminate|].
    intros [= <-]. split; [exact Hf|]. right.
    destruct Hk as [Hk|[Hk|Hk]]; congruence.
  - assert (Ei : state self = INSIDE_DATETIME) by (destruct (state self); [discriminate|reflexivity]).
    rewrite Ei. cbn [State_eqb andb].
    destruct (TokenType_eqb (type token) word && _); [discriminate|].
    destruct (TokenType_eqb (type token) range_mark); cbn [bind].
    + destruct (type_of next_token) as [nt|]; cbn [bind]; [|discriminate].
      destruct (negb (is_daytime nt)); [discriminate|].
      destruct (truthy (hours_range self) && truthy (days_range self) && true);
        intros [= <-]; (split; [exact Hf|]); parser_simpl.
      * right. now destruct (ranges self).
      * now left.
    + destruct (truthy (hours_range self) && truthy (days_range self) && true);
        intros [= <-]; (split; [exact Hf|]); parser_simpl.
      * right. now destruct (ranges self).
      * now left.
  - assert (Ei : state self = INSIDE_DATETIME) by (destruct (state self); [discriminate|reflexivity]).
    rewrite Ei. cbn [State_eqb andb].
    destruct (TokenType_eqb (type token) word && _); [discriminate|].
    destruct (TokenType_eqb (type token) range_mark); cbn [bind].
    + destruct (type_of next_token) as [nt|]; cbn [bind]; [|discriminate].
      destruct (negb (is_daytime nt)); [discriminate|].
      rewrite !andb_false_r. intros [= <-]. split; [exact Hf | now left].
    + rewrite !andb_false_r. intros [= <-]. split; [exact Hf | now left].
Qed.

Lemma step_armed self token next_token s s' :
  show_room_flag self = true ->
  state self = INSIDE_DATETIME \/ ranges self <> []
    \/ is_daytime (type token) = true ->
  transition self token next_token = Ok (Continue s) ->
  handle_state s token next_token = Ok s' ->
  showroom_armed s'.
Proof.
  intros Hf Hk Ht Hh.
  destruct (transition_armed _ _ _ _ Hf Hk Ht) as [Hf' Hs].
  destruct (handle_state_frame _ _ _ _ Hh) as (E1 & E2 & Hflag).
  unfold showroom_armed. rewrite E1, E2. auto.
Qed.

Lemma armed_break self w1 w2 :
  showroom_armed self -> ends_block w1 -> is_daytime (type w2) = false ->
  exists s, transition self w1 (Some w2) = Ok (Break s).
Proof.
  intros [Hf Hs] [Hd Hx] Hd2. unfold transition, close_block, type_of.
  parser_simpl. rewrite Hf, Hd, Hx.
  destruct (state self) eqn:Es; cbn [State_eqb andb bind negb];
    rewrite ?Hd2; cbn [negb andb bind].
  - destruct Hs as [Hs|Hs]; [discriminate|].
    destruct (ranges self); [congruence|]. cbn [nonempty]. eauto.
  - destruct (TokenType_eqb (type w1) word) eqn:Ew; cbn [andb]; [eauto|].
    destruct (type w1); try discriminate; cbn [TokenType_eqb bind];
      rewrite ?Hd2; cbn [negb bind]; eauto.
Qed.

Lemma cutoff_block w1 w2 rest rest' :
  ends_block w1 -> is_daytime (type w2) = false ->
  forall blk self t,
    show_room_flag self = true ->
    state self = INSIDE_DATETIME \/ ranges self <> []
      \/ is_daytime (type t) = true ->
    parse_loop self t (blk ++ w1 :: w2 :: rest)
    = parse_loop self t (blk ++ w1 :: w2 :: rest').
Proof.
  intros H1 H2. induction blk as [|x blk IH]; intros self t Hf Hk;
    cbn [app]; rewrite !parse_loop_cons.
  - destruct (transition self t (Some w1)) as [[s|s]|] eqn:Et; try reflexivity.
    destruct (handle_state s t (Some w1)) as [s'|] eqn:Eh; [|reflexivity].
    pose proof (step_armed _ _ _ _ _ Hf Hk Et Eh) as Ha.
    destruct (armed_break _ _ _ Ha H1 H2) as [b Hb].
    rewrite !parse_loop_cons, Hb. reflexivity.
  - destruct (transition self t (Some x)) as [[s|s]|] eqn:Et; try reflexivity.
    destruct (handle_state s t (Some x)) as [s'|] eqn:Eh; [|reflexivity].
    destruct (step_armed _ _ _ _ _ Hf Hk Et Eh) as [Hf' Hs'].
    apply IH; [exact Hf' | tauto].
Qed.

Lemma showroom_not_excluded v :
  str_in v SHOWROOM_WORDS = true -> str_in v EXCLUDE_WORDS = false.
Proof.
  unfold str_in, SHOWROOM_WORDS. cbn [existsb]. rewrite orb_false_r.
  intros H. apply orb_true_iff in H as [H|H]; apply str_eqb_eq in H;
    subst v; vm_compute; reflexivity.
Qed.

Lemma showroom_word_step self sw next_token s s' :
  type sw = word -> str_in (value sw) SHOWROOM_WORDS = true ->
  transition self sw next_token = Ok (Continue s) ->
  handle_state s sw next_token = Ok s' ->
  state s' = OUTSIDE_DATETIME /\ show_room_flag s' = true.
Proof.
  intros Hw Hv. pose proof (showroom_not_excluded _ Hv) as Hx.
  unfold transition, close_block. parser_simpl. rewrite Hw, Hx.
  cbn [is_daytime DAYTIME_TOKEN_TYPES existsb TokenType_eqb orb andb negb bind].
  rewrite !andb_false_r, !andb_true_r.
  assert (Hout : forall p, state p = OUTSIDE_DATETIME ->
            handle_state p sw next_token = Ok s' ->
            state s' = OUTSIDE_DATETIME /\ show_room_flag s' = true).
  { intros p Hp. unfold handle_state, handle_outside_datetime_state.
    rewrite Hp, Hv. intros [= <-]. parser_simpl. auto. }
  destruct (state self) eqn:Es; cbn [State_eqb andb bind].
  - destruct (show_room_flag self) eqn:Ef; cbn [andb bind].
    + destruct (type_of next_token) as [nt|]; cbn [bind]; [|discriminate].
      match goal with |- context [if ?c then _ else _] => destruct c end;
        [discriminate|].
      intros [= <-]. now apply Hout.
    + intros [= <-]. now apply Hout.
  - destruct (show_room_flag self); [discriminate|].
    intros [= <-]. now apply Hout.
Qed.

Lemma cutoff_showroom sw d blk w1 w2 rest rest' self :
  type sw = word -> str_in (value sw) SHOWROOM_WORDS = true ->
  is_daytime (type d) = true ->
  ends_block w1 -> is_daytime (type w2) = false ->
  parse_loop self sw (d :: blk ++ w1 :: w2 :: rest)
  = parse_loop self sw (d :: blk ++ w1 :: w2 :: rest').
Proof.
  intros Hw Hv Hd H1 H2. rewrite !parse_loop_cons.
  destruct (transition self sw (Some d)) as [[p|p]|] eqn:Et; try reflexivity.
  destruct (handle_state p sw (Some d)) as [p'|] eqn:Eh; [|reflexivity].
  destruct (showroom_word_step _ _ _ _ _ Hw Hv Et Eh) as [_ Hf].
  apply cutoff_block; auto.
Qed.

(** The head of the loop does not touch the showroom flag. *)
Lemma transition_flag self token next_token s :
  transition self token next_token = Ok (Continue s) ->
  show_room_flag s = show_room_flag self.
Proof.
  unfold transition, close_block. cbv zeta.
  repeat match goal with
         | |- context [if ?c then _ else _] => destruct c
         | |- bind ?m _ = _ -> _ => destruct m as [[|]|]; cbn [bind]
         | |- Ok _ = Ok _ -> _ => intros [= <-]; reflexivity
         | |- Raise _ = Ok _ -> _ => discriminate
         end.
Qed.

Lemma step_flag self token next_token s s' :
  show_room_flag self = true ->
  transition self token next_token = Ok (Continue s) ->
  handle_state s token next_token = Ok s' ->
  show_room_flag s' = true.
Proof.
  intros Hf Ht Hh. apply (handle_state_frame _ _ _ _ Hh).
  now rewrite (transition_flag _ _ _ _ Ht).
Qed.

(** With the flag set, whatever stands between, the first daytime token
    [d] arms the cut-off. *)
Lemma cutoff_after_flag d blk w1 w2 rest rest' :
  is_daytime (type d) = true ->
  ends_block w1 -> is_daytime (type w2) = false ->
  forall mid self t,
    show_room_flag self = true ->
    parse_loop self t (mid ++ d :: blk ++ w1 :: w2 :: rest)
    = parse_loop self t (mid ++ d :: blk ++ w1 :: w2 :: rest').
Proof.
  intros Hd H1 H2. induction mid as [|x mid IH]; intros self t Hf;
    cbn [app]; rewrite !parse_loop_cons.
  - destruct (transition self t (Some d)) as [[s|s]|] eqn:Et; try reflexivity.
    destruct (handle_state s t (Some d)) as [s'|] eqn:Eh; [|reflexivity].
    apply cutoff_block; auto. exact (step_flag _ _ _ _ _ Hf Et Eh).
  - destruct (transition self t (Some x)) as [[s|s]|] eqn:Et; try reflexivity.
    destruct (handle_state s t (Some x)) as [s'|] eqn:Eh; [|reflexivity].
    apply IH. exact (step_flag _ _ _ _ _ Hf Et Eh).
Qed.

Lemma cutoff_showroom_word sw mid d blk w1 w2 rest rest' self :
  type sw = word -> str_in (value sw) SHOWROOM_WORDS = true ->
  is_daytime (type d) = true ->
  ends_block w1 -> is_daytime (type w2) = false ->
  parse_loop self sw (mid ++ d :: blk ++ w1 :: w2 :: rest)
  = parse_loop self sw (mid ++ d :: blk ++ w1 :: w2 :: rest').
Proof.
  intros Hw Hv Hd H1 H2. destruct mid as [|x mid]; cbn [app].
  - now apply cutoff_showroom.
  - rewrite !parse_loop_cons.
    destruct (transition self sw (Some x)) as [[p|p]|] eqn:Et; try reflexivity.
    destruct (handle_state p sw (Some x)) as [p'|] eqn:Eh; [|reflexivity].
    destruct (showroom_word_step _ _ _ _ _ Hw Hv Et Eh) as [_ Hf].
    now apply cutoff_after_flag.
Qed.

Lemma cutoff_prefix sw mid d blk w1 w2 rest rest' :
  type sw = word -> str_in (value sw) SHOWROOM_WORDS = true ->
  is_daytime (type d) = true ->
  ends_block w1 -> is_daytime (type w2) = false ->
  forall pre self t,
    parse_loop self t (pre ++ sw :: mid ++ d :: blk ++ w1 :: w2 :: rest)
    = parse_loop self t (pre ++ sw :: mid ++ d :: blk ++ w1 :: w2 :: rest').
Proof.
  intros Hw Hv Hd H1 H2. induction pre as [|x pre IH]; intros self t;
    cbn [app]; rewrite !parse_loop_cons.
  - destruct (transition self t (Some sw)) as [[s|s]|]; try reflexivity.
    destruct (handle_state s t (Some sw)) as [s'|]; [|reflexivity].
    now apply cutoff_showroom_word.
  - destruct (transition self t (Some x)) as [[s|s]|]; try reflexivity.
    destruct (handle_state s t (Some x)) as [s'|]; [|reflexivity].
    apply IH.
Qed.

(** The lookahead is read without a test for [None]: at the end of the
    stream the loop raises where it reads it. *)
Lemma parse_loop_last_range_mark self token :
  state self = INSIDE_DATETIME -> type token = range_mark ->
  parse_loop self token [] = Raise AttributeError.
Proof.
  intros Hs Ht. cbn [parse_loop hd_error]. unfold transition.
  rewrite Hs, Ht. reflexivity.
Qed.

Lemma parse_loop_last_after_showroom self token :
  state self = OUTSIDE_DATETIME -> show_room_flag self = true ->
  is_daytime (type token) = false ->
  parse_loop self token [] = Raise AttributeError.
Proof.
  intros Hs Hf Ht. cbn [parse_loop hd_error]. unfold transition.
  rewrite Hs, Hf, Ht. reflexivity.
Qed.

(* ================================================================== *)
(** ** What the tokenizer hands to the parser *)

Section TokenizerFacts.
Context `{RT : PyRuntime}.

Lemma ci_prefix_literal k : forall s,
  (forall p c, In p k -> In c s -> ci_eq p c = true -> c = p) ->
  ci_prefix k s = true -> firstn (List.length k) s = k.
Proof.
  induction k as [|p k IH]; intros s Hlit; [reflexivity|].
  destruct s as [|c s]; cbn [ci_prefix]; [discriminate|].
  intros H. apply andb_true_iff in H as [Hc Hk].
  cbn [List.length firstn]. f_equal.
  - apply Hlit; [now left | now left | exact Hc].
  - apply IH; [|exact Hk]. intros q c' Hq Hin. apply Hlit; now right.
Qed.

Lemma match_at_weekday s t :
  match_at s = Some t -> type t = weekday ->
  exists k, In k (keys WEEKDAYS) /\ ci_prefix k s = true
            /\ value t = firstn (List.length k) s.
Proof.
  unfold match_at.
  destruct (match_hour s); [intros [= <-]; discriminate|].
  destruct (match_literals (keys WEEKDAYS) s) as [n|] eqn:E.
  - intros [= <-] _. unfold match_literals in E.
    destruct (find _ _) as [k|] eqn:Ef; [|discriminate].
    injection E as <-. apply find_some in Ef as [Hin Hp]. now exists k.
  - destruct (match_literals (keys WEEKDAY_RANGES) s);
      [intros [= <-]; discriminate|].
    destruct (match_literals RANGE_MARKS s); [intros [= <-]; discriminate|].
    destruct (match_word s); [intros [= <-]|]; discriminate.
Qed.

Lemma finditer_known s : forall skip,
  (forall p c, In p weekday_letters -> In c s -> ci_eq p c = true -> c = p) ->
  Forall known_weekday (finditer skip s).
Proof.
  induction s as [|c s IH]; intros skip Hlit; cbn [finditer]; [constructor|].
  assert (Hs : forall p c', In p weekday_letters -> In c' s ->
                            ci_eq p c' = true -> c' = p)
    by (intros p c' Hp Hin; apply Hlit; [exact Hp | now right]).
  destruct skip as [|skip]; [|now apply IH].
  destruct (match_at (c :: s)) as [t|] eqn:Em; [|now apply IH].
  constructor; [|now apply IH].
  intros Hty. destruct (match_at_weekday _ _ Em Hty) as (k & Hin & Hp & Hv).
  rewrite Hv, (ci_prefix_literal k (c :: s)); [now apply dict_get_key | | exact Hp].
  intros p c' Hpk. apply Hlit. apply in_concat. now exists k.
Qed.

(** On a text that is matched literally, every days-range the parser
    returns is absent or lies within the week. *)
Lemma parse_days_literal text pairs :
  matched_literally text = true ->
  Parser_parse text = Ok pairs ->
  Forall (fun p : RangePair => days_in_week (fst p)) pairs.
Proof.
  intros Hlit. apply parse_tokens_days. apply finditer_known.
  intros p c Hp Hc Heq. unfold matched_literally in Hlit.
  rewrite forallb_forall in Hlit. specialize (Hlit c Hc).
  rewrite forallb_forall in Hlit. specialize (Hlit p Hp).
  rewrite Heq in Hlit. now apply Z.eqb_eq in Hlit.
Qed.

End TokenizerFacts.

(* ================================================================== *)
(** ** The schedule builder *)

Lemma assign_pair_days raw days hours raw' :
  assign_pair raw (Some days, hours) = Ok raw' ->
  exists s e, start days = Some s /\ end_ days = Some e
    /\ forall d, od_find d raw'
                 = if (s <=? d) && (d <=? e) then Some hours else od_find d raw.
Proof.
  unfold assign_pair.
  destruct (start days) as [s|], (end_ days) as [e|]; try discriminate.
  intros [= <-]. exists s, e. repeat split. intros d.
  rewrite od_find_fold_set, existsb_py_range.
  replace (d <? e + 1) with (d <=? e); [reflexivity|].
  destruct (Z.leb_spec d e), (Z.ltb_spec d (e + 1)); lia || reflexivity.
Qed.

Lemma assign_pair_default raw hours raw' :
  assign_pair raw (None, hours) = Ok raw' ->
  truthy hours = true
  /\ forall d, od_find d raw'
               = if truthy (od_find d raw) then Some hours else None.
Proof.
  unfold assign_pair. destruct hours as [h|]; [|discriminate].
  intros [= <-]. split; [reflexivity|]. intros d.
  rewrite od_find_fold_set, existsb_keys.
  now destruct (od_find d raw).
Qed.

Lemma assign_pair_weekdays raw p raw' :
  has_weekdays raw -> assign_pair raw p = Ok raw' -> has_weekdays raw'.
Proof.
  intros Hw H d Hd. specialize (Hw d Hd). destruct p as [[days|] hours].
  - apply assign_pair_days in H as (s & e & _ & _ & H). rewrite H.
    destruct (_ && _); [discriminate | exact Hw].
  - apply assign_pair_default in H as [_ H]. rewrite H.
    destruct (od_find d raw); [discriminate | congruence].
Qed.

Lemma empty_schedule_weekdays : has_weekdays empty_schedule.
Proof.
  intros d Hd.
  assert (d = 1 \/ d = 2 \/ d = 3 \/ d = 4 \/ d = 5 \/ d = 6 \/ d = 7) as H by lia.
  repeat (destruct H as [->|H]; [vm_compute; discriminate|]).
  subst d. vm_compute. discriminate.
Qed.

Lemma assign_ranges_weekdays ranges : forall raw raw',
  has_weekdays raw -> assign_ranges raw ranges = Ok raw' -> has_weekdays raw'.
Proof.
  induction ranges as [|p ranges IH]; intros raw raw' Hw; cbn [assign_ranges].
  - now intros [= <-].
  - intros H. apply bind_Ok in H as (raw1 & H1 & H). eapply IH; [|exact H].
    eapply assign_pair_weekdays; eauto.
Qed.

Lemma find_app_first {A} (f : A -> bool) l1 l2 :
  find f (l1 ++ l2)
  = match find f l1 with Some y => Some y | None => find f l2 end.
Proof.
  induction l1 as [|a l1 IH]; cbn [app find]; [reflexivity|].
  now destruct (f a).
Qed.

(** One round of the loop of [__init__], at a weekday of the table. *)
Lemma assign_pair_covers raw p raw' d :
  assign_pair raw p = Ok raw' -> od_find d raw <> None ->
  od_find d raw' = if covers d p then Some (snd p) else od_find d raw.
Proof.
  intros H Hd. destruct p as [[days|] hours]; unfold covers; cbn [fst snd].
  - apply assign_pair_days in H as (s & e & -> & -> & H). apply H.
  - apply assign_pair_default in H as [_ H]. rewrite H.
    destruct (od_find d raw); [reflexivity | congruence].
Qed.

(** The whole loop, at a weekday of the table: the last pair that covers
    the weekday decides. *)
Lemma assign_ranges_last rs d : forall raw raw',
  assign_ranges raw rs = Ok raw' -> od_find d raw <> None ->
  od_find d raw'
  = match last_covering d rs with
    | Some p => Some (snd p)
    | None => od_find d raw
    end.
Proof.
  unfold last_covering.
  induction rs as [|p rs IH]; intros raw raw'; cbn [assign_ranges].
  - now intros [= <-] _.
  - intros H Hd. apply bind_Ok in H as (raw1 & H1 & H).
    pose proof (assign_pair_covers _ _ _ d H1 Hd) as E1.
    assert (Hd1 : od_find d raw1 <> None)
      by (rewrite E1; destruct (covers d p); [discriminate | exact Hd]).
    rewrite (IH _ _ H Hd1). cbn [rev]. rewrite find_app_first.
    destruct (find (covers d) (rev rs)); [reflexivity|].
    cbn [find]. rewrite E1. now destruct (covers d p).
Qed.

Lemma build_raw_weekdays ranges wh :
  build_raw ranges = Ok wh ->
  has_weekdays (_raw_schedule wh) /\ schedule wh = None.
Proof.
  unfold build_raw. intros H. apply bind_Ok in H as (raw & H & [= <-]).
  split; [|reflexivity].
  eapply assign_ranges_weekdays; [apply empty_schedule_weekdays | exact H].
Qed.

(* ================================================================== *)
(** ** The scan for the next working day *)

Lemma isoweekday_bounds d : 1 <= isoweekday d <= 7.
Proof.
  unfold isoweekday. pose proof (Z.mod_pos_bound (ordinal d) 7 ltac:(lia)).
  destruct (Z.eqb_spec (ordinal d mod 7) 0); lia.
Qed.

Lemma day_after_next w k :
  1 <= w <= 7 -> 1 <= k <= 7 ->
  day_after w k mod 7 + 1 = day_after w (k + 1)
  /\ 1 <= day_after w k <= 7 /\ (day_after w k = w <-> k = 7).
Proof.
  intros Hw Hk. week_cases w; week_cases k; vm_compute;
    (repeat split; intros; congruence).
Qed.

Lemma day_after_first w : 1 <= w <= 7 -> w mod 7 + 1 = day_after w 1.
Proof. intros Hw. week_cases w; reflexivity. Qed.

Lemma day_after_covers w d :
  1 <= w <= 7 -> 1 <= d <= 7 -> d <> w ->
  exists k, 1 <= k <= 6 /\ d = day_after w k.
Proof.
  intros Hw Hd Hne. exists ((d - w) mod 7).
  week_cases w; week_cases d; try congruence; vm_compute;
    (repeat split; congruence).
Qed.

Section NextDay.
Context `{RT : PyRuntime}.

Lemma next_day_loop_spec raw w :
  1 <= w <= 7 -> has_weekdays raw ->
  forall fuel k,
    1 <= k <= 7 -> 7 - k < Z.of_nat fuel ->
    (forall j, 1 <= j < k -> no_hours raw (day_after w j)) ->
    exists r, next_day_loop fuel raw w (day_after w k) = Some (Ok r)
              /\ next_day_spec raw w r.
Proof.
  intros Hw Hraw. induction fuel as [|fuel IH]; intros k Hk Hfuel Hprev; [lia|].
  destruct (day_after_next w k Hw Hk) as (Hnext & Hrange & Hback).
  cbn [next_day_loop]. destruct (Z.eqb_spec (day_after w k) w) as [E|E]; cbn [negb].
  - exists None. split; [reflexivity|]. intros j Hj. apply Hprev. lia.
  - assert (k <= 6) by (destruct (Z.eq_dec k 7); [tauto | lia]).
    unfold od_get. specialize (Hraw _ Hrange).
    destruct (od_find (day_after w k) raw) as [[r|]|] eqn:Ef; [| |congruence];
      cbn [truthy].
    + exists (Some (day_after w k)). split; [reflexivity|].
      exists k. repeat split; try lia; [now exists r | exact Hprev].
    + rewrite Hnext. apply IH; [lia | lia |].
      intros j Hj. destruct (Z.eq_dec j k) as [->|]; [exact Ef | apply Hprev; lia].
Qed.

Lemma get_next_working_day_spec wh dt :
  has_weekdays (_raw_schedule wh) ->
  exists r, get_next_working_day wh dt = Some (Ok r)
            /\ next_day_spec (_raw_schedule wh) (isoweekday dt) r.
Proof.
  intros Hraw. unfold get_next_working_day.
  rewrite (day_after_first _ (isoweekday_bounds dt)).
  apply next_day_loop_spec; auto using isoweekday_bounds; lia.
Qed.

End NextDay.

(* ================================================================== *)
(** ** Times of day *)

Lemma DateTime_compare_refl a : DateTime_compare a a = Eq.
Proof. unfold DateTime_compare. now rewrite !Z.compare_refl. Qed.

Lemma dt_le_refl a : dt_le a a = true.
Proof. unfold dt_le. now rewrite DateTime_compare_refl. Qed.

Lemma dt_lt_irrefl a : dt_lt a a = false.
Proof. unfold dt_lt. now rewrite DateTime_compare_refl. Qed.

Lemma lex_le_lt_trans x y z c_xy c_yz c_xz :
  (c_xy <> Gt -> c_yz = Lt -> c_xz = Lt) ->
  lex (x ?= y) c_xy <> Gt -> lex (y ?= z) c_yz = Lt -> lex (x ?= z) c_xz = Lt.
Proof.
  intros H.
  destruct (Z.compare_spec x y), (Z.compare_spec y z), (Z.compare_spec x z);
    cbn [lex]; intros Hxy Hyz; try lia; try congruence; auto.
Qed.

(** The order of [datetime] objects: [a <= b < c] gives [a < c]. *)
Lemma dt_le_lt_trans a b c :
  dt_le a b = true -> dt_lt b c = true -> dt_lt a c = true.
Proof.
  unfold dt_le, dt_lt. intros H1 H2.
  assert (E1 : DateTime_compare a b <> Gt)
    by (destruct (DateTime_compare a b); congruence).
  assert (E2 : DateTime_compare b c = Lt)
    by (destruct (DateTime_compare b c); congruence).
  assert (E : DateTime_compare a c = Lt); [|now rewrite E].
  revert E1 E2. unfold DateTime_compare. repeat apply lex_le_lt_trans.
  destruct (Z.compare_spec (dt_microsecond a) (dt_microsecond b)),
           (Z.compare_spec (dt_microsecond b) (dt_microsecond c)),
           (Z.compare_spec (dt_microsecond a) (dt_microsecond c));
    intros Hab Hbc; try lia; congruence.
Qed.

(** Two times of day are in the same order on every date. *)
Lemma clock_order (d d' : DateTime) h m h' m' :
  dt_lt (replace_clock d h m) (replace_clock d h' m')
  = dt_lt (replace_clock d' h m) (replace_clock d' h' m').
Proof.
  unfold dt_lt, DateTime_compare, replace_clock, DateTime_clock.
  cbn [ordinal dt_hour dt_minute dt_second dt_microsecond].
  now rewrite !Z.compare_refl.
Qed.

Section ParseHours.
Context `{RT : PyRuntime}.

(** A bound that parses gives the same hour and minute on every date. *)
Lemma parse_hours_clock hour (dt o : DateTime) :
  parse_hours hour dt = Ok (Some o) ->
  exists h m, forall dt' : DateTime,
    parse_hours hour dt' = Ok (Some (replace_clock dt' h m)).
Proof.
  unfold parse_hours. destruct hour as [s|]; [|discriminate].
  destruct (first_some _ _) as [[h m]|].
  - destruct (between 0 23 h && between 0 59 m); [|discriminate].
    intros _. now exists h, m.
  - destruct (strptime_H s) as [h|]; [|discriminate].
    destruct (between 0 23 h && between 0 59 0); [|discriminate].
    intros _. now exists h, 0.
Qed.

Lemma check_working_time_unparsed wh dt r ps pe :
  od_find (isoweekday dt) (_raw_schedule wh) = Some (Some r) ->
  parse_hours (start r) dt = Ok ps ->
  parse_hours (end_ r) dt = Ok pe ->
  ps = None \/ pe = None ->
  check_working_time wh dt = Ok true.
Proof.
  intros Hf Hs He Hn. unfold check_working_time, od_get.
  rewrite Hf. cbn [bind]. rewrite Hs, He. cbn [bind].
  destruct Hn as [->| ->]; [reflexivity | now destruct ps].
Qed.

Lemma print_schedule_raises wh format delimiter weekend_name :
  schedule wh = None ->
  exists e, print_schedule wh format delimiter weekend_name = Raise e.
Proof.
  intros H. unfold print_schedule. rewrite H.
  destruct (build_schedule wh); cbn [bind]; eauto.
Qed.

End ParseHours.

(* ================================================================== *)
(** ** The claims of the specification *)

Section Claims.
Context `{RT : PyRuntime}.

(** C2, as amended.  In the schedule [WorkingHours.__init__] builds from
    the pairs, in their order, every weekday has the hours-range of the
    last pair that covers it, and [None] when no pair does.  A pair with a
    days-range covers the weekdays from its start to its end, a pair
    without one covers every weekday: it overwrites the weekdays that
    earlier pairs have set like those that are still unset. *)
Theorem build_raw_last_pair_wins ranges wh :
  build_raw ranges = Ok wh ->
  forall d, 1 <= d <= 7 ->
    od_find d (_raw_schedule wh)
    = Some (match last_covering d ranges with
            | Some p => snd p
            | None => None
            end).
Proof.
  unfold build_raw. intros H d Hd. apply bind_Ok in H as (raw & H & [= <-]).
  cbn [_raw_schedule].
  assert (E : od_find d empty_schedule = Some None)
    by (week_cases d; reflexivity).
  rewrite (assign_ranges_last _ d _ _ H) by (rewrite E; discriminate).
  rewrite E. now destruct (last_covering d ranges).
Qed.

(** C3, on every object the constructor returns: [print_schedule] raises.
    The schedule [build_schedule] computes is dropped, [self.schedule] is
    still [None] when its keys are asked for. *)
Theorem print_schedule_never_succeeds text wh format delimiter weekend_name :
  WorkingHours_init text = Ok wh ->
  exists e, print_schedule wh format delimiter weekend_name = Raise e.
Proof.
  unfold WorkingHours_init. intros H. apply bind_Ok in H as (ranges & _ & H).
  apply print_schedule_raises. now apply build_raw_weekdays in H.
Qed.

(** C4.  On a built schedule [get_next_working_day] returns, and what it
    returns is the first weekday with hours among the six that follow the
    instant's weekday, wrapping at 7, the instant's own weekday left out;
    it is [None] exactly when none of these six weekdays has hours. *)
Theorem get_next_working_day_scan ranges wh dt :
  build_raw ranges = Ok wh ->
  exists r, get_next_working_day wh dt = Some (Ok r)
    /\ next_day_spec (_raw_schedule wh) (isoweekday dt) r
    /\ (r = None <->
        forall d, 1 <= d <= 7 -> d <> isoweekday dt ->
                  no_hours (_raw_schedule wh) d).
Proof.
  intros H. apply build_raw_weekdays in H as [Hraw _].
  destruct (get_next_working_day_spec wh dt Hraw) as (r & Hr & Hspec).
  exists r. repeat split; try assumption.
  - intros -> d Hd Hne.
    destruct (day_after_covers _ d (isoweekday_bounds dt) Hd Hne) as (k & Hk & ->).
    now apply Hspec.
  - intros Hall. destruct r as [d|]; [exfalso|reflexivity].
    destruct Hspec as (k & Hk & -> & [x Hx] & _).
    destruct (day_after_next (isoweekday dt) k (isoweekday_bounds dt) ltac:(lia))
      as (_ & Hrange & Hback).
    unfold no_hours in Hall. rewrite Hall in Hx; [discriminate | exact Hrange |].
    intros E. apply Hback in E. lia.
Qed.

(** C5, where the end of the day's hours-range was never set:
    [check_working_time] does not answer [True], it raises the [TypeError]
    of [strptime(None, ...)], which [parse_hours] does not catch. *)
Theorem check_working_time_unset_end wh dt r ps :
  od_find (isoweekday dt) (_raw_schedule wh) = Some (Some r) ->
  parse_hours (start r) dt = Ok ps ->
  end_ r = None ->
  check_working_time wh dt = Raise TypeError.
Proof.
  intros Hf Hs He. unfold check_working_time, od_get.
  rewrite Hf. cbn [bind]. rewrite Hs, He. reflexivity.
Qed.

(** C6, as amended.  When both bounds of the day's hours-range parse, the
    answer at the instant of the closing time is [False], and the answer at
    the instant of the opening time is [True] exactly when the opening time
    is before the closing time; when it is not, as in "19:00 - 9:00", the
    answer is [False] at every instant of that weekday. *)
Theorem check_working_time_half_open wh dt r o c :
  od_find (isoweekday dt) (_raw_schedule wh) = Some (Some r) ->
  parse_hours (start r) dt = Ok (Some o) ->
  parse_hours (end_ r) dt = Ok (Some c) ->
  check_working_time wh o = Ok (dt_lt o c)
  /\ check_working_time wh c = Ok false
  /\ (dt_lt o c = false ->
      forall t, isoweekday t = isoweekday dt ->
                check_working_time wh t = Ok false).
Proof.
  intros Hf Hs He.
  destruct (parse_hours_clock _ _ _ Hs) as (h & m & Hs').
  destruct (parse_hours_clock _ _ _ He) as (h' & m' & He').
  assert (o = replace_clock dt h m) by (rewrite Hs' in Hs; congruence).
  assert (c = replace_clock dt h' m') by (rewrite He' in He; congruence).
  subst o c. unfold check_working_time, od_get.
  change (isoweekday (replace_clock dt h m)) with (isoweekday dt).
  change (isoweekday (replace_clock dt h' m')) with (isoweekday dt).
  rewrite Hf. cbn [bind]. rewrite !Hs', !He'. cbn [bind].
  change (replace_clock (replace_clock dt h m) h m) with (replace_clock dt h m).
  change (replace_clock (replace_clock dt h m) h' m') with (replace_clock dt h' m').
  change (replace_clock (replace_clock dt h' m') h m) with (replace_clock dt h m).
  change (replace_clock (replace_clock dt h' m') h' m') with (replace_clock dt h' m').
  rewrite dt_le_refl, dt_lt_irrefl, andb_false_r.
  split; [reflexivity|]. split; [reflexivity|].
  intros Hno t Hw. rewrite Hw, Hf. cbn [bind]. rewrite Hs', He'. cbn [bind].
  f_equal. destruct (dt_le (replace_clock t h m) t) eqn:E1; [|reflexivity].
  destruct (dt_lt t (replace_clock t h' m')) eqn:E2; [|reflexivity].
  pose proof (dt_le_lt_trans _ _ _ E1 E2) as E.
  rewrite (clock_order t dt) in E. congruence.
Qed.

(** C7.  On a built schedule [get_next_working_day] returns, and never the
    weekday of the instant it was given, whether that day has hours or
    not. *)
Theorem next_working_day_never_today ranges wh dt :
  build_raw ranges = Ok wh ->
  exists r, get_next_working_day wh dt = Some (Ok r)
            /\ r <> Some (isoweekday dt).
Proof.
  intros H. apply build_raw_weekdays in H as [Hraw _].
  destruct (get_next_working_day_spec wh dt Hraw) as (r & Hr & Hspec).
  exists r. split; [exact Hr|]. intros ->.
  destruct Hspec as (k & Hk & E & _).
  destruct (day_after_next (isoweekday dt) k (isoweekday_bounds dt) ltac:(lia))
    as (_ & _ & Hback).
  symmetry in E. apply Hback in E. lia.
Qed.

End Claims.

(** C1, on a text that ends in a range mark: [parse] raises.  The last
    token is a range mark met inside a block, and the loop reads
    [next_token.type] of the lookahead [None]. *)
Theorem parse_raises_on_trailing_range_mark :
  Tests.parse (u "Пн-Пт: 9.00 -") = Raise AttributeError.
Proof. vm_compute. reflexivity. Qed.

(** C8.  [Parser("Пн-Пт: 9.00-19.00").parse()] is the one pair the
    specification gives: days 1 to 5, hours "9.00" to "19.00". *)
Theorem parse_monday_to_friday :
  Tests.parse (u "Пн-Пт: 9.00-19.00")
  = Ok [(Some (mkRange (Some 1) (Some 5)),
         Some (mkRange (Some (u "9.00")) (Some (u "19.00"))))].
Proof. vm_compute. reflexivity. Qed.

(** C9, as amended.  After a showroom word and, next to it or further on,
    a token of a daytime kind, two tokens in a row that are not of a
    daytime kind, the first of them no filler word, end the parse at the
    latest: whatever follows them has no part in the result. *)
Theorem showroom_cutoff pre sw mid d blk w1 w2 rest :
  type sw = word -> str_in (value sw) SHOWROOM_WORDS = true ->
  is_daytime (type d) = true ->
  ends_block w1 -> is_daytime (type w2) = false ->
  parse_tokens (pre ++ sw :: mid ++ d :: blk ++ w1 :: w2 :: rest)
  = parse_tokens (pre ++ sw :: mid ++ d :: blk ++ [w1; w2]).
Proof.
  intros Hw Hv Hd H1 H2. destruct pre as [|t pre]; cbn [app parse_tokens].
  - now apply cutoff_showroom_word.
  - now apply cutoff_prefix.
Qed.

(** The text of C8 is matched literally, the text of C10 below is not. *)
Example monday_to_friday_matched_literally :
  matched_literally (RT := CPython.runtime) (u "Пн-Пт: 9.00-19.00") = true
  /\ matched_literally (RT := CPython.runtime) (u "ᲃб 10:00-18:00") = false.
Proof. split; vm_compute; reflexivity. Qed.

(** C10, on a weekday written with a case variant that [str.lower] keeps:
    the case-insensitive pattern takes "ᲃб" (U+1C83, U+0431) for "сб", the
    token's text is no key of [WEEKDAYS], and the pair [parse] returns has a
    days-range whose start and end are both [None]; the schedule builder
    then fails on it. *)
Theorem parse_days_range_of_none :
  Tests.parse (u "ᲃб 10:00-18:00")
  = Ok [(Some (mkRange None None),
         Some (mkRange (Some (u "10:00")) (Some (u "18:00"))))]
  /\ Tests.new (u "ᲃб 10:00-18:00") = Raise TypeError.
Proof. split; vm_compute; reflexivity. Qed.

(* ================================================================== *)
(** ** Instances of the theorems, and the inputs that refute C2, C6, C9 *)

(** C2 as stated fails: in "Пн-Пт 9:00-18:00 обед 13:00-14:00" the hours
    of the lunch break come without days; Monday, set to 9:00-18:00 by the
    first pair, is overwritten by the second. *)
Lemma nodays_pair_overwrites_set_weekday :
  exists wh1 wh,
    Tests.parse (u "Пн-Пт 9:00-18:00 обед 13:00-14:00")
    = Ok [Tests.weekdays_9_18; Tests.lunch_13_14]
    /\ build_raw [Tests.weekdays_9_18] = Ok wh1
    /\ od_find 1 (_raw_schedule wh1) = Some (Tests.hours "9:00" "18:00")
    /\ Tests.new (u "Пн-Пт 9:00-18:00 обед 13:00-14:00") = Ok wh
    /\ od_find 1 (_raw_schedule wh) = Some (Tests.hours "13:00" "14:00")
    /\ Tests.hours "13:00" "14:00" <> Tests.hours "9:00" "18:00".
Proof.
  do 2 eexists. split; [vm_compute; reflexivity|].
  split; [vm_compute; reflexivity|].
  split; [vm_compute; reflexivity|].
  split; [vm_compute; reflexivity|].
  split; [vm_compute; reflexivity|].
  vm_compute. discriminate.
Qed.

Lemma build_raw_last_pair_wins_witness :
  exists wh,
    build_raw [Tests.weekdays_9_18; Tests.lunch_13_14; Tests.weekend_10_16]
    = Ok wh
    /\ od_find 1 (_raw_schedule wh) = Some (snd Tests.lunch_13_14)
    /\ od_find 6 (_raw_schedule wh) = Some (snd Tests.weekend_10_16).
Proof.
  eexists. split; [vm_compute; reflexivity|].
  split.
  - apply (build_raw_last_pair_wins
             [Tests.weekdays_9_18; Tests.lunch_13_14; Tests.weekend_10_16]);
      [vm_compute; reflexivity | lia].
  - apply (build_raw_last_pair_wins
             [Tests.weekdays_9_18; Tests.lunch_13_14; Tests.weekend_10_16]);
      [vm_compute; reflexivity | lia].
Defined.

Lemma print_schedule_never_succeeds_witness :
  exists wh,
    Tests.new (u "Пн-Пт: 9.00-19.00") = Ok wh
    /\ exists e, print_schedule (RT := CPython.runtime)
                   wh (u "%H:%M") [10] (u "выходной") = Raise e.
Proof.
  eexists. split; [vm_compute; reflexivity|].
  apply (print_schedule_never_succeeds (RT := CPython.runtime)
           (u "Пн-Пт: 9.00-19.00")).
  vm_compute. reflexivity.
Defined.

Lemma get_next_working_day_scan_witness :
  exists wh,
    build_raw [(Tests.days 6 6, Tests.hours "10.00" "18.00")] = Ok wh
    /\ exists r, get_next_working_day wh Tests.test_datetime1 = Some (Ok r)
       /\ next_day_spec (_raw_schedule wh) (isoweekday Tests.test_datetime1) r
       /\ (r = None <->
           forall d, 1 <= d <= 7 -> d <> isoweekday Tests.test_datetime1 ->
                     no_hours (_raw_schedule wh) d).
Proof.
  eexists. split; [vm_compute; reflexivity|].
  apply (get_next_working_day_scan
           [(Tests.days 6 6, Tests.hours "10.00" "18.00")]).
  vm_compute. reflexivity.
Defined.

Lemma check_working_time_unset_end_witness :
  exists wh r ps,
    Tests.new (u "Пн-Пт 9:00") = Ok wh
    /\ od_find (isoweekday Tests.monday_10) (_raw_schedule wh) = Some (Some r)
    /\ parse_hours (RT := CPython.runtime) (start r) Tests.monday_10 = Ok ps
    /\ end_ r = None
    /\ check_working_time (RT := CPython.runtime) wh Tests.monday_10
       = Raise TypeError.
Proof.
  do 3 eexists. split; [vm_compute; reflexivity|].
  split; [vm_compute; reflexivity|].
  split; [vm_compute; reflexivity|].
  split; [vm_compute; reflexivity|].
  eapply (check_working_time_unset_end (RT := CPython.runtime));
    vm_compute; reflexivity.
Defined.

(** C6 as stated fails: both bounds of "19:00 - 9:00" parse, and at the
    opening time, 19:00, the answer is [False]. *)
Lemma closed_at_open_time_of_overnight_range :
  exists wh r,
    Tests.new (u "Пн 19:00 - 9:00") = Ok wh
    /\ od_find (isoweekday Tests.monday_10) (_raw_schedule wh) = Some (Some r)
    /\ parse_hours (RT := CPython.runtime) (start r) Tests.monday_10
       = Ok (Some Tests.monday_19)
    /\ (exists c, parse_hours (RT := CPython.runtime) (end_ r) Tests.monday_10
                  = Ok (Some c))
    /\ check_working_time (RT := CPython.runtime) wh Tests.monday_19 = Ok false.
Proof.
  do 2 eexists. split; [vm_compute; reflexivity|].
  split; [vm_compute; reflexivity|].
  split; [vm_compute; reflexivity|].
  split; [eexists; vm_compute; reflexivity|].
  vm_compute. reflexivity.
Qed.

Lemma check_working_time_half_open_witness :
  (exists wh r,
     Tests.new (u "Пн-Пт: 9.00-19.00") = Ok wh
     /\ od_find (isoweekday Tests.monday_10) (_raw_schedule wh) = Some (Some r)
     /\ parse_hours (RT := CPython.runtime) (start r) Tests.monday_10
        = Ok (Some Tests.monday_9)
     /\ parse_hours (RT := CPython.runtime) (end_ r) Tests.monday_10
        = Ok (Some Tests.monday_19)
     /\ dt_lt Tests.monday_9 Tests.monday_19 = true
     /\ check_working_time (RT := CPython.runtime) wh Tests.monday_9
        = Ok (dt_lt Tests.monday_9 Tests.monday_19)
     /\ check_working_time (RT := CPython.runtime) wh Tests.monday_19 = Ok false)
  /\ (exists wh r,
        Tests.new (u "Пн 19:00 - 9:00") = Ok wh
        /\ od_find (isoweekday Tests.monday_10) (_raw_schedule wh)
           = Some (Some r)
        /\ parse_hours (RT := CPython.runtime) (start r) Tests.monday_10
           = Ok (Some Tests.monday_19)
        /\ parse_hours (RT := CPython.runtime) (end_ r) Tests.monday_10
           = Ok (Some Tests.monday_9)
        /\ dt_lt Tests.monday_19 Tests.monday_9 = false
        /\ forall t, isoweekday t = isoweekday Tests.monday_10 ->
                     check_working_time (RT := CPython.runtime) wh t = Ok false).
Proof.
  split.
  - do 2 eexists. split; [vm_compute; reflexivity|].
    split; [vm_compute; reflexivity|].
    split; [vm_compute; reflexivity|].
    split; [vm_compute; reflexivity|].
    split; [vm_compute; reflexivity|].
    refine (let H := check_working_time_half_open (RT := CPython.runtime)
                       _ Tests.monday_10 _ Tests.monday_9 Tests.monday_19
                       _ _ _ in conj (proj1 H) (proj1 (proj2 H)));
      vm_compute; reflexivity.
  - do 2 eexists. split; [vm_compute; reflexivity|].
    split; [vm_compute; reflexivity|].
    split; [vm_compute; reflexivity|].
    split; [vm_compute; reflexivity|].
    split; [vm_compute; reflexivity|].
    refine (proj2 (proj2 (check_working_time_half_open (RT := CPython.runtime)
                            _ Tests.monday_10 _ Tests.monday_19 Tests.monday_9
                            _ _ _)) _);
      vm_compute; reflexivity.
Defined.

Lemma next_working_day_never_today_witness :
  exists wh,
    build_raw [(None, Tests.hours "9:00" "20:00")] = Ok wh
    /\ exists r, get_next_working_day wh Tests.test_datetime3 = Some (Ok r)
                 /\ r <> Some (isoweekday Tests.test_datetime3).
Proof.
  eexists. split; [vm_compute; reflexivity|].
  apply (next_working_day_never_today [(None, Tests.hours "9:00" "20:00")]).
  vm_compute. reflexivity.
Defined.

(** C9 as stated fails: the second department is announced by one word,
    and its pair is returned after the showroom's. *)
Lemma single_word_department_leaks :
  Tests.parse
    (u "Автосалон: пн-пт 9:00-20:00 Сервис: ежедневно 8:00-20:00")
  = Ok [(Tests.days 1 5, Tests.hours "9:00" "20:00");
        (Tests.days 1 7, Tests.hours "8:00" "20:00")].
Proof. vm_compute. reflexivity. Qed.

Lemma showroom_cutoff_witness :
  (Tests.parse
     (u "Автосалон работает: пн-пт 09:00-20:00 Сервисный центр: ежедневно 08:00-20:00")
   = parse_tokens
       ([] ++ Tests.tok word "автосалон" :: [Tests.tok word "работает"]
           ++ Tests.tok weekday "пн" :: Tests.showroom_block
           ++ Tests.tok word "сервисный" :: Tests.tok word "центр"
           :: Tests.service_block))
  /\ (type (Tests.tok word "автосалон") = word
      /\ str_in (value (Tests.tok word "автосалон")) SHOWROOM_WORDS = true
      /\ is_daytime (type (Tests.tok weekday "пн")) = true
      /\ ends_block (Tests.tok word "сервисный")
      /\ is_daytime (type (Tests.tok word "центр")) = false)
  /\ parse_tokens
       ([] ++ Tests.tok word "автосалон" :: [Tests.tok word "работает"]
           ++ Tests.tok weekday "пн" :: Tests.showroom_block
           ++ Tests.tok word "сервисный" :: Tests.tok word "центр"
           :: Tests.service_block)
     = parse_tokens
         ([] ++ Tests.tok word "автосалон" :: [Tests.tok word "работает"]
             ++ Tests.tok weekday "пн" :: Tests.showroom_block
             ++ [Tests.tok word "сервисный"; Tests.tok word "центр"]).
Proof.
  assert (H : ends_block (Tests.tok word "сервисный"))
    by (split; vm_compute; reflexivity).
  split; [vm_compute; reflexivity|].
  split; [repeat split; try exact H; vm_compute; reflexivity|].
  apply showroom_cutoff; try exact H; vm_compute; reflexivity.
Defined.

(* ================================================================== *)
(** ** More on the tokenizer *)

Section TokenizerShape.
Context `{RT : PyRuntime}.

Lemma match_hour_digit s :
  match match_hour s with
  | Some n => (1 <= n <= 5)%nat /\ exists c s', s = c :: s' /\ is_digit c = true
  | None => forall c s', s = c :: s' -> is_digit c = false
  end.
Proof.
  unfold match_hour. destruct s as [|d1 t1]; [intros; discriminate|].
  destruct (is_digit d1) eqn:E1; [|now intros c s' [= <- <-]].
  assert (Hhead : exists c s', d1 :: t1 = c :: s' /\ is_digit c = true)
    by (exists d1, t1; auto).
  repeat match goal with
         | |- context [match ?l with [] => _ | _ :: _ => _ end] => destruct l
         | |- context [if ?b then _ else _] => destruct b
         end; (split; [lia | exact Hhead]).
Qed.

Lemma match_literals_key lits s n :
  match_literals lits s = Some n ->
  exists k, In k lits /\ n = List.length k /\ ci_prefix k s = true.
Proof.
  unfold match_literals. destruct (find _ lits) as [k|] eqn:E; [|discriminate].
  intros [= <-]. apply find_some in E as [Hin Hp]. now exists k.
Qed.

Lemma pattern_literals_nonempty k :
  In k (keys WEEKDAYS ++ keys WEEKDAY_RANGES ++ RANGE_MARKS) ->
  (1 <= List.length k)%nat.
Proof.
  intros H. vm_compute in H.
  repeat (destruct H as [<-|H]; [cbn [List.length]; lia|]). contradiction.
Qed.

Lemma span_word_spec s :
  Forall (fun c => is_word_char c = true) (firstn (span_word s) s).
Proof.
  induction s as [|c s IH]; cbn [span_word]; [constructor|].
  destruct (is_word_char c) eqn:E; cbn [firstn]; constructor; assumption.
Qed.

(** What one match of the pattern gives: a non-empty prefix of the text at
    the place of the match, of the kind of the first alternative that
    matches there. *)
Lemma match_at_prefix s t :
  match_at s = Some t ->
  exists n, (1 <= n)%nat /\ value t = firstn n s.
Proof.
  unfold match_at. pose proof (match_hour_digit s) as Hh.
  destruct (match_hour s) as [n|].
  { intros [= <-]. exists n. split; [lia | reflexivity]. }
  destruct (match_literals (keys WEEKDAYS) s) as [n|] eqn:E1.
  { intros [= <-]. exists n. split; [|reflexivity].
    apply match_literals_key in E1 as (k & Hin & -> & _).
    apply pattern_literals_nonempty, in_or_app. now left. }
  destruct (match_literals (keys WEEKDAY_RANGES) s) as [n|] eqn:E2.
  { intros [= <-]. exists n. split; [|reflexivity].
    apply match_literals_key in E2 as (k & Hin & -> & _).
    apply pattern_literals_nonempty, in_or_app. right.
    apply in_or_app. now left. }
  destruct (match_literals RANGE_MARKS s) as [n|] eqn:E3.
  { intros [= <-]. exists n. split; [|reflexivity].
    apply match_literals_key in E3 as (k & Hin & -> & _).
    apply pattern_literals_nonempty, in_or_app. right.
    apply in_or_app. now right. }
  unfold match_word. destruct (span_word s) as [|n]; [discriminate|].
  intros [= <-]. exists (S n). split; [lia | reflexivity].
Qed.

Lemma match_at_hour s t :
  match_at s = Some t ->
  (type t = hour <-> exists c s', s = c :: s' /\ is_digit c = true).
Proof.
  unfold match_at. pose proof (match_hour_digit s) as Hh.
  destruct (match_hour s) as [n|].
  { intros [= <-]. cbn [type]. tauto. }
  assert (Hno : ~ exists c s', s = c :: s' /\ is_digit c = true).
  { intros (c & s' & -> & Hc). rewrite (Hh c s' eq_refl) in Hc. discriminate. }
  destruct (match_literals (keys WEEKDAYS) s);
    [intros [= <-]; cbn [type]; split; [discriminate | tauto]|].
  destruct (match_literals (keys WEEKDAY_RANGES) s);
    [intros [= <-]; cbn [type]; split; [discriminate | tauto]|].
  destruct (match_literals RANGE_MARKS s);
    [intros [= <-]; cbn [type]; split; [discriminate | tauto]|].
  destruct (match_word s); [|discriminate].
  intros [= <-]; cbn [type]; split; [discriminate | tauto].
Qed.

Lemma match_at_word s t :
  match_at s = Some t -> type t = word ->
  Forall (fun c => is_word_char c = true) (value t).
Proof.
  unfold match_at.
  destruct (match_hour s); [intros [= <-]; discriminate|].
  destruct (match_literals (keys WEEKDAYS) s); [intros [= <-]; discriminate|].
  destruct (match_literals (keys WEEKDAY_RANGES) s);
    [intros [= <-]; discriminate|].
  destruct (match_literals RANGE_MARKS s); [intros [= <-]; discriminate|].
  unfold match_word. destruct (span_word s) as [|n] eqn:E; [discriminate|].
  intros [= <-] _.
  change (Forall (fun c => is_word_char c = true) (firstn (S n) s)).
  rewrite <- E. apply span_word_spec.
Qed.

(** Every token of [finditer] is a match of the pattern somewhere in the
    text. *)
Lemma finditer_matches (P : Token -> Prop) :
  (forall s' t, match_at s' = Some t -> P t) ->
  forall s skip, Forall P (finditer skip s).
Proof.
  intros HP. induction s as [|c s IH]; intros skip; cbn [finditer];
    [constructor|].
  destruct skip as [|skip]; [|apply IH].
  destruct (match_at (c :: s)) as [t|] eqn:E; [|apply IH].
  constructor; [eapply HP; eauto | apply IH].
Qed.

Lemma slices_gap vs s c : slices vs s -> slices vs (c :: s).
Proof.
  intros H. destruct H as [s|gap v vs rest Hv H]; [constructor|].
  change (c :: gap ++ v ++ rest) with ((c :: gap) ++ v ++ rest).
  now constructor.
Qed.

Lemma finditer_slices s : forall skip,
  slices (List.map value (finditer skip s)) (skipn skip s).
Proof.
  induction s as [|c s IH]; intros skip; cbn [finditer].
  - cbn [List.map]. constructor.
  - destruct skip as [|skip]; [|apply IH].
    cbn [skipn].
    destruct (match_at (c :: s)) as [t|] eqn:E.
    + destruct (match_at_prefix _ _ E) as (n & Hn & Hv).
      cbn [List.map]. specialize (IH (List.length (value t) - 1)%nat).
      destruct n as [|n]; [lia|]. rewrite Hv in IH |- *. cbn [firstn] in IH |- *.
      cbn [List.length] in IH. rewrite Nat.sub_succ, Nat.sub_0_r in IH.
      assert (Hs : c :: s
                   = [] ++ (c :: firstn n s)
                        ++ skipn (List.length (firstn n s)) s).
      { cbn [app]. f_equal. rewrite length_firstn.
        destruct (Nat.le_ge_cases n (List.length s)) as [Hle|Hge].
        - rewrite Nat.min_l by exact Hle. symmetry. apply firstn_skipn.
        - rewrite Nat.min_r by exact Hge.
          rewrite firstn_all2 by exact Hge.
          rewrite skipn_all. now rewrite app_nil_r. }
      rewrite Hs at 1. constructor; [discriminate|].
      cbn [List.length]. rewrite Nat.sub_succ, Nat.sub_0_r. exact IH.
    + apply slices_gap. specialize (IH 0%nat). exact IH.
Qed.

(** X1.  The texts of the tokens are non-empty pieces of the preprocessed
    text, in the order of the text and without overlap: the tokenizer
    neither invents nor repeats a character. *)
Theorem tokens_are_slices text :
  slices (List.map value (tokenize text)) (preprocess text).
Proof. unfold tokenize. exact (finditer_slices (preprocess text) 0). Qed.

(** X2.  A token is an hour token exactly when its text starts with a
    digit: no weekday, range-mark or word token starts with a digit, and
    no hour token with anything else. *)
Theorem hour_token_iff_digit text :
  Forall (fun t => type t = hour <->
                   exists c v, value t = c :: v /\ is_digit c = true)
         (tokenize text).
Proof.
  unfold tokenize. apply finditer_matches. intros s t E.
  destruct (match_at_prefix _ _ E) as (n & Hn & Hv).
  rewrite (match_at_hour _ _ E), Hv. destruct n as [|n]; [lia|].
  split.
  - intros (c & s' & -> & Hc). cbn [firstn]. eauto.
  - intros (c & v & Hf & Hc). destruct s as [|c' s']; [discriminate|].
    cbn [firstn] in Hf. injection Hf as <- _. eauto.
Qed.

(** X3.  An hour token has at most five characters, and a word token
    consists of word characters only. *)
Theorem token_shapes text :
  Forall (fun t =>
            (type t = hour -> (List.length (value t) <= 5)%nat)
            /\ (type t = word ->
                Forall (fun c => is_word_char c = true) (value t)))
         (tokenize text).
Proof.
  unfold tokenize. apply finditer_matches. intros s t E. split.
  - intros Hty. revert E Hty. unfold match_at.
    pose proof (match_hour_digit s) as Hh.
    destruct (match_hour s) as [n|].
    + intros [= <-] _. cbn [value]. rewrite length_firstn. lia.
    + destruct (match_literals (keys WEEKDAYS) s);
        [intros [= <-]; discriminate|].
      destruct (match_literals (keys WEEKDAY_RANGES) s);
        [intros [= <-]; discriminate|].
      destruct (match_literals RANGE_MARKS s); [intros [= <-]; discriminate|].
      destruct (match_word s); [intros [= <-]|]; discriminate.
  - intros Hty. eapply match_at_word; eauto.
Qed.

(** X4.  After the preprocessing no long dash is left in the text. *)
Theorem preprocess_no_long_dash text :
  ~ In 8211 (preprocess text) /\ ~ In 8212 (preprocess text).
Proof.
  unfold preprocess, str_replace1. split; intros H;
    apply in_flat_map in H as (c & Hc & H).
  - destruct (Z.eqb_spec c 8212); [vm_compute in H; intuition discriminate|].
    destruct H as [H|[]]. subst c.
    apply in_flat_map in Hc as (c' & _ & H).
    destruct (Z.eqb_spec c' 8211); [vm_compute in H; intuition discriminate|].
    destruct H as [H|[]]. congruence.
  - destruct (Z.eqb_spec c 8212); [vm_compute in H; intuition discriminate|].
    destruct H as [H|[]]. congruence.
Qed.

End TokenizerShape.

(* ================================================================== *)
(** ** More on the range parser *)

Lemma parse_loop_no_daytime rest : forall self t,
  state self = OUTSIDE_DATETIME -> ranges self = [] ->
  Forall (fun t => is_daytime (type t) = false) (t :: rest) ->
  parse_loop self t rest
  = if show_room_flag self
       || existsb (fun t => str_in (value t) SHOWROOM_WORDS)
                  (removelast (t :: rest))
    then Raise AttributeError else Ok [].
Proof.
  induction rest as [|x rest IH]; intros [st rs dr hr fl] t Hs Hr Hall;
    cbn [state ranges] in Hs, Hr; subst st rs;
    inversion Hall as [|? ? Ht Hrest]; subst.
  - cbn [parse_loop hd_error removelast existsb]. rewrite orb_false_r.
    unfold transition, handle_state, handle_outside_datetime_state, type_of.
    cbn [state ranges show_room_flag State_eqb andb].
    rewrite Ht. cbn [andb negb bind].
    destruct fl; cbn [andb bind]; [reflexivity|].
    destruct (str_in (value t) SHOWROOM_WORDS); reflexivity.
  - rewrite parse_loop_cons.
    inversion Hrest as [|? ? Hx _]; subst.
    unfold transition, handle_state, handle_outside_datetime_state, type_of.
    cbn [state ranges show_room_flag State_eqb andb].
    rewrite Ht.
    change (removelast (t :: x :: rest)) with (t :: removelast (x :: rest)).
    cbn [existsb].
    destruct fl; cbn [andb negb bind orb state]; rewrite ?Hx;
      cbn [andb negb bind nonempty state];
      destruct (str_in (value t) SHOWROOM_WORDS); cbn [orb];
      (rewrite IH; [reflexivity | reflexivity | reflexivity | assumption]).
Qed.

(** X5.  A token stream without an hour, a weekday or a weekday range has
    no pairs: [parse] returns the empty list, unless a showroom word stands
    before the last token, in which case the last round of the loop reads
    the type of the missing lookahead and raises. *)
Theorem parse_tokens_no_daytime tokens :
  Forall (fun t => is_daytime (type t) = false) tokens ->
  parse_tokens tokens
  = if existsb (fun t => str_in (value t) SHOWROOM_WORDS) (removelast tokens)
    then Raise AttributeError else Ok [].
Proof.
  destruct tokens as [|t rest]; [reflexivity|]. intros H.
  cbn [parse_tokens]. now rewrite parse_loop_no_daytime.
Qed.

(** Induction over the rounds of the loop of [parse]: an invariant [I] of
    the parser state that each round keeps gives [Q] of the result. *)
Lemma parse_loop_rounds (P : Token -> Prop) (I : Parser -> Prop)
    (Q : list RangePair -> Prop) :
  (forall self t nx s s',
      P t -> (forall n, nx = Some n -> P n) -> I self ->
      transition self t nx = Ok (Continue s) ->
      handle_state s t nx = Ok s' -> I s') ->
  (forall self t nx s,
      P t -> (forall n, nx = Some n -> P n) -> I self ->
      transition self t nx = Ok (Break s) -> Q (ranges s)) ->
  (forall self, I self -> Q (ranges self)) ->
  (forall self, I self -> state self = INSIDE_DATETIME ->
                Q (ranges (save_ranges self))) ->
  forall rest self t pairs,
    Forall P (t :: rest) -> I self ->
    parse_loop self t rest = Ok pairs -> Q pairs.
Proof.
  intros Hstep Hbreak Hend Hsave.
  induction rest as [|x rest IH]; intros self t pairs HP HI;
    inversion HP as [|? ? Ht Hrest]; subst.
  - cbn [parse_loop hd_error].
    destruct (transition self t None) as [[s|s]|] eqn:Et; try discriminate.
    + destruct (handle_state s t None) as [s'|] eqn:Eh; [|discriminate].
      assert (HI' : I s') by (eapply Hstep; eauto; discriminate).
      cbn [truthy negb andb].
      destruct (State_eqb (state s') INSIDE_DATETIME) eqn:Es; intros [= <-].
      * apply Hsave; [exact HI' | now apply State_eqb_eq].
      * now apply Hend.
    + intros [= <-]. eapply Hbreak; eauto. discriminate.
  - rewrite parse_loop_cons.
    assert (Hx : forall n, Some x = Some n -> P n)
      by (intros n [= <-]; now inversion Hrest).
    destruct (transition self t (Some x)) as [[s|s]|] eqn:Et; try discriminate.
    + destruct (handle_state s t (Some x)) as [s'|] eqn:Eh; [|discriminate].
      apply IH; [exact Hrest | eapply Hstep; eauto].
    + intros [= <-]. eapply Hbreak; eauto.
Qed.

Lemma parse_tokens_rounds (P : Token -> Prop) (I : Parser -> Prop)
    (Q : list RangePair -> Prop) :
  (forall self t nx s s',
      P t -> (forall n, nx = Some n -> P n) -> I self ->
      transition self t nx = Ok (Continue s) ->
      handle_state s t nx = Ok s' -> I s') ->
  (forall self t nx s,
      P t -> (forall n, nx = Some n -> P n) -> I self ->
      transition self t nx = Ok (Break s) -> Q (ranges s)) ->
  (forall self, I self -> Q (ranges self)) ->
  (forall self, I self -> state self = INSIDE_DATETIME ->
                Q (ranges (save_ranges self))) ->
  I Parser_init ->
  forall tokens pairs,
    Forall P tokens -> parse_tokens tokens = Ok pairs -> Q pairs.
Proof.
  intros Hstep Hbreak Hend Hsave Hinit [|t rest] pairs HP; cbn [parse_tokens].
  - intros [= <-]. exact (Hend _ Hinit).
  - now apply (parse_loop_rounds P I Q).
Qed.

(** What a round of the loop can do to the state before the handler
    runs: nothing, enter a block, or close the open block. *)
Lemma transition_cases self t nx f :
  transition self t nx = Ok f ->
  f = Continue self
  \/ (f = Continue (set_state self INSIDE_DATETIME)
      /\ state self = OUTSIDE_DATETIME /\ is_daytime (type t) = true)
  \/ (f = Break self /\ state self = OUTSIDE_DATETIME)
  \/ (state self = INSIDE_DATETIME
      /\ (f = Continue (save_ranges (set_state self OUTSIDE_DATETIME))
          \/ f = Break (save_ranges (set_state self OUTSIDE_DATETIME)))).
Proof.
  unfold transition, close_block. parser_simpl.
  destruct (State_eqb (state self) OUTSIDE_DATETIME) eqn:Eo.
  - apply State_eqb_eq in Eo. rewrite Eo. cbn [State_eqb andb bind].
    destruct (is_daytime (type t)) eqn:Ed; [intros [= <-]; tauto|].
    destruct (show_room_flag self); cbn [andb negb bind];
      [|intros [= <-]; tauto].
    destruct (type_of nx) as [nt|]; cbn [bind]; [|discriminate].
    match goal with |- context [if ?c then _ else _] => destruct c end;
      intros [= <-]; tauto.
  - assert (Ei : state self = INSIDE_DATETIME)
      by (destruct (state self); [discriminate | reflexivity]).
    rewrite Ei. cbn [State_eqb andb].
    repeat match goal with
           | |- context [if ?c then _ else _] => destruct c; cbn [bind]
           | |- bind ?m _ = _ -> _ => destruct m as [?|]; cbn [bind]
           | |- Ok _ = Ok _ -> _ => intros [= <-]; tauto
           | |- Raise _ = Ok _ -> _ => discriminate
           end.
Qed.

Lemma handle_state_hours all self t nx s' :
  In t all -> (forall n, nx = Some n -> In n all) ->
  hours_from all (hours_range self) ->
  handle_state self t nx = Ok s' ->
  hours_from all (hours_range s')
  /\ ranges s' = ranges self /\ state s' = state self.
Proof.
  intros Ht Hn Hh.
  unfold handle_state, handle_outside_datetime_state, handle_datetime_state.
  destruct (state self) eqn:Es.
  { destruct (str_in _ _); intros [= <-]; parser_simpl; auto. }
  destruct (TokenType_eqb (type t) hour && _) eqn:E1.
  { intros [= <-]. parser_simpl. repeat split; [|now left|auto].
    apply andb_true_iff in E1 as [E1 _]. apply TokenType_eqb_eq in E1.
    now exists t. }
  destruct (TokenType_eqb (type t) weekday && _).
  { intros [= <-]. parser_simpl. auto. }
  destruct (TokenType_eqb (type t) weekday_range && _).
  { destruct (dict_get WEEKDAY_RANGES (value t)) as [[a b]|];
      intros [= <-]; parser_simpl; auto. }
  intros H. apply bind_Ok in H as (c4 & Hc4 & H). destruct c4.
  { injection H as <-. parser_simpl. repeat split; auto.
    destruct (TokenType_eqb (type t) range_mark); [|discriminate].
    apply bind_Ok in Hc4 as (nt & Hnt & Hc4). injection Hc4 as Hc4.
    apply andb_true_iff in Hc4 as [Hty _]. apply TokenType_eqb_eq in Hty.
    destruct nx as [n|]; [|discriminate]. injection Hnt as <-.
    destruct (hours_range self) as [r|]; [|exact I]. parser_simpl.
    destruct Hh as [Hstart _]. split; [exact Hstart|]. right.
    exists n. auto. }
  apply bind_Ok in H as (c5 & _ & H).
  destruct c5; injection H as <-; parser_simpl; auto.
Qed.

(** X6.  Every hours-range [parse] returns has a start, and its start and
    its end, where it has one, are texts of hour tokens of the stream:
    the parser passes the hours on as they were written and makes none
    up. *)
Theorem parsed_hours_are_hour_tokens tokens pairs :
  parse_tokens tokens = Ok pairs ->
  Forall (fun p : RangePair => hours_from tokens (snd p)) pairs.
Proof.
  apply (parse_tokens_rounds
           (fun t => In t tokens)
           (fun self => hours_from tokens (hours_range self)
                        /\ Forall (fun p : RangePair => hours_from tokens (snd p))
                                  (ranges self))
           (fun pairs => Forall (fun p : RangePair => hours_from tokens (snd p))
                                pairs)).
  - intros self t nx s s' Ht Hn [Hh Hr] Etr Eh.
    assert (Hs : hours_from tokens (hours_range s)
                 /\ Forall (fun p : RangePair => hours_from tokens (snd p))
                           (ranges s)).
    { apply transition_cases in Etr
        as [E|[(E & _)|[(E & _)|(_ & [E|E])]]]; try discriminate;
        injection E as ->; parser_simpl; auto.
      split; [exact I|]. apply Forall_app. split; [exact Hr|].
      constructor; [exact Hh | constructor]. }
    destruct Hs as [Hh' Hr'].
    destruct (handle_state_hours _ _ _ _ _ Ht Hn Hh' Eh) as (H1 & -> & _).
    auto.
  - intros self t nx s Ht Hn [Hh Hr] Etr.
    apply transition_cases in Etr
      as [E|[(E & _)|[(E & _)|(_ & [E|E])]]]; try discriminate;
      injection E as ->; parser_simpl; auto.
    apply Forall_app. split; [exact Hr|]. constructor; [exact Hh | constructor].
  - now intros self [_ Hr].
  - intros self [Hh Hr] _. parser_simpl. apply Forall_app.
    split; [exact Hr|]. constructor; [exact Hh | constructor].
  - split; [exact I | constructor].
  - apply Forall_forall. auto.
Qed.

Lemma handle_datetime_state_keeps self t nx s' :
  handle_datetime_state self t nx = Ok s' ->
  (truthy (days_range self) = true -> truthy (days_range s') = true)
  /\ (truthy (hours_range self) = true -> truthy (hours_range s') = true).
Proof.
  unfold handle_datetime_state.
  destruct (days_range self) as [dr|] eqn:Ed, (hours_range self) as [hr|] eqn:Eh;
    cbn [truthy negb andb option_map];
    repeat match goal with
           | |- context [if ?c then _ else _] => destruct c; cbn [bind]
           | |- context [match dict_get ?d ?k with _ => _ end] =>
             destruct (dict_get d k) as [[? ?]|]
           | |- bind ?m _ = _ -> _ => destruct m as [[|]|]; cbn [bind]
           | |- Ok _ = Ok _ -> _ =>
             intros [= <-]; parser_simpl; rewrite ?Ed, ?Eh;
             cbn [truthy option_map]; auto
           | |- Raise _ = Ok _ -> _ => discriminate
           end.
Qed.

Lemma handle_datetime_state_opens self t nx s' :
  is_daytime (type t) = true -> known_range t ->
  handle_datetime_state self t nx = Ok s' ->
  truthy (days_range s') || truthy (hours_range s') = true.
Proof.
  intros Hd Hk. unfold handle_datetime_state.
  destruct (type t) eqn:Ety; try discriminate; cbn [TokenType_eqb andb bind].
  - destruct (hours_range self) eqn:Eh; cbn [truthy negb];
      intros [= <-]; parser_simpl; rewrite ?Eh; cbn [truthy];
      apply orb_true_r.
  - destruct (days_range self) eqn:Ed; cbn [truthy negb];
      intros [= <-]; parser_simpl; rewrite ?Ed; reflexivity.
  - destruct (days_range self) eqn:Ed; cbn [truthy negb].
    + intros [= <-]. now rewrite Ed.
    + destruct (Hk Ety) as [[a b] ->]. intros [= <-]. reflexivity.
Qed.

(** X7.  When every weekday-range token is spelled as in [WEEKDAY_RANGES],
    no pair [parse] returns has both its days-range and its hours-range
    [None]: the [ValueError] of [WorkingHours.__init__] is out of reach. *)
Theorem parsed_pairs_nonnull tokens pairs :
  Forall known_range tokens ->
  parse_tokens tokens = Ok pairs ->
  Forall nonnull pairs.
Proof.
  intros Hk.
  apply (parse_tokens_rounds known_range
           (fun self =>
              (state self = INSIDE_DATETIME ->
               truthy (days_range self) || truthy (hours_range self) = true)
              /\ Forall nonnull (ranges self))
           (Forall nonnull)); [| | | | |exact Hk].
  - intros self t nx s s' Ht _ [Hin Hr] Etr Eh.
    apply transition_cases in Etr
      as [E|[(E & Hout & Hday)|[(E & _)|(Hi & [E|E])]]]; try discriminate;
      injection E as ->.
    + unfold handle_state in Eh. destruct (state self) eqn:Es.
      * unfold handle_outside_datetime_state in Eh.
        destruct (str_in _ _); injection Eh as <-; parser_simpl;
          rewrite Es; (split; [discriminate | exact Hr]).
      * destruct (handle_state_frame self t nx s') as (E1 & E2 & _);
          [unfold handle_state; now rewrite Es|].
        rewrite E2. split; [|exact Hr]. intros _.
        destruct (handle_datetime_state_keeps _ _ _ _ Eh) as [Kd Kh].
        specialize (Hin eq_refl). apply orb_true_iff in Hin as [H|H];
          apply orb_true_iff; [left; auto | right; auto].
    + destruct (handle_state_frame _ _ _ _ Eh) as (_ & E2 & _).
      rewrite E2. split; [|exact Hr]. intros _.
      unfold handle_state in Eh. cbn [state set_state] in Eh.
      eapply handle_datetime_state_opens; eauto.
    + destruct (handle_state_frame _ _ _ _ Eh) as (E1 & E2 & _).
      rewrite E1, E2. parser_simpl. split; [discriminate|].
      apply Forall_app. split; [exact Hr|].
      constructor; [exact (Hin Hi) | constructor].
  - intros self t nx s Ht _ [Hin Hr] Etr.
    apply transition_cases in Etr
      as [E|[(E & _)|[(E & _)|(Hi & [E|E])]]]; try discriminate;
      injection E as ->; parser_simpl; auto.
    apply Forall_app. split; [exact Hr|].
    constructor; [exact (Hin Hi) | constructor].
  - now intros self [_ Hr].
  - intros self [Hin Hr] Hi. parser_simpl. apply Forall_app.
    split; [exact Hr|]. constructor; [exact (Hin Hi) | constructor].
  - split; [discriminate | constructor].
Qed.

Lemma daytime_count_cons t rest :
  daytime_count (t :: rest)
  = ((if is_daytime (type t) then 1 else 0) + daytime_count rest)%nat.
Proof.
  unfold daytime_count. cbn [filter].
  now destruct (is_daytime (type t)).
Qed.

Lemma parse_loop_count rest : forall self t pairs,
  parse_loop self t rest = Ok pairs ->
  (List.length pairs
   <= List.length (ranges self)
      + (if State_eqb (state self) INSIDE_DATETIME then 1 else 0)
      + daytime_count (t :: rest))%nat.
Proof.
  assert (Hround : forall self t nx s s',
    transition self t nx = Ok (Continue s) ->
    handle_state s t nx = Ok s' ->
    (List.length (ranges s')
     + (if State_eqb (state s') INSIDE_DATETIME then 1 else 0)
     <= List.length (ranges self)
        + (if State_eqb (state self) INSIDE_DATETIME then 1 else 0)
        + (if is_daytime (type t) then 1 else 0))%nat).
  { intros self t nx s s' Etr Eh.
    destruct (handle_state_frame _ _ _ _ Eh) as (-> & -> & _).
    apply transition_cases in Etr
      as [E|[(E & Ho & Hd)|[(E & _)|(Hi & [E|E])]]]; try discriminate;
      injection E as ->; parser_simpl.
    - lia.
    - rewrite Ho, Hd. cbn [State_eqb]. lia.
    - rewrite Hi, length_app. cbn [State_eqb List.length]. lia. }
  assert (Hbreak : forall self t nx s,
    transition self t nx = Ok (Break s) ->
    (List.length (ranges s)
     <= List.length (ranges self)
        + (if State_eqb (state self) INSIDE_DATETIME then 1 else 0))%nat).
  { intros self t nx s Etr.
    apply transition_cases in Etr
      as [E|[(E & _)|[(E & _)|(Hi & [E|E])]]]; try discriminate;
      injection E as ->; parser_simpl; [lia|].
    rewrite Hi, length_app. cbn [State_eqb List.length]. lia. }
  induction rest as [|x rest IH]; intros self t pairs;
    rewrite daytime_count_cons.
  - cbn [parse_loop hd_error].
    destruct (transition self t None) as [[s|s]|] eqn:Et; try discriminate.
    + destruct (handle_state s t None) as [s'|] eqn:Eh; [|discriminate].
      pose proof (Hround _ _ _ _ _ Et Eh) as H. cbn [truthy negb andb].
      destruct (State_eqb (state s') INSIDE_DATETIME); intros [= <-];
        parser_simpl; rewrite ?length_app; cbn [List.length]; lia.
    + intros [= <-]. pose proof (Hbreak _ _ _ _ Et). lia.
  - rewrite parse_loop_cons.
    destruct (transition self t (Some x)) as [[s|s]|] eqn:Et; try discriminate.
    + destruct (handle_state s t (Some x)) as [s'|] eqn:Eh; [|discriminate].
      intros H. apply IH in H. pose proof (Hround _ _ _ _ _ Et Eh). lia.
    + intros [= <-]. pose proof (Hbreak _ _ _ _ Et). lia.
Qed.

(** X8.  [parse] returns at most as many pairs as the stream has hour,
    weekday and weekday-range tokens. *)
Theorem parsed_pairs_count tokens pairs :
  parse_tokens tokens = Ok pairs ->
  (List.length pairs <= daytime_count tokens)%nat.
Proof.
  destruct tokens as [|t rest]; cbn [parse_tokens].
  - intros [= <-]. cbn. lia.
  - intros H. apply parse_loop_count in H. cbn in H. exact H.
Qed.

(* ================================================================== *)
(** ** More on the schedule builder *)

Lemma keys_od_set {V} k (v : V) d :
  In k (keys d) -> keys (od_set k v d) = keys d.
Proof.
  induction d as [|[k' v'] d IH]; cbn [keys List.map fst od_set In];
    [tauto|].
  intros H. destruct (Z.eqb_spec k' k) as [->|Hne]; [reflexivity|].
  cbn [List.map fst]. f_equal. apply IH. destruct H; [congruence | assumption].
Qed.

Lemma keys_fold_set {V} (v : V) l : forall d,
  incl l (keys d) ->
  keys (fold_left (fun d day => od_set day v d) l d) = keys d.
Proof.
  induction l as [|k l IH]; intros d Hl; cbn [fold_left]; [reflexivity|].
  rewrite IH; [apply keys_od_set; apply Hl; now left|].
  rewrite keys_od_set by (apply Hl; now left).
  intros x Hx. apply Hl. now right.
Qed.

Lemma in_py_range j a b : In j (py_range a b) <-> a <= j < b.
Proof.
  pose proof (existsb_py_range j a b) as H.
  destruct (existsb (Z.eqb j) (py_range a b)) eqn:E.
  - symmetry in H. apply andb_true_iff in H as [H1 H2].
    apply Z.leb_le in H1. apply Z.ltb_lt in H2.
    apply existsb_exists in E as (x & Hin & Hx). apply Z.eqb_eq in Hx.
    subst x. tauto.
  - split; intros Hj.
    + assert (existsb (Z.eqb j) (py_range a b) = true); [|congruence].
      apply existsb_exists. exists j. split; [exact Hj | apply Z.eqb_refl].
    + symmetry in H. apply andb_false_iff in H as [H|H];
        [apply Z.leb_gt in H | apply Z.ltb_ge in H]; lia.
Qed.

Lemma assign_pair_week raw p :
  keys raw = week -> days_in_week (fst p) -> nonnull p ->
  exists raw', assign_pair raw p = Ok raw' /\ keys raw' = week.
Proof.
  intros Hk Hd Hn. destruct p as [[days|] hours]; cbn [fst snd] in *.
  - destruct Hd as (s & e & Hs & He & Hs7 & He7). unfold assign_pair.
    rewrite Hs, He. eexists. split; [reflexivity|].
    rewrite keys_fold_set; [exact Hk|].
    intros j Hj. apply in_py_range in Hj. rewrite Hk. unfold week.
    cbn [In]. lia.
  - unfold nonnull in Hn. cbn [fst snd truthy orb] in Hn.
    destruct hours as [h|]; [|discriminate]. unfold assign_pair.
    eexists. split; [reflexivity|].
    rewrite keys_fold_set; [exact Hk | apply incl_refl].
Qed.

Lemma assign_ranges_week ranges : forall raw,
  keys raw = week ->
  Forall (fun p : RangePair => days_in_week (fst p)) ranges ->
  Forall nonnull ranges ->
  exists raw', assign_ranges raw ranges = Ok raw' /\ keys raw' = week.
Proof.
  induction ranges as [|p ranges IH]; intros raw Hk Hd Hn;
    cbn [assign_ranges]; [eauto|].
  inversion Hd; inversion Hn; subst.
  destruct (assign_pair_week raw p) as (raw1 & -> & Hk1); auto.
  cbn [bind]. now apply IH.
Qed.

(** X9.  A days-range whose end is before its start assigns nothing: the
    schedule is left as it was, without an error and without wrapping
    round the week. *)
Theorem assign_pair_reversed_days raw days hours s e :
  start days = Some s -> end_ days = Some e -> e < s ->
  assign_pair raw (Some days, hours) = Ok raw.
Proof.
  intros Hs He Hlt. unfold assign_pair. rewrite Hs, He.
  unfold py_range. replace (Z.to_nat (e + 1 - s)) with 0%nat by lia.
  reflexivity.
Qed.

(** X10.  From pairs whose days-ranges lie within the week and that are
    not doubly [None] the constructor builds a schedule without an error,
    and its keys are the seven weekday numbers, in order: no weekday is
    added or lost. *)
Theorem build_raw_week ranges :
  Forall (fun p : RangePair => days_in_week (fst p)) ranges ->
  Forall nonnull ranges ->
  exists wh, build_raw ranges = Ok wh /\ keys (_raw_schedule wh) = week.
Proof.
  intros Hd Hn. unfold build_raw.
  destruct (assign_ranges_week ranges empty_schedule) as (raw & -> & Hk);
    auto.
  cbn [bind]. eauto.
Qed.

Section Construction.
Context `{RT : PyRuntime}.

Lemma match_at_range s t :
  match_at s = Some t -> type t = weekday_range ->
  exists k, In k (keys WEEKDAY_RANGES) /\ ci_prefix k s = true
            /\ value t = firstn (List.length k) s.
Proof.
  unfold match_at.
  destruct (match_hour s); [intros [= <-]; discriminate|].
  destruct (match_literals (keys WEEKDAYS) s); [intros [= <-]; discriminate|].
  destruct (match_literals (keys WEEKDAY_RANGES) s) as [n|] eqn:E.
  - intros [= <-] _. apply match_literals_key in E as (k & Hin & -> & Hp).
    now exists k.
  - destruct (match_literals RANGE_MARKS s); [intros [= <-]; discriminate|].
    destruct (match_word s); [intros [= <-]|]; discriminate.
Qed.

Lemma finditer_known_range s : forall skip,
  (forall p c, In p lexicon_letters -> In c s -> ci_eq p c = true -> c = p) ->
  Forall known_range (finditer skip s).
Proof.
  induction s as [|c s IH]; intros skip Hlit; cbn [finditer]; [constructor|].
  assert (Hs : forall p c', In p lexicon_letters -> In c' s ->
                            ci_eq p c' = true -> c' = p)
    by (intros p c' Hp Hin; apply Hlit; [exact Hp | now right]).
  destruct skip as [|skip]; [|now apply IH].
  destruct (match_at (c :: s)) as [t|] eqn:Em; [|now apply IH].
  constructor; [|now apply IH].
  intros Hty. destruct (match_at_range _ _ Em Hty) as (k & Hin & Hp & Hv).
  rewrite Hv, (ci_prefix_literal k (c :: s)); [now apply dict_get_key | | exact Hp].
  intros p c' Hpk. apply Hlit. apply in_concat. exists k.
  split; [apply in_or_app; now right | exact Hpk].
Qed.

Lemma lexicon_matched_spec text :
  lexicon_matched_literally text = true ->
  forall p c, In p lexicon_letters -> In c (preprocess text) ->
              ci_eq p c = true -> c = p.
Proof.
  intros Hlit p c Hp Hc Heq. unfold lexicon_matched_literally in Hlit.
  rewrite forallb_forall in Hlit. specialize (Hlit c Hc).
  rewrite forallb_forall in Hlit. specialize (Hlit p Hp).
  rewrite Heq in Hlit. now apply Z.eqb_eq in Hlit.
Qed.

Lemma weekday_letters_lexicon p : In p weekday_letters -> In p lexicon_letters.
Proof.
  unfold weekday_letters, lexicon_letters. rewrite concat_app.
  intros H. apply in_or_app. now left.
Qed.

(** X11.  On a text in which the letters of the lexicon are matched
    literally, the constructor fails only where the parser does: when
    [parse] returns, [WorkingHours(text)] is built, with the seven weekdays
    as its keys. *)
Theorem constructor_succeeds_when_parse_does text pairs :
  lexicon_matched_literally text = true ->
  Parser_parse text = Ok pairs ->
  exists wh, WorkingHours_init text = Ok wh
             /\ keys (_raw_schedule wh) = week.
Proof.
  intros Hlit Hp. pose proof (lexicon_matched_spec _ Hlit) as Hspec.
  unfold WorkingHours_init. rewrite Hp. cbn [bind]. apply build_raw_week.
  - eapply parse_tokens_days; [|exact Hp]. apply finditer_known.
    intros p c Hpl. apply Hspec. now apply weekday_letters_lexicon.
  - eapply parsed_pairs_nonnull; [|exact Hp].
    now apply finditer_known_range.
Qed.

(** X12.  A text without hours, weekdays, weekday ranges and showroom words
    gives a schedule that is closed at every instant and has no next
    working day; the empty text is one of them. *)
Theorem no_hours_text_is_closed text :
  forallb plain (tokenize text) = true ->
  exists wh, WorkingHours_init text = Ok wh
    /\ forall dt, check_working_time wh dt = Ok false
                  /\ get_next_working_day wh dt = Some (Ok None).
Proof.
  intros Hplain. rewrite forallb_forall in Hplain.
  assert (Hp : Parser_parse text = Ok []).
  { unfold Parser_parse. rewrite parse_tokens_no_daytime.
    - destruct (existsb _ (removelast (tokenize text))) eqn:E; [|reflexivity].
      apply existsb_exists in E as (t & Hin & Ht).
      assert (Hin' : In t (tokenize text)).
      { destruct (tokenize text) as [|t0 l]; [contradiction|].
        rewrite (app_removelast_last t0 (l := t0 :: l)) by discriminate.
        apply in_or_app. now left. }
      apply Hplain in Hin'. unfold plain in Hin'. rewrite Ht in Hin'.
      now rewrite andb_false_r in Hin'.
    - apply Forall_forall. intros t Hin. apply Hplain in Hin.
      unfold plain in Hin. apply andb_true_iff in Hin as [H _].
      now apply negb_true_iff in H. }
  unfold WorkingHours_init. rewrite Hp. cbn [bind].
  eexists. split; [reflexivity|]. intros dt.
  pose proof (isoweekday_bounds dt) as Hw.
  unfold check_working_time, get_next_working_day.
  cbn [_raw_schedule]. remember (isoweekday dt) as w.
  clear Heqw. week_cases w; split; reflexivity.
Qed.

End Construction.

(* ================================================================== *)
(** ** More on the times of day *)

Lemma first_some_In {A B} (f : A -> option B) l b :
  first_some f l = Some b -> exists a, In a l /\ f a = Some b.
Proof.
  induction l as [|a l IH]; cbn [first_some]; [discriminate|].
  destruct (f a) as [b'|] eqn:E.
  - intros [= <-]. exists a. split; [now left | exact E].
  - intros H. destruct (IH H) as (a' & Hin & Ha'). exists a'.
    split; [now right | exact Ha'].
Qed.

Section ClockFacts.
Context `{RT : PyRuntime}.

Lemma between_spec lo hi c : between lo hi c = true <-> lo <= c <= hi.
Proof.
  unfold between. rewrite andb_true_iff, !Z.leb_le. tauto.
Qed.

Lemma directive_H_bounds s h r :
  decimal_digits -> In (h, r) (directive_H s) -> 0 <= h <= 23.
Proof.
  intros Hdig. unfold directive_H.
  assert (Hone : forall x (l : pystr), In (h, r) [(x, l)] -> h = x).
  { intros x l [E|[]]. apply (f_equal fst) in E. cbn [fst] in E. congruence. }
  destruct s as [|a [|b s]]; [intros []| |].
  - destruct (digit_value a) as [v|] eqn:Ea; [|intros []].
    intros H. apply Hone in H. apply Hdig in Ea. lia.
  - intros H. apply in_app_or in H as [H|H]; [|apply in_app_or in H as [H|H]].
    + destruct (ci_eq 50 a && between 48 51 b) eqn:E; [|destruct H].
      apply andb_true_iff in E as [_ E]. apply between_spec in E.
      apply Hone in H. lia.
    + destruct (between 48 49 a) eqn:E; [|destruct H].
      apply between_spec in E.
      destruct (digit_value b) as [v|] eqn:Eb; [|destruct H].
      apply Hdig in Eb. apply Hone in H. lia.
    + destruct (digit_value a) as [v|] eqn:Ea; [|destruct H].
      apply Hdig in Ea. apply Hone in H. lia.
Qed.

Lemma directive_M_bounds s m r :
  decimal_digits -> directive_M s = Some (m, r) -> 0 <= m <= 59.
Proof.
  intros Hdig. unfold directive_M. destruct s as [|a s]; [discriminate|].
  assert (Hone : forall x (l : pystr), Some (x, l) = Some (m, r) -> m = x).
  { intros x l E. injection E as E _. congruence. }
  assert (Hsingle : match digit_value a with
                    | Some v => Some (v, s) | None => None end = Some (m, r)
                    -> 0 <= m <= 59).
  { destruct (digit_value a) as [v|] eqn:Ea; [|discriminate].
    intros H. apply Hone in H. apply Hdig in Ea. lia. }
  destruct s as [|b s']; [exact Hsingle|].
  destruct (between 48 53 a) eqn:E; [|exact Hsingle].
  apply between_spec in E.
  destruct (digit_value b) as [v|] eqn:Eb; [|exact Hsingle].
  intros H. apply Hone in H. apply Hdig in Eb. lia.
Qed.

Lemma strptime_HM_bounds sep s h m :
  decimal_digits -> strptime_HM sep s = Some (h, m) ->
  0 <= h <= 23 /\ 0 <= m <= 59.
Proof.
  intros Hdig. unfold strptime_HM.
  destruct (first_some _ (directive_H s)) as [[[h' m'] r]|] eqn:E;
    [|discriminate].
  destruct r; [|discriminate]. intros [= <- <-].
  apply first_some_In in E as ([h0 r0] & Hin & Hf). cbn [fst snd] in Hf.
  destruct r0 as [|c r0]; [discriminate|].
  destruct (ci_eq sep c); [|discriminate].
  destruct (directive_M r0) as [[m0 r1]|] eqn:Em; [|discriminate].
  cbn [option_map fst snd] in Hf. injection Hf as <- <- _.
  split; [eapply directive_H_bounds | eapply directive_M_bounds]; eauto.
Qed.

Lemma strptime_H_bounds s h :
  decimal_digits -> strptime_H s = Some h -> 0 <= h <= 23.
Proof.
  intros Hdig. unfold strptime_H.
  destruct (directive_H s) as [|[h' r] l] eqn:E; [discriminate|].
  destruct r; [|discriminate]. intros [= <-].
  eapply directive_H_bounds; [exact Hdig|]. rewrite E. now left.
Qed.

(** The hour and the minute [parse_hours] reads do not depend on the object
    whose clock it sets. *)
Lemma parse_hours_reading hour :
  exists reading : result (option (Z * Z)),
    forall A (clock : HasClock A) (obj : A),
      parse_hours hour obj
      = match reading with
        | Ok (Some (h, m)) => Ok (Some (replace_clock obj h m))
        | Ok None => Ok None
        | Raise e => Raise e
        end.
Proof.
  unfold parse_hours. destruct hour as [s|].
  2:{ exists (Raise TypeError). reflexivity. }
  destruct (first_some _ _) as [[h m]|].
  - destruct (between 0 23 h && between 0 59 m).
    + exists (Ok (Some (h, m))). reflexivity.
    + exists (Raise ValueError). reflexivity.
  - destruct (strptime_H s) as [h|].
    + destruct (between 0 23 h && between 0 59 0).
      * exists (Ok (Some (h, 0))). reflexivity.
      * exists (Raise ValueError). reflexivity.
    + exists (Ok None). reflexivity.
Qed.

(** X13.  With digits of the values 0..9, [parse_hours] raises nothing on
    a string: it returns [None], or the object with its clock set to an
    hour from 0 to 23 and a minute from 0 to 59 (seconds and microseconds
    0). *)
Theorem parse_hours_of_string {A} `{HasClock A} (s : pystr) (obj : A) :
  decimal_digits ->
  parse_hours (Some s) obj = Ok None
  \/ exists h m, 0 <= h <= 23 /\ 0 <= m <= 59
       /\ parse_hours (Some s) obj = Ok (Some (replace_clock obj h m)).
Proof.
  intros Hdig. unfold parse_hours.
  destruct (first_some _ _) as [[h m]|] eqn:E.
  - apply first_some_In in E as (sep & _ & E).
    apply (strptime_HM_bounds _ _ _ _ Hdig) in E as [Hh Hm].
    right. exists h, m.
    assert (Eb : between 0 23 h && between 0 59 m = true)
      by (apply andb_true_iff; split; apply between_spec; lia).
    rewrite Eb. auto.
  - destruct (strptime_H s) as [h|] eqn:Eh; [|now left].
    apply (strptime_H_bounds _ _ Hdig) in Eh. right. exists h, 0.
    assert (Eb : between 0 23 h && between 0 59 0 = true)
      by (apply andb_true_iff; split; apply between_spec; lia).
    rewrite Eb. repeat split; try lia.
Qed.

Lemma clock_compare (a b : DateTime) h m :
  same_clock a b ->
  DateTime_compare (replace_clock a h m) a
  = DateTime_compare (replace_clock b h m) b
  /\ DateTime_compare a (replace_clock a h m)
     = DateTime_compare b (replace_clock b h m).
Proof.
  intros (E1 & E2 & E3 & E4). unfold DateTime_compare.
  change (ordinal (replace_clock a h m)) with (ordinal a).
  change (ordinal (replace_clock b h m)) with (ordinal b).
  rewrite !Z.compare_refl. cbn [lex].
  change (dt_hour (replace_clock a h m)) with h.
  change (dt_hour (replace_clock b h m)) with h.
  change (dt_minute (replace_clock a h m)) with m.
  change (dt_minute (replace_clock b h m)) with m.
  change (dt_second (replace_clock a h m)) with 0.
  change (dt_second (replace_clock b h m)) with 0.
  change (dt_microsecond (replace_clock a h m)) with 0.
  change (dt_microsecond (replace_clock b h m)) with 0.
  now rewrite E1, E2, E3, E4.
Qed.

(** X14.  The answer of [check_working_time] depends on the weekday and on
    the time of day of the instant only, not on its date: it is the same
    a week, or any number of weeks, later. *)
Theorem check_working_time_weekly wh dt dt' :
  isoweekday dt = isoweekday dt' -> same_clock dt dt' ->
  check_working_time wh dt = check_working_time wh dt'.
Proof.
  intros Hw Hc. unfold check_working_time. rewrite Hw.
  destruct (od_get (isoweekday dt') (_raw_schedule wh)) as [[r|]|];
    cbn [bind]; try reflexivity.
  destruct (parse_hours_reading (start r)) as (rs & Hs).
  destruct (parse_hours_reading (end_ r)) as (re & He).
  rewrite !Hs, !He.
  destruct rs as [[[h m]|]|]; cbn [bind]; try reflexivity;
    destruct re as [[[h' m']|]|]; cbn [bind]; try reflexivity.
  unfold dt_le, dt_lt.
  destruct (clock_compare dt dt' h m Hc) as [-> _].
  destruct (clock_compare dt dt' h' m' Hc) as [_ ->].
  reflexivity.
Qed.

(** X15.  On a built schedule, with digits of the values 0..9, the one way
    [check_working_time] fails is the [TypeError] of a bound that is
    [None]: it raises exactly when the hours-range of the instant's weekday
    has no start or no end. *)
Theorem check_working_time_errors ranges wh dt :
  decimal_digits ->
  build_raw ranges = Ok wh ->
  match check_working_time wh dt with
  | Ok _ =>
    forall r, od_find (isoweekday dt) (_raw_schedule wh) = Some (Some r) ->
              start r <> None /\ end_ r <> None
  | Raise e =>
    e = TypeError
    /\ exists r, od_find (isoweekday dt) (_raw_schedule wh) = Some (Some r)
                 /\ (start r = None \/ end_ r = None)
  end.
Proof.
  intros Hdig Hb. apply build_raw_weekdays in Hb as [Hraw _].
  specialize (Hraw _ (isoweekday_bounds dt)).
  unfold check_working_time, od_get.
  destruct (od_find (isoweekday dt) (_raw_schedule wh)) as [[r|]|];
    [| |congruence]; cbn [bind]; [|discriminate].
  destruct (start r) as [s|] eqn:Es.
  2:{ cbn [parse_hours bind]. split; [reflexivity|]. exists r. auto. }
  destruct (parse_hours_of_string s dt Hdig) as [->|(h & m & _ & _ & ->)];
    cbn [bind].
  - destruct (end_ r) as [e|] eqn:Ee.
    2:{ cbn [parse_hours bind]. split; [reflexivity|]. exists r. auto. }
    destruct (parse_hours_of_string e dt Hdig) as [->|(h' & m' & _ & _ & ->)];
      cbn [bind]; intros r' [= <-]; split; congruence.
  - destruct (end_ r) as [e|] eqn:Ee.
    2:{ cbn [parse_hours bind]. split; [reflexivity|]. exists r. auto. }
    destruct (parse_hours_of_string e dt Hdig) as [->|(h' & m' & _ & _ & ->)];
      cbn [bind]; intros r' [= <-]; split; congruence.
Qed.

End ClockFacts.

(* ================================================================== *)
(** ** The lexicon and the concrete runtime *)

Lemma CPython_decimal_digits : decimal_digits (RT := CPython.runtime).
Proof.
  intros c v. cbn [digit_value CPython.runtime]. unfold CPython.digit.
  destruct (CPython.in_range 48 57 c) eqn:E; [|discriminate].
  unfold CPython.in_range in E. apply andb_true_iff in E as [E1 E2].
  apply Z.leb_le in E1. apply Z.leb_le in E2. intros [= <-]. lia.
Qed.

Section LexiconOrder.
Context `{RT : PyRuntime}.

Lemma ci_prefix_agree k : forall s rest,
  ci_prefix k (s ++ rest) = true -> agree k s = true.
Proof.
  induction k as [|p k IH]; intros s rest; [reflexivity|].
  destruct s as [|c s]; [reflexivity|]. cbn [app ci_prefix agree].
  intros H. apply andb_true_iff in H as [Hc Hk]. rewrite Hc. cbn [andb].
  now apply IH with rest.
Qed.

Lemma ci_prefix_self k rest :
  forallb (fun p => ci_eq p p) k = true -> ci_prefix k (k ++ rest) = true.
Proof.
  induction k as [|p k IH]; [reflexivity|]. cbn [forallb app ci_prefix].
  intros H. apply andb_true_iff in H as [-> H]. now apply IH.
Qed.

(** The first literal of the alternation that matches at a name is at
    least as long as the name. *)
Lemma find_uncut k rest l2 : forall l1,
  ci_prefix k (k ++ rest) = true ->
  forallb (fun k' => (List.length k <=? List.length k')%nat
                     || negb (agree k' k)) l1 = true ->
  exists k', find (fun x => ci_prefix x (k ++ rest)) (l1 ++ k :: l2) = Some k'
             /\ (List.length k <= List.length k')%nat.
Proof.
  intros l1 Hself. induction l1 as [|a l1 IH]; cbn [app find forallb].
  - intros _. rewrite Hself. eauto.
  - intros H. apply andb_true_iff in H as [Ha Hl].
    destruct (ci_prefix a (k ++ rest)) eqn:E; [|now apply IH].
    exists a. split; [reflexivity|].
    apply ci_prefix_agree in E. rewrite E in Ha. cbn [negb] in Ha.
    rewrite orb_false_r in Ha. now apply Nat.leb_le.
Qed.

Lemma all_uncut_spec lits : forall before k,
  all_uncut before lits = true -> In k lits ->
  exists l1 l2, before ++ lits = l1 ++ k :: l2 /\ uncut l1 k = true.
Proof.
  induction lits as [|k0 lits IH]; intros before k; cbn [all_uncut In];
    [tauto|].
  intros H Hin. apply andb_true_iff in H as [H0 H].
  destruct Hin as [<-|Hin].
  - now exists before, lits.
  - destruct (IH _ _ H Hin) as (l1 & l2 & E & Hu).
    exists l1, l2. split; [|exact Hu]. rewrite <- E, <- app_assoc. reflexivity.
Qed.

Lemma firstn_name (k rest : pystr) n :
  (List.length k <= n)%nat ->
  firstn (List.length k) (firstn n (k ++ rest)) = k.
Proof.
  intros Hn. rewrite firstn_firstn, Nat.min_l by exact Hn.
  rewrite firstn_app, firstn_all, Nat.sub_diag. cbn [firstn].
  apply app_nil_r.
Qed.

Lemma find_none {A} (f : A -> bool) l :
  forallb (fun a => negb (f a)) l = true -> find f l = None.
Proof.
  induction l as [|a l IH]; cbn [forallb find]; [reflexivity|].
  intros H. apply andb_true_iff in H as [Ha Hl].
  apply negb_true_iff in Ha. rewrite Ha. now apply IH.
Qed.

(** Where the pattern is tried at a weekday name, the token is a weekday
    token that holds the whole name, whatever follows the name. *)
Lemma match_at_weekday_name k rest :
  all_uncut [] (keys WEEKDAYS) = true -> In k (keys WEEKDAYS) ->
  exists t, match_at (k ++ rest) = Some t /\ type t = weekday
            /\ firstn (List.length k) (value t) = k.
Proof.
  intros Hall Hin.
  destruct (all_uncut_spec _ _ _ Hall Hin) as (l1 & l2 & E & Hu).
  cbn [app] in E. unfold uncut in Hu.
  apply andb_true_iff in Hu as [Hu Hbefore].
  apply andb_true_iff in Hu as [Hself Hdigit].
  destruct (find_uncut k rest l2 l1 (ci_prefix_self _ _ Hself) Hbefore)
    as (k' & Hfind & Hlen).
  unfold match_at.
  assert (Hh : match_hour (k ++ rest) = None).
  { destruct k as [|c k0]; [discriminate|]. apply negb_true_iff in Hdigit.
    unfold match_hour. cbn [app]. now rewrite Hdigit. }
  rewrite Hh. unfold match_literals. rewrite E. unfold pystr in *.
  rewrite Hfind. cbn [option_map].
  eexists. split; [reflexivity|]. split; [reflexivity|].
  cbn [value]. now apply firstn_name.
Qed.

(** The same at a phrase of [WEEKDAY_RANGES], which no weekday name
    matches. *)
Lemma match_at_range_name k rest :
  all_uncut [] (keys WEEKDAY_RANGES) = true ->
  forallb (fun a => negb (agree a k)) (keys WEEKDAYS) = true ->
  In k (keys WEEKDAY_RANGES) ->
  exists t, match_at (k ++ rest) = Some t /\ type t = weekday_range
            /\ firstn (List.length k) (value t) = k.
Proof.
  intros Hall Hdays Hin.
  destruct (all_uncut_spec _ _ _ Hall Hin) as (l1 & l2 & E & Hu).
  cbn [app] in E. unfold uncut in Hu.
  apply andb_true_iff in Hu as [Hu Hbefore].
  apply andb_true_iff in Hu as [Hself Hdigit].
  destruct (find_uncut k rest l2 l1 (ci_prefix_self _ _ Hself) Hbefore)
    as (k' & Hfind & Hlen).
  unfold match_at.
  assert (Hh : match_hour (k ++ rest) = None).
  { destruct k as [|c k0]; [discriminate|]. apply negb_true_iff in Hdigit.
    unfold match_hour. cbn [app]. now rewrite Hdigit. }
  assert (Hw : match_literals (keys WEEKDAYS) (k ++ rest) = None).
  { unfold match_literals. rewrite find_none; [reflexivity|].
    rewrite forallb_forall in Hdays. apply forallb_forall. intros a Ha.
    specialize (Hdays a Ha). apply negb_true_iff in Hdays.
    apply negb_true_iff. destruct (ci_prefix a (k ++ rest)) eqn:Ep;
      [|reflexivity].
    apply ci_prefix_agree in Ep. congruence. }
  rewrite Hh, Hw. unfold match_literals. rewrite E. unfold pystr in *.
  rewrite Hfind. cbn [option_map].
  eexists. split; [reflexivity|]. split; [reflexivity|].
  cbn [value]. now apply firstn_name.
Qed.

End LexiconOrder.

Lemma CPython_preprocess_name k rest :
  In k (keys WEEKDAYS ++ keys WEEKDAY_RANGES) ->
  preprocess (RT := CPython.runtime) (k ++ rest)
  = k ++ preprocess (RT := CPython.runtime) rest.
Proof.
  intros Hin.
  assert (E : preprocess (RT := CPython.runtime) (k ++ rest)
              = preprocess (RT := CPython.runtime) k
                ++ preprocess (RT := CPython.runtime) rest).
  { unfold preprocess, str_replace1. cbn [str_lower CPython.runtime].
    now rewrite map_app, !flat_map_app. }
  rewrite E. f_equal.
  assert (Hall : forallb (fun k => str_eqb (preprocess (RT := CPython.runtime) k) k)
                         (keys WEEKDAYS ++ keys WEEKDAY_RANGES) = true)
    by (vm_compute; reflexivity).
  rewrite forallb_forall in Hall. now apply str_eqb_eq, Hall.
Qed.

Lemma CPython_first_token k rest t :
  In k (keys WEEKDAYS ++ keys WEEKDAY_RANGES) ->
  match_at (RT := CPython.runtime)
    (k ++ preprocess (RT := CPython.runtime) rest) = Some t ->
  exists ts, tokenize (RT := CPython.runtime) (k ++ rest) = t :: ts.
Proof.
  intros Hin Hm. unfold tokenize. rewrite (CPython_preprocess_name _ _ Hin).
  destruct k as [|c k0].
  - exfalso. vm_compute in Hin.
    repeat (destruct Hin as [Hin|Hin]; [discriminate Hin|]). exact Hin.
  - cbn [app finditer] in *. rewrite Hm. eauto.
Qed.

(** X16.  Every name of [WEEKDAYS] and every phrase of [WEEKDAY_RANGES],
    taken as a text, is read as one token, a weekday or a weekday-range
    token with the whole name as its text, and gives one pair with the
    weekday numbers of its table entry.  No name of the pattern is cut
    short by a shorter one that stands before it: a text that begins with
    a name of the lexicon, whatever follows the name, begins with a token
    of the name's kind that holds the whole name. *)
Theorem lexicon_names_parse :
  Forall (fun kn : pystr * Z =>
            tokenize (RT := CPython.runtime) (fst kn)
            = [mkToken (fst kn) weekday]
            /\ Tests.parse (fst kn)
               = Ok [(Some (mkRange (Some (snd kn)) (Some (snd kn))), None)])
         WEEKDAYS
  /\ Forall (fun kr : pystr * (Z * Z) =>
               tokenize (RT := CPython.runtime) (fst kr)
               = [mkToken (fst kr) weekday_range]
               /\ Tests.parse (fst kr)
                  = Ok [(Some (mkRange (Some (fst (snd kr)))
                                       (Some (snd (snd kr)))),
                         None)])
            WEEKDAY_RANGES
  /\ (forall k rest, In k (keys WEEKDAYS) ->
        exists t ts,
          tokenize (RT := CPython.runtime) (k ++ rest) = t :: ts
          /\ type t = weekday /\ firstn (List.length k) (value t) = k)
  /\ (forall k rest, In k (keys WEEKDAY_RANGES) ->
        exists t ts,
          tokenize (RT := CPython.runtime) (k ++ rest) = t :: ts
          /\ type t = weekday_range /\ firstn (List.length k) (value t) = k).
Proof.
  split; [repeat constructor; vm_compute; reflexivity|].
  split; [repeat constructor; vm_compute; reflexivity|].
  split; intros k rest Hin.
  - destruct (match_at_weekday_name (RT := CPython.runtime) k
                (preprocess (RT := CPython.runtime) rest))
      as (t & Hm & Hty & Hv); [vm_compute; reflexivity | exact Hin |].
    destruct (CPython_first_token k rest t) as [ts E];
      [apply in_or_app; now left | exact Hm |].
    now exists t, ts.
  - assert (Hdays : forallb (fun k => forallb
                       (fun a => negb (agree (RT := CPython.runtime) a k))
                       (keys WEEKDAYS)) (keys WEEKDAY_RANGES) = true)
      by (vm_compute; reflexivity).
    rewrite forallb_forall in Hdays.
    destruct (match_at_range_name (RT := CPython.runtime) k
                (preprocess (RT := CPython.runtime) rest))
      as (t & Hm & Hty & Hv);
      [vm_compute; reflexivity | now apply Hdays | exact Hin |].
    destruct (CPython_first_token k rest t) as [ts E];
      [apply in_or_app; now right | exact Hm |].
    now exists t, ts.
Qed.

(** X17.  The abbreviations [print_schedule] prints are the two-letter
    names of [WEEKDAYS], one for each weekday number, and looking an
    abbreviation up in [WEEKDAYS] gives the number back. *)
Theorem weekday_names_inverse d :
  1 <= d <= 7 ->
  exists name, od_find d weekday_names = Some name
               /\ List.length name = 2%nat
               /\ dict_get WEEKDAYS name = Some d.
Proof.
  intros Hd. week_cases d; eexists; (split; [vm_compute; reflexivity|]);
    split; vm_compute; reflexivity.
Qed.

Lemma CPython_preprocess_dash text :
  preprocess (RT := CPython.runtime) (long_dash_to_hyphen text)
  = preprocess (RT := CPython.runtime) text.
Proof.
  unfold preprocess, str_replace1, long_dash_to_hyphen.
  cbn [str_lower CPython.runtime].
  induction text as [|c text IH]; [reflexivity|].
  cbn [List.map flat_map]. rewrite !flat_map_app.
  cbn [List.map flat_map] in IH. rewrite IH. f_equal.
  destruct (Z.eqb_spec c 8211) as [->|N1]; [reflexivity|].
  destruct (Z.eqb_spec c 8212) as [->|N2]; [reflexivity|].
  reflexivity.
Qed.

(** X18.  On the concrete runtime a long dash and a hyphen are read alike:
    a text and the same text with its long dashes written as hyphens give
    the same tokens, hence the same result of [parse] and the same
    schedule. *)
Theorem long_dash_is_hyphen text :
  tokenize (RT := CPython.runtime) (long_dash_to_hyphen text)
  = tokenize (RT := CPython.runtime) text
  /\ Tests.parse (long_dash_to_hyphen text) = Tests.parse text
  /\ Tests.new (long_dash_to_hyphen text) = Tests.new text.
Proof.
  assert (E : tokenize (RT := CPython.runtime) (long_dash_to_hyphen text)
              = tokenize (RT := CPython.runtime) text)
    by (unfold tokenize; now rewrite CPython_preprocess_dash).
  unfold Tests.new, WorkingHours_init, Tests.parse, Parser_parse.
  now rewrite E.
Qed.

(* ================================================================== *)
(** ** [get_next_working_hours] *)

Lemma day_after_delta w j :
  1 <= w <= 7 -> 1 <= j <= 6 ->
  day_after w j <> 0 /\ (day_after w j + 7 - w) mod 7 = j.
Proof.
  intros Hw Hj. week_cases w; week_cases j;
    first [exfalso; lia
          | vm_compute; split; [intros E; discriminate E | reflexivity]].
Qed.

Lemma isoweekday_shift d j :
  1 <= j <= 6 ->
  isoweekday {| ordinal := ordinal d + j; dt_hour := 0; dt_minute := 0;
                dt_second := 0; dt_microsecond := 0 |}
  = day_after (isoweekday d) j.
Proof.
  intros Hj. unfold isoweekday, day_after. cbn [ordinal].
  rewrite <- (Zplus_mod_idemp_l (ordinal d) j 7).
  pose proof (Z.mod_pos_bound (ordinal d) 7 ltac:(lia)) as Hr.
  set (r := ordinal d mod 7) in *.
  assert (r = 0 \/ r = 1 \/ r = 2 \/ r = 3 \/ r = 4 \/ r = 5 \/ r = 6) as H
    by lia.
  repeat (destruct H as [H|H]); rewrite H; week_cases j;
    first [exfalso; lia | reflexivity].
Qed.

Lemma next_day_loop_found raw w d :
  1 <= w <= 7 ->
  forall fuel k,
    1 <= k <= 7 ->
    next_day_loop fuel raw w (day_after w k) = Some (Ok (Some d)) ->
    exists j, k <= j <= 6 /\ d = day_after w j /\ has_hours raw d.
Proof.
  intros Hw. induction fuel as [|fuel IH]; intros k Hk; [discriminate|].
  destruct (day_after_next w k Hw Hk) as (Hnext & _ & Hback).
  cbn [next_day_loop].
  destruct (Z.eqb_spec (day_after w k) w) as [E|E]; cbn [negb];
    [discriminate|].
  assert (k <= 6) by (destruct (Z.eq_dec k 7); [tauto | lia]).
  unfold od_get.
  destruct (od_find (day_after w k) raw) as [[r|]|] eqn:Ef; cbn [truthy];
    [| |discriminate].
  - intros [= <-]. exists k. repeat split; try lia. now exists r.
  - rewrite Hnext. intros H'. apply IH in H' as (j & Hj & Hd & Hh); [|lia].
    exists j. repeat split; try lia; assumption.
Qed.

Lemma get_next_working_day_found wh dt d :
  get_next_working_day wh dt = Some (Ok (Some d)) ->
  exists j, 1 <= j <= 6 /\ d = day_after (isoweekday dt) j
            /\ has_hours (_raw_schedule wh) d.
Proof.
  unfold get_next_working_day.
  rewrite (day_after_first _ (isoweekday_bounds dt)).
  intros H. eapply next_day_loop_found in H;
    [exact H | apply isoweekday_bounds | lia].
Qed.

Section NextHoursFacts.
Context `{RT : PyRuntime}.

(** What [get_next_working_hours] does once the next working day is
    known: the pair of the two bounds, read on the date of that day. *)
Lemma get_next_working_hours_found wh dt d j r :
  get_next_working_day wh dt = Some (Ok (Some d)) ->
  1 <= j <= 6 -> d = day_after (isoweekday dt) j ->
  od_find d (_raw_schedule wh) = Some (Some r) ->
  get_next_working_hours wh dt
  = if (1 <=? ordinal dt + j) && (ordinal dt + j <=? MAXORDINAL)
    then Some (Returned
           (let next_date := mkDateTime (ordinal dt + j) 0 0 0 0 in
            start_datetime <- parse_hours (start r) next_date ;;
            end_datetime <- parse_hours (end_ r) next_date ;;
            Ok (start_datetime, end_datetime)))
    else Some OverflowError.
Proof.
  intros Hday Hj Hd Hf. unfold get_next_working_hours. rewrite Hday.
  destruct (day_after_delta _ j (isoweekday_bounds dt) Hj) as [Hnz Hdelta].
  rewrite <- Hd in Hnz, Hdelta.
  destruct (Z.eqb_spec d 0) as [E|_]; [contradiction|]. cbn [negb].
  rewrite Hdelta. unfold add_days, date_of. cbn [ordinal].
  destruct ((1 <=? ordinal dt + j) && (ordinal dt + j <=? MAXORDINAL));
    [|reflexivity].
  unfold od_get. rewrite Hf. reflexivity.
Qed.

(** X19.  A window [get_next_working_hours] returns lies on one date, from
    one to six days after the date of the instant; the weekday of that
    date is the one [get_next_working_day] gives, and it has hours. *)
Theorem next_working_hours_window wh dt s e :
  get_next_working_hours wh dt = Some (Returned (Ok (Some s, Some e))) ->
  exists d j,
    get_next_working_day wh dt = Some (Ok (Some d))
    /\ has_hours (_raw_schedule wh) d
    /\ 1 <= j <= 6
    /\ ordinal s = ordinal dt + j /\ ordinal e = ordinal dt + j
    /\ isoweekday s = d /\ isoweekday e = d.
Proof.
  intros H.
  destruct (get_next_working_day wh dt) as [[[d|]|]|] eqn:Hday;
    try (unfold get_next_working_hours in H; rewrite Hday in H; discriminate).
  destruct (get_next_working_day_found _ _ _ Hday) as (j & Hj & Hd & [r Hr]).
  rewrite (get_next_working_hours_found _ _ _ _ _ Hday Hj Hd Hr) in H.
  destruct (_ && _); [|discriminate]. injection H as H.
  apply bind_Ok in H as (ps & Hs & H). apply bind_Ok in H as (pe & He & H).
  injection H as -> ->.
  destruct (parse_hours_clock _ _ _ Hs) as (h & m & Hs').
  destruct (parse_hours_clock _ _ _ He) as (h' & m' & He').
  rewrite Hs' in Hs. rewrite He' in He.
  injection Hs as <-. injection He as <-.
  exists d, j. repeat split; try assumption; try lia; try (now exists r);
    try reflexivity; rewrite Hd; exact (isoweekday_shift dt j Hj).
Qed.

(** X20.  The window and [check_working_time] agree: at the end of a window
    [get_next_working_hours] returns the answer is [False], and at its
    start it is [True] exactly when the start is before the end. *)
Theorem next_working_hours_checked wh dt s e :
  get_next_working_hours wh dt = Some (Returned (Ok (Some s, Some e))) ->
  check_working_time wh s = Ok (dt_lt s e)
  /\ check_working_time wh e = Ok false.
Proof.
  intros H.
  destruct (get_next_working_day wh dt) as [[[d|]|]|] eqn:Hday;
    try (unfold get_next_working_hours in H; rewrite Hday in H; discriminate).
  destruct (get_next_working_day_found _ _ _ Hday) as (j & Hj & Hd & [r Hr]).
  rewrite (get_next_working_hours_found _ _ _ _ _ Hday Hj Hd Hr) in H.
  destruct (_ && _); [|discriminate]. injection H as H.
  apply bind_Ok in H as (ps & Hs & H). apply bind_Ok in H as (pe & He & H).
  injection H as -> ->.
  destruct (parse_hours_clock _ _ _ Hs) as (h & m & Hs').
  destruct (parse_hours_clock _ _ _ He) as (h' & m' & He').
  rewrite Hs' in Hs. rewrite He' in He.
  injection Hs as <-. injection He as <-.
  set (next := mkDateTime (ordinal dt + j) 0 0 0 0).
  assert (Hw : isoweekday next = d)
    by (rewrite Hd; exact (isoweekday_shift dt j Hj)).
  unfold check_working_time, od_get.
  change (isoweekday (replace_clock next h m)) with (isoweekday next).
  change (isoweekday (replace_clock next h' m')) with (isoweekday next).
  rewrite Hw, Hr. cbn [bind]. rewrite !Hs', !He'. cbn [bind].
  change (replace_clock (replace_clock next h m) h m)
    with (replace_clock next h m).
  change (replace_clock (replace_clock next h m) h' m')
    with (replace_clock next h' m').
  change (replace_clock (replace_clock next h' m') h m)
    with (replace_clock next h m).
  change (replace_clock (replace_clock next h' m') h' m')
    with (replace_clock next h' m').
  now rewrite dt_le_refl, dt_lt_irrefl, andb_false_r.
Qed.

(** X21.  On a built schedule on which no weekday other than the instant's
    has hours, [get_next_working_hours] returns [(None, None)], whatever
    the date. *)
Theorem next_working_hours_none ranges wh dt :
  build_raw ranges = Ok wh ->
  (forall d, 1 <= d <= 7 -> d <> isoweekday dt ->
             no_hours (_raw_schedule wh) d) ->
  get_next_working_hours wh dt = Some (Returned (Ok (None, None))).
Proof.
  intros Hb Hall. apply build_raw_weekdays in Hb as [Hraw _].
  destruct (get_next_working_day_spec wh dt Hraw) as (r & Hr & Hspec).
  unfold get_next_working_hours. rewrite Hr.
  destruct r as [d|]; [exfalso|reflexivity].
  destruct Hspec as (k & Hk & -> & [x Hx] & _).
  destruct (day_after_next (isoweekday dt) k (isoweekday_bounds dt) ltac:(lia))
    as (_ & Hrange & Hback).
  unfold no_hours in Hall. rewrite Hall in Hx; [discriminate | exact Hrange |].
  intros E. apply Hback in E. lia.
Qed.

(** X22.  On a built schedule, for an instant at least six days before
    [date.max] and with digits of the values 0..9,
    [get_next_working_hours] returns or raises a [TypeError], and it raises
    exactly when the hours-range of the next working day has no start or
    no end. *)
Theorem next_working_hours_errors ranges wh dt :
  decimal_digits ->
  build_raw ranges = Ok wh ->
  1 <= ordinal dt -> ordinal dt + 6 <= MAXORDINAL ->
  match get_next_working_hours wh dt with
  | Some (Returned (Ok _)) =>
    forall d r, get_next_working_day wh dt = Some (Ok (Some d)) ->
                od_find d (_raw_schedule wh) = Some (Some r) ->
                start r <> None /\ end_ r <> None
  | Some (Returned (Raise e)) =>
    e = TypeError
    /\ exists d r, get_next_working_day wh dt = Some (Ok (Some d))
                   /\ od_find d (_raw_schedule wh) = Some (Some r)
                   /\ (start r = None \/ end_ r = None)
  | _ => False
  end.
Proof.
  intros Hdig Hb Hlo Hhi. apply build_raw_weekdays in Hb as [Hraw _].
  destruct (get_next_working_day_spec wh dt Hraw) as (res & Hday & _).
  destruct res as [d|].
  2:{ unfold get_next_working_hours. rewrite Hday.
      intros d r [=]. }
  destruct (get_next_working_day_found _ _ _ Hday) as (j & Hj & Hd & [r Hr]).
  rewrite (get_next_working_hours_found _ _ _ _ _ Hday Hj Hd Hr).
  assert (Eb : (1 <=? ordinal dt + j) && (ordinal dt + j <=? MAXORDINAL) = true)
    by (apply andb_true_iff; split; apply Z.leb_le; lia).
  rewrite Eb. cbv zeta.
  set (next := mkDateTime (ordinal dt + j) 0 0 0 0).
  destruct (start r) as [s|] eqn:Es.
  2:{ cbn [parse_hours bind]. split; [reflexivity|]. exists d, r. auto. }
  destruct (end_ r) as [e|] eqn:Ee.
  2:{ destruct (parse_hours_of_string s next Hdig)
        as [->|(h & m & _ & _ & ->)]; cbn [parse_hours bind];
        (split; [reflexivity|]); exists d, r; auto. }
  destruct (parse_hours_of_string s next Hdig) as [->|(h & m & _ & _ & ->)];
    destruct (parse_hours_of_string e next Hdig)
      as [->|(h' & m' & _ & _ & ->)];
    cbn [bind]; intros d' r' Hd'; rewrite Hday in Hd'; injection Hd' as <-;
    rewrite Hr; intros [= <-]; split; congruence.
Qed.

(** X23.  When the date of the next working day would lie past
    [date.max], [get_next_working_hours] ends in an [OverflowError]. *)
Theorem next_working_hours_overflow wh dt d j :
  get_next_working_day wh dt = Some (Ok (Some d)) ->
  1 <= j <= 6 -> d = day_after (isoweekday dt) j ->
  MAXORDINAL < ordinal dt + j ->
  get_next_working_hours wh dt = Some OverflowError.
Proof.
  intros Hday Hj Hd Hmax.
  destruct (get_next_working_day_found _ _ _ Hday) as (_ & _ & _ & [r Hr]).
  rewrite (get_next_working_hours_found _ _ _ _ _ Hday Hj Hd Hr).
  destruct (Z.leb_spec (ordinal dt + j) MAXORDINAL); [lia|].
  now rewrite andb_false_r.
Qed.

End NextHoursFacts.

(* ================================================================== *)
(** ** [build_schedule] and [print_schedule] *)

Lemma keys_od_set_new {V} k (v : V) d :
  ~ In k (keys d) -> keys (od_set k v d) = keys d ++ [k].
Proof.
  induction d as [|[k' v'] d IH]; cbn [keys List.map fst od_set In app];
    [reflexivity|].
  intros H. destruct (Z.eqb_spec k' k) as [->|Hne]; [tauto|].
  cbn [List.map fst]. f_equal. apply IH. tauto.
Qed.

Lemma od_find_keys {V} d (l : list (Z * V)) :
  In d (keys l) <-> od_find d l <> None.
Proof.
  pose proof (existsb_keys d l) as H.
  destruct (od_find d l) eqn:E; cbn [truthy] in H.
  - apply existsb_exists in H as (x & Hin & Hx). apply Z.eqb_eq in Hx.
    subst x. split; [discriminate | auto].
  - split; [|congruence]. intros Hin.
    assert (existsb (Z.eqb d) (keys l) = true); [|congruence].
    apply existsb_exists. exists d. split; [exact Hin | apply Z.eqb_refl].
Qed.

Section ScheduleFacts.
Context `{RT : PyRuntime}.

Lemma build_schedule_loop_spec raw days : forall acc sch,
  NoDup days -> (forall d, In d days -> ~ In d (keys acc)) ->
  build_schedule_loop raw days acc = Ok sch ->
  keys sch = keys acc ++ days
  /\ (forall d, ~ In d days -> od_find d sch = od_find d acc)
  /\ (forall d, In d days ->
        exists hr entry, od_find d raw = Some hr
                         /\ od_find d sch = Some entry
                         /\ built_entry hr entry).
Proof.
  induction days as [|day days IH]; intros acc sch Hnd Hfresh;
    cbn [build_schedule_loop].
  - intros [= <-]. rewrite app_nil_r. repeat split; auto. intros d [].
  - inversion Hnd as [|? ? Hday Hnd']; subst.
    intros H. apply bind_Ok in H as (hr & Hget & H).
    unfold od_get in Hget.
    destruct (od_find day raw) as [hr'|] eqn:Eraw; [|discriminate].
    injection Hget as ->.
    assert (Hstep : forall entry,
      built_entry hr entry ->
      build_schedule_loop raw days (od_set day entry acc) = Ok sch ->
      keys sch = keys acc ++ day :: days
      /\ (forall d, ~ In d (day :: days) -> od_find d sch = od_find d acc)
      /\ (forall d, In d (day :: days) ->
            exists hr0 entry0, od_find d raw = Some hr0
                               /\ od_find d sch = Some entry0
                               /\ built_entry hr0 entry0)).
    { intros entry Hentry Hloop.
      assert (Hk : keys (od_set day entry acc) = keys acc ++ [day])
        by (apply keys_od_set_new, Hfresh; now left).
      apply IH in Hloop as (Hkeys & Hout & Hin); [|exact Hnd'|].
      2:{ intros d Hd. rewrite Hk. intros Hc. apply in_app_or in Hc as [Hc|Hc].
          - revert Hc. apply Hfresh. now right.
          - destruct Hc as [<-|[]]. contradiction. }
      rewrite Hk, <- app_assoc in Hkeys. split; [exact Hkeys|]. split.
      - intros d Hd. rewrite Hout by (intros Hc; apply Hd; now right).
        rewrite od_find_set. destruct (Z.eqb_spec d day) as [->|_];
          [exfalso; apply Hd; now left | reflexivity].
      - intros d [<-|Hd]; [|now apply Hin].
        exists hr, entry. split; [exact Eraw|]. split; [|exact Hentry].
        rewrite Hout by exact Hday. rewrite od_find_set.
        now rewrite Z.eqb_refl. }
    destruct hr as [r|].
    + apply bind_Ok in H as (s & Hs & H). apply bind_Ok in H as (e & He & H).
      apply (Hstep (Some (s, e))); [|exact H]. now exists s, e.
    + now apply (Hstep None).
Qed.

Lemma od_set_NoDup {V} k (v : V) d : NoDup (keys d) -> NoDup (keys (od_set k v d)).
Proof.
  intros H. destruct (in_dec Z.eq_dec k (keys d)) as [Hin|Hout].
  - now rewrite keys_od_set.
  - rewrite keys_od_set_new by exact Hout.
    apply NoDup_app; [exact H | constructor; [intros [] | constructor] |].
    intros x Hx [<-|[]]. contradiction.
Qed.

Lemma fold_set_NoDup {V} (v : V) l : forall d,
  NoDup (keys d) ->
  NoDup (keys (fold_left (fun d day => od_set day v d) l d)).
Proof.
  induction l as [|k l IH]; intros d H; cbn [fold_left]; [exact H|].
  apply IH. now apply od_set_NoDup.
Qed.

Lemma build_raw_NoDup ranges wh :
  build_raw ranges = Ok wh -> NoDup (keys (_raw_schedule wh)).
Proof.
  unfold build_raw. intros H. apply bind_Ok in H as (raw & H & [= <-]).
  cbn [_raw_schedule].
  assert (Hgen : forall rs raw0 raw1,
            NoDup (keys raw0) -> assign_ranges raw0 rs = Ok raw1 ->
            NoDup (keys raw1)).
  { clear. induction rs as [|p rs IH]; intros raw0 raw1 Hnd;
      cbn [assign_ranges]; [now intros [= <-]|].
    intros H. apply bind_Ok in H as (raw' & Hp & H).
    eapply IH; [|exact H]. revert Hp. unfold assign_pair.
    destruct p as [[days|] hours].
    - destruct (start days), (end_ days); try discriminate.
      intros [= <-]. now apply fold_set_NoDup.
    - destruct hours; [|discriminate]. intros [= <-].
      now apply fold_set_NoDup. }
  eapply Hgen; [|exact H]. vm_compute.
  repeat (constructor; [cbn [In]; intuition discriminate|]). constructor.
Qed.

(** X24.  The schedule [build_schedule] returns for a built object has the
    weekdays of the raw schedule, in the same order; a weekday without
    hours has the entry [None], and a weekday with hours the pair of what
    [parse_hours] reads from its two bounds. *)
Theorem build_schedule_entries ranges wh sch :
  build_raw ranges = Ok wh ->
  build_schedule wh = Ok sch ->
  keys sch = keys (_raw_schedule wh)
  /\ forall d hr, od_find d (_raw_schedule wh) = Some hr ->
       exists entry, od_find d sch = Some entry /\ built_entry hr entry.
Proof.
  intros Hb Hs. apply build_raw_NoDup in Hb. unfold build_schedule in Hs.
  apply build_schedule_loop_spec in Hs as (Hk & _ & Hin);
    [|exact Hb|intros d _ []].
  split; [exact Hk|]. intros d hr Hd.
  destruct (Hin d) as (hr' & entry & Hraw & Hsch & Hentry).
  { apply od_find_keys. congruence. }
  exists entry. split; [exact Hsch|]. congruence.
Qed.

Lemma strftime_of_Ok t format out :
  strftime_of t format = Ok out -> t <> None /\ strftime_error format = None.
Proof.
  unfold strftime_of. destruct t as [t|]; [|discriminate].
  destruct (strftime_error format); [discriminate|].
  intros _. split; [discriminate | reflexivity].
Qed.

Lemma print_lines_succeed sch format weekend_name :
  (exists lines, print_lines sch format weekend_name = Ok lines)
  <-> Forall complete sch
      /\ (strftime_error format = None \/ Forall day_off sch).
Proof.
  induction sch as [|[day entry] sch IH]; cbn [print_lines].
  - split; [intros _; split; [constructor | right; constructor] | eauto].
  - split.
    + intros [lines H]. apply bind_Ok in H as (line & Hline & H).
      apply bind_Ok in H as (rest & Hrest & _).
      assert (Hsch : exists lines', print_lines sch format weekend_name = Ok lines')
        by eauto.
      apply IH in Hsch as [Hc Hf].
      destruct entry as [[s e]|].
      * apply bind_Ok in Hline as (x & Hs & Hline).
        apply bind_Ok in Hline as (y & He & _).
        apply strftime_of_Ok in Hs as [Hs Hfmt].
        apply strftime_of_Ok in He as [He _].
        split; [|now left]. constructor; [|exact Hc]. split; assumption.
      * split; [constructor; [exact I | exact Hc]|].
        destruct Hf as [Hf|Hf]; [now left|]. right. constructor; [reflexivity|exact Hf].
    + intros [Hc Hf]. inversion Hc as [|? ? Hentry Hrest]; subst.
      assert (Hsch : exists rest, print_lines sch format weekend_name = Ok rest).
      { apply IH. split; [exact Hrest|].
        destruct Hf as [Hf|Hf]; [now left|]. right. now inversion Hf. }
      destruct Hsch as [rest ->].
      unfold complete in Hentry. cbn [snd] in Hentry.
      destruct entry as [[s e]|]; cbn [bind]; [|eauto].
      destruct Hentry as [Hs He].
      destruct Hf as [Hf|Hf]; [|inversion Hf as [|? ? Hoff _]; discriminate Hoff].
      destruct s as [s|]; [|congruence]. destruct e as [e|]; [|congruence].
      unfold strftime_of. rewrite Hf. cbn [bind]. eauto.
Qed.

(** X25.  [print_schedule] returns a string exactly when the object holds a
    stored schedule in which every window has both of its times and, unless
    no weekday has a window, the format is one [strftime] takes; a stored
    window with a time [None], left by a bound that does not parse, makes
    it raise, and so does a format [strftime] raises on. *)
Theorem print_schedule_succeeds_iff wh format delimiter weekend_name :
  (exists out, print_schedule wh format delimiter weekend_name = Ok out)
  <-> exists sch, schedule wh = Some sch /\ Forall complete sch
        /\ (strftime_error format = None \/ Forall day_off sch).
Proof.
  unfold print_schedule. destruct (schedule wh) as [sch|]; cbn [bind].
  - split.
    + intros [out H]. exists sch. split; [reflexivity|].
      apply bind_Ok in H as (lines & Hl & _).
      apply (print_lines_succeed sch format weekend_name). eauto.
    + intros (sch' & [= <-] & Hc).
      apply (print_lines_succeed sch format weekend_name) in Hc as [lines ->].
      cbn [bind]. eauto.
  - split.
    + intros [out H]. destruct (build_schedule wh); discriminate.
    + intros (sch & [=] & _).
Qed.

End ScheduleFacts.

(* ================================================================== *)
(** ** Writing a time and reading it back; the tests of the source *)

Lemma CPython_format_default h m sec us :
  strftime (PyRuntime := CPython.runtime) (mkTime h m sec us) (u "%H:%M")
  = strftime (PyRuntime := CPython.runtime) (mkTime h m 0 0) (u "%H:%M").
Proof. reflexivity. Qed.

Lemma round_trip_checked :
  forallb (fun h => forallb (round_trip_check h) (py_range 0 60))
          (py_range 0 24) = true.
Proof. vm_compute. reflexivity. Qed.

(** X26.  [parse_hours] reads back what [strftime] writes with the default
    format of [print_schedule]: for every hour from 0 to 23 and minute
    from 0 to 59 the text "HH:MM" parses to that hour and minute. *)
Theorem format_then_parse {A} `{HasClock A} (obj : A) h m sec us :
  0 <= h <= 23 -> 0 <= m <= 59 ->
  parse_hours (RT := CPython.runtime)
    (Some (strftime (PyRuntime := CPython.runtime)
             (mkTime h m sec us) (u "%H:%M"))) obj
  = Ok (Some (replace_clock obj h m)).
Proof.
  intros Hh Hm. rewrite CPython_format_default.
  pose proof round_trip_checked as Hall.
  rewrite forallb_forall in Hall.
  specialize (Hall h ltac:(apply in_py_range; lia)).
  rewrite forallb_forall in Hall.
  specialize (Hall m ltac:(apply in_py_range; lia)).
  unfold round_trip_check in Hall.
  destruct (parse_hours_reading (RT := CPython.runtime)
              (Some (strftime (PyRuntime := CPython.runtime)
                       (mkTime h m 0 0) (u "%H:%M")))) as (reading & Hr).
  rewrite Hr in Hall. rewrite Hr.
  destruct reading as [[[h' m']|]|]; try discriminate.
  change (t_hour (replace_clock midnight h' m')) with h' in Hall.
  change (t_minute (replace_clock midnight h' m')) with m' in Hall.
  apply andb_true_iff in Hall as [E1 E2].
  apply Z.eqb_eq in E1. apply Z.eqb_eq in E2. now subst.
Qed.

(** The embedding agrees with the tests of the source: on every row of
    [TYPICAL_CASES_WITH_CORRECT_RESULTS] the [str] of what [parse] returns
    is the expected string, and [check_working_time] gives the expected
    answers at the three instants of [test_working_hours]. *)
Example tests_of_the_source_pass :
  forallb Tests.parser_case Tests.TYPICAL_CASES_WITH_CORRECT_RESULTS = true
  /\ forallb Tests.working_hours_case Tests.TYPICAL_CASES_WITH_CORRECT_RESULTS
     = true.
Proof. split; vm_compute; reflexivity. Qed.

(* ================================================================== *)
(** ** Instances of the theorems on the rest of the code *)

Lemma parse_tokens_no_daytime_witness :
  Forall (fun t => is_daytime (type t) = false) Tests.no_hours_tokens
  /\ parse_tokens Tests.no_hours_tokens
     = if existsb (fun t => str_in (value t) SHOWROOM_WORDS)
                  (removelast Tests.no_hours_tokens)
       then Raise AttributeError else Ok [].
Proof.
  assert (H : Forall (fun t => is_daytime (type t) = false)
                     Tests.no_hours_tokens)
    by (repeat constructor).
  split; [exact H | exact (parse_tokens_no_daytime _ H)].
Defined.

Lemma parsed_hours_are_hour_tokens_witness :
  parse_tokens Tests.daily_tokens = Ok [(Tests.days 1 7, Tests.hours "8.00" "21.00")]
  /\ Forall (fun p : RangePair => hours_from Tests.daily_tokens (snd p))
            [(Tests.days 1 7, Tests.hours "8.00" "21.00")].
Proof.
  assert (H : parse_tokens Tests.daily_tokens
              = Ok [(Tests.days 1 7, Tests.hours "8.00" "21.00")])
    by (vm_compute; reflexivity).
  split; [exact H | exact (parsed_hours_are_hour_tokens _ _ H)].
Defined.

Lemma daily_tokens_known : Forall known_range Tests.daily_tokens.
Proof.
  repeat constructor; intros H; try discriminate H.
  eexists. vm_compute. reflexivity.
Defined.

Lemma parsed_pairs_nonnull_witness :
  Forall known_range Tests.daily_tokens
  /\ parse_tokens Tests.daily_tokens = Ok [(Tests.days 1 7, Tests.hours "8.00" "21.00")]
  /\ Forall nonnull [(Tests.days 1 7, Tests.hours "8.00" "21.00")].
Proof.
  assert (H : parse_tokens Tests.daily_tokens
              = Ok [(Tests.days 1 7, Tests.hours "8.00" "21.00")])
    by (vm_compute; reflexivity).
  split; [exact daily_tokens_known|]. split; [exact H|].
  exact (parsed_pairs_nonnull _ _ daily_tokens_known H).
Defined.

Lemma parsed_pairs_count_witness :
  parse_tokens Tests.daily_tokens = Ok [(Tests.days 1 7, Tests.hours "8.00" "21.00")]
  /\ (List.length [(Tests.days 1 7, Tests.hours "8.00" "21.00")]
      <= daytime_count Tests.daily_tokens)%nat.
Proof.
  assert (H : parse_tokens Tests.daily_tokens
              = Ok [(Tests.days 1 7, Tests.hours "8.00" "21.00")])
    by (vm_compute; reflexivity).
  split; [exact H | exact (parsed_pairs_count _ _ H)].
Defined.

Lemma assign_pair_reversed_days_witness :
  6 > 1
  /\ assign_pair empty_schedule (Tests.days 6 1, Tests.hours "10:00" "18:00")
     = Ok empty_schedule.
Proof.
  split; [lia|].
  apply (assign_pair_reversed_days empty_schedule (mkRange (Some 6) (Some 1))
           (Tests.hours "10:00" "18:00") 6 1); [reflexivity | reflexivity | lia].
Defined.

Lemma mon_fri_in_week :
  Forall (fun p : RangePair => days_in_week (fst p)) [Tests.mon_fri].
Proof.
  repeat constructor. exists 1, 5. cbn. repeat split; lia.
Defined.

Lemma build_raw_week_witness :
  Forall (fun p : RangePair => days_in_week (fst p)) [Tests.mon_fri]
  /\ Forall nonnull [Tests.mon_fri]
  /\ exists wh, build_raw [Tests.mon_fri] = Ok wh
                /\ keys (_raw_schedule wh) = week.
Proof.
  assert (H : Forall nonnull [Tests.mon_fri]) by (repeat constructor).
  split; [exact mon_fri_in_week|]. split; [exact H|].
  exact (build_raw_week _ mon_fri_in_week H).
Defined.

Lemma constructor_succeeds_when_parse_does_witness :
  lexicon_matched_literally (RT := CPython.runtime) (u "Пн-Пт: 9.00-19.00") = true
  /\ Tests.parse (u "Пн-Пт: 9.00-19.00") = Ok [Tests.mon_fri]
  /\ exists wh, Tests.new (u "Пн-Пт: 9.00-19.00") = Ok wh
                /\ keys (_raw_schedule wh) = week.
Proof.
  assert (H1 : lexicon_matched_literally (RT := CPython.runtime)
                 (u "Пн-Пт: 9.00-19.00") = true) by (vm_compute; reflexivity).
  assert (H2 : Tests.parse (u "Пн-Пт: 9.00-19.00") = Ok [Tests.mon_fri])
    by (vm_compute; reflexivity).
  split; [exact H1|]. split; [exact H2|].
  exact (constructor_succeeds_when_parse_does (RT := CPython.runtime) _ _ H1 H2).
Defined.

Lemma no_hours_text_is_closed_witness :
  forallb plain (tokenize (RT := CPython.runtime) (u "Закрыто на ремонт")) = true
  /\ exists wh, Tests.new (u "Закрыто на ремонт") = Ok wh
       /\ forall dt, check_working_time (RT := CPython.runtime) wh dt = Ok false
                     /\ get_next_working_day wh dt = Some (Ok None).
Proof.
  assert (H : forallb plain (tokenize (RT := CPython.runtime)
                               (u "Закрыто на ремонт")) = true)
    by (vm_compute; reflexivity).
  split; [exact H|].
  exact (no_hours_text_is_closed (RT := CPython.runtime) _ H).
Defined.

Lemma parse_hours_of_string_witness :
  decimal_digits (RT := CPython.runtime)
  /\ (parse_hours (RT := CPython.runtime) (Some (u "9.00")) midnight = Ok None
      \/ exists h m, 0 <= h <= 23 /\ 0 <= m <= 59
           /\ parse_hours (RT := CPython.runtime) (Some (u "9.00")) midnight
              = Ok (Some (replace_clock midnight h m))).
Proof.
  split; [exact CPython_decimal_digits|].
  exact (parse_hours_of_string (RT := CPython.runtime) (u "9.00") midnight
           CPython_decimal_digits).
Defined.

Lemma check_working_time_weekly_witness :
  isoweekday Tests.test_datetime1 = isoweekday Tests.next_thursday_16
  /\ same_clock Tests.test_datetime1 Tests.next_thursday_16
  /\ forall wh,
       check_working_time (RT := CPython.runtime) wh Tests.test_datetime1
       = check_working_time (RT := CPython.runtime) wh Tests.next_thursday_16.
Proof.
  assert (H1 : isoweekday Tests.test_datetime1
               = isoweekday Tests.next_thursday_16) by reflexivity.
  assert (H2 : same_clock Tests.test_datetime1 Tests.next_thursday_16)
    by (repeat split).
  split; [exact H1|]. split; [exact H2|]. intros wh.
  exact (check_working_time_weekly (RT := CPython.runtime) wh _ _ H1 H2).
Defined.

Lemma check_working_time_errors_witness :
  decimal_digits (RT := CPython.runtime)
  /\ exists wh,
       build_raw [Tests.open_ended] = Ok wh
       /\ match check_working_time (RT := CPython.runtime) wh Tests.monday_10 with
          | Ok _ =>
            forall r,
              od_find (isoweekday Tests.monday_10) (_raw_schedule wh)
              = Some (Some r) ->
              start r <> None /\ end_ r <> None
          | Raise e =>
            e = TypeError
            /\ exists r,
                 od_find (isoweekday Tests.monday_10) (_raw_schedule wh)
                 = Some (Some r)
                 /\ (start r = None \/ end_ r = None)
          end.
Proof.
  split; [exact CPython_decimal_digits|].
  eexists. split; [vm_compute; reflexivity|].
  apply (check_working_time_errors (RT := CPython.runtime) [Tests.open_ended]);
    [exact CPython_decimal_digits | vm_compute; reflexivity].
Defined.

Lemma lexicon_names_parse_witness :
  In (u "вт") (keys WEEKDAYS)
  /\ exists t ts,
       tokenize (RT := CPython.runtime) (u "вт" ++ u "орник - суббота") = t :: ts
       /\ type t = weekday
       /\ firstn (List.length (u "вт")) (value t) = u "вт".
Proof.
  assert (H : In (u "вт") (keys WEEKDAYS))
    by (vm_compute; right; right; right; left; reflexivity).
  split; [exact H|].
  exact (proj1 (proj2 (proj2 lexicon_names_parse))
           (u "вт") (u "орник - суббота") H).
Defined.

Lemma weekday_names_inverse_witness :
  1 <= 3 <= 7
  /\ exists name, od_find 3 weekday_names = Some name
                  /\ List.length name = 2%nat
                  /\ dict_get WEEKDAYS name = Some 3.
Proof.
  assert (H : 1 <= 3 <= 7) by lia.
  split; [exact H | exact (weekday_names_inverse 3 H)].
Defined.

Lemma next_working_hours_window_witness :
  exists wh,
    build_raw [Tests.mon_fri] = Ok wh
    /\ get_next_working_hours (RT := CPython.runtime) wh Tests.friday_20
       = Some (Returned (Ok (Some Tests.next_monday_9, Some Tests.next_monday_19)))
    /\ exists d j,
         get_next_working_day wh Tests.friday_20 = Some (Ok (Some d))
         /\ has_hours (_raw_schedule wh) d
         /\ 1 <= j <= 6
         /\ ordinal Tests.next_monday_9 = ordinal Tests.friday_20 + j
         /\ ordinal Tests.next_monday_19 = ordinal Tests.friday_20 + j
         /\ isoweekday Tests.next_monday_9 = d
         /\ isoweekday Tests.next_monday_19 = d.
Proof.
  eexists. split; [vm_compute; reflexivity|].
  split; [vm_compute; reflexivity|].
  apply (next_working_hours_window (RT := CPython.runtime)).
  vm_compute. reflexivity.
Defined.

Lemma next_working_hours_checked_witness :
  exists wh,
    build_raw [Tests.mon_fri] = Ok wh
    /\ get_next_working_hours (RT := CPython.runtime) wh Tests.friday_20
       = Some (Returned (Ok (Some Tests.next_monday_9, Some Tests.next_monday_19)))
    /\ check_working_time (RT := CPython.runtime) wh Tests.next_monday_9
       = Ok (dt_lt Tests.next_monday_9 Tests.next_monday_19)
    /\ check_working_time (RT := CPython.runtime) wh Tests.next_monday_19
       = Ok false.
Proof.
  eexists. split; [vm_compute; reflexivity|].
  split; [vm_compute; reflexivity|].
  apply (next_working_hours_checked (RT := CPython.runtime) _ Tests.friday_20).
  vm_compute. reflexivity.
Defined.

Lemma next_working_hours_none_witness :
  exists wh,
    build_raw [(Tests.days 1 1, Tests.hours "9:00" "18:00")] = Ok wh
    /\ has_hours (_raw_schedule wh) (isoweekday Tests.monday_10)
    /\ (forall d, 1 <= d <= 7 -> d <> isoweekday Tests.monday_10 ->
                  no_hours (_raw_schedule wh) d)
    /\ get_next_working_hours (RT := CPython.runtime) wh Tests.monday_10
       = Some (Returned (Ok (None, None))).
Proof.
  eexists. split; [vm_compute; reflexivity|].
  split; [eexists; vm_compute; reflexivity|].
  match goal with
  | |- ?P /\ _ =>
    assert (H : P)
      by (intros d Hd Hne; week_cases d;
          first [reflexivity | exfalso; apply Hne; reflexivity])
  end.
  split; [exact H|].
  apply (next_working_hours_none (RT := CPython.runtime)
           [(Tests.days 1 1, Tests.hours "9:00" "18:00")]);
    [vm_compute; reflexivity | exact H].
Defined.

Lemma next_working_hours_errors_witness :
  decimal_digits (RT := CPython.runtime)
  /\ 1 <= ordinal Tests.friday_20
  /\ ordinal Tests.friday_20 + 6 <= MAXORDINAL
  /\ exists wh,
       build_raw [Tests.open_ended] = Ok wh
       /\ match get_next_working_hours (RT := CPython.runtime) wh Tests.friday_20 with
          | Some (Returned (Ok _)) =>
            forall d r,
              get_next_working_day wh Tests.friday_20 = Some (Ok (Some d)) ->
              od_find d (_raw_schedule wh) = Some (Some r) ->
              start r <> None /\ end_ r <> None
          | Some (Returned (Raise e)) =>
            e = TypeError
            /\ exists d r,
                 get_next_working_day wh Tests.friday_20 = Some (Ok (Some d))
                 /\ od_find d (_raw_schedule wh) = Some (Some r)
                 /\ (start r = None \/ end_ r = None)
          | _ => False
          end.
Proof.
  assert (H1 : 1 <= ordinal Tests.friday_20) by (vm_compute; discriminate).
  assert (H2 : ordinal Tests.friday_20 + 6 <= MAXORDINAL)
    by (vm_compute; discriminate).
  split; [exact CPython_decimal_digits|]. split; [exact H1|].
  split; [exact H2|].
  eexists. split; [vm_compute; reflexivity|].
  apply (next_working_hours_errors (RT := CPython.runtime) [Tests.open_ended]);
    [exact CPython_decimal_digits | vm_compute; reflexivity
     | exact H1 | exact H2].
Defined.

Lemma next_working_hours_overflow_witness :
  exists wh,
    build_raw [Tests.mon_fri] = Ok wh
    /\ get_next_working_day wh Tests.last_day = Some (Ok (Some 1))
    /\ 1 <= 3 <= 6
    /\ 1 = day_after (isoweekday Tests.last_day) 3
    /\ MAXORDINAL < ordinal Tests.last_day + 3
    /\ get_next_working_hours (RT := CPython.runtime) wh Tests.last_day
       = Some OverflowError.
Proof.
  eexists. split; [vm_compute; reflexivity|].
  assert (H1 : 1 <= 3 <= 6) by lia.
  assert (H2 : MAXORDINAL < ordinal Tests.last_day + 3)
    by (vm_compute; reflexivity).
  split; [vm_compute; reflexivity|]. split; [exact H1|].
  split; [reflexivity|]. split; [exact H2|].
  apply (next_working_hours_overflow (RT := CPython.runtime) _ _ 1 3);
    [vm_compute; reflexivity | exact H1 | reflexivity | exact H2].
Defined.

Lemma build_schedule_entries_witness :
  exists wh sch,
    build_raw [Tests.mon_fri] = Ok wh
    /\ build_schedule (RT := CPython.runtime) wh = Ok sch
    /\ keys sch = keys (_raw_schedule wh)
    /\ forall d hr, od_find d (_raw_schedule wh) = Some hr ->
         exists entry, od_find d sch = Some entry
                       /\ built_entry (RT := CPython.runtime) hr entry.
Proof.
  do 2 eexists. split; [vm_compute; reflexivity|].
  split; [vm_compute; reflexivity|].
  apply (build_schedule_entries (RT := CPython.runtime) [Tests.mon_fri]);
    vm_compute; reflexivity.
Defined.

Lemma format_then_parse_witness :
  0 <= 9 <= 23 /\ 0 <= 5 <= 59
  /\ parse_hours (RT := CPython.runtime)
       (Some (strftime (PyRuntime := CPython.runtime)
                (mkTime 9 5 30 0) (u "%H:%M"))) midnight
     = Ok (Some (replace_clock midnight 9 5)).
Proof.
  assert (H1 : 0 <= 9 <= 23) by lia. assert (H2 : 0 <= 5 <= 59) by lia.
  split; [exact H1|]. split; [exact H2|].
  exact (format_then_parse midnight 9 5 30 0 H1 H2).
Defined.
